(** * Financial ledger and reporting engine: a shallow embedding

    The development follows [finance/models.py], [finance/services.py] and
    the billing views of [finance/views.py].  Money is kept in integer
    cents (every stored amount is a [DecimalField] with two decimal places),
    calendar dates are (year, month, day) triples checked the way Python's
    [datetime.date] checks them, and an exception raised by the source is a
    [None] of the embedding. *)

From Stdlib Require Import ZArith Lia Ascii String.
From stdpp Require Import base option list strings gmap.

Local Open Scope Z_scope.

(* ===================================================================== *)
(** ** Calendar: [datetime.date] as the source uses it *)
(* ===================================================================== *)

Module Calendar.

Record date := Date { year : Z; month : Z; day : Z }.

#[global] Instance date_eq_dec : EqDecision date.
Proof. solve_decision. Defined.

Definition MINYEAR : Z := 1.
Definition MAXYEAR : Z := 9999.

Definition is_leap (y : Z) : bool :=
  (y mod 4 =? 0) && (negb (y mod 100 =? 0) || (y mod 400 =? 0)).

(** [datetime._days_in_month]. *)
Definition days_in_month (y m : Z) : Z :=
  if (m =? 2) then (if is_leap y then 29 else 28)
  else if (m =? 4) || (m =? 6) || (m =? 9) || (m =? 11) then 30
  else 31.

Definition valid_dateb (d : date) : bool :=
  (MINYEAR <=? year d) && (year d <=? MAXYEAR)
  && (1 <=? month d) && (month d <=? 12)
  && (1 <=? day d) && (day d <=? days_in_month (year d) (month d)).

Definition valid_date (d : date) : Prop := valid_dateb d = true.

(** The checked constructor [date(year, month, day)]: [None] stands for
    the [ValueError] Python raises on an out-of-range field. *)
Definition py_date (y m d : Z) : option date :=
  let r := Date y m d in
  if valid_dateb r then Some r else None.

(** Date comparison is lexicographic on (year, month, day). *)
Definition date_ltb (a b : date) : bool :=
  (year a <? year b)
  || ((year a =? year b)
      && ((month a <? month b)
          || ((month a =? month b) && (day a <? day b)))).

Definition date_leb (a b : date) : bool := negb (date_ltb b a).

(** [d - timedelta(days=1)]: the previous calendar day; [None] is the
    [OverflowError] raised below [date.min]. *)
Definition minus_one_day (d : date) : option date :=
  if 1 <? day d then Some (Date (year d) (month d) (day d - 1))
  else if 1 <? month d
       then Some (Date (year d) (month d - 1)
                       (days_in_month (year d) (month d - 1)))
       else if MINYEAR <? year d
            then Some (Date (year d - 1) 12 31)
            else None.

(** [value.replace(day=1)]: always a valid date when [value] is. *)
Definition replace_day1 (d : date) : date := Date (year d) (month d) 1.

(** services.py, [_last_day_of_month]. *)
Definition _last_day_of_month (value : date) : option date :=
  if month value =? 12 then py_date (year value) 12 31
  else
    next_month ← py_date (year value) (month value + 1) 1;
    minus_one_day next_month.

(** views.py, [_add_months] (the same four lines in
    [TransactionCreateView] and in [WorkOrderPaymentView]).  Python's [//]
    and [%] by a positive number are [Z.div] and [Z.modulo]. *)
Definition _add_months (base_date : date) (months : Z) : option date :=
  let y := year base_date + ((month base_date - 1 + months) / 12) in
  let m := ((month base_date - 1 + months) mod 12) + 1 in
  first ← py_date y m 1;
  last ← _last_day_of_month first;
  py_date y m (Z.min (day base_date) (day last)).

(** services.py, [_month_list]: the [while cursor <= end_cursor] loop,
    unrolled on a fuel that [_month_list] sets to the number of months of
    the span, which the loop never exceeds. *)
Fixpoint month_list_loop (fuel : nat) (cursor end_cursor : date)
  : option (list date) :=
  if date_leb cursor end_cursor then
    match fuel with
    | O => None
    | S fuel' =>
        let y := year cursor + (month cursor / 12) in
        let m := (month cursor mod 12) + 1 in
        next ← py_date y m 1;
        rest ← month_list_loop fuel' next end_cursor;
        Some (cursor :: rest)
    end
  else Some [].

Definition month_span (a b : date) : Z :=
  12 * (year b - year a) + (month b - month a) + 1.

Definition _month_list (start_date end_date : date) : option (list date) :=
  month_list_loop (Z.to_nat (month_span start_date end_date))
                  (replace_day1 start_date) (replace_day1 end_date).

End Calendar.

(* ===================================================================== *)
(** ** Money: two-decimal [Decimal] values as integer cents *)
(* ===================================================================== *)

Module Money.

(** [(total / n).quantize(Decimal('0.01'))] on a total of [total] cents.
    [quantize] rounds with the context's default mode, ROUND_HALF_EVEN:
    to the nearest cent, a tie going to the even cent.  The quotient is
    taken exactly; the 28 significant digits the decimal context keeps
    are far more than a 15-digit amount divided by at most 24 needs to
    decide the rounding. *)
Definition quantize_div (total n : Z) : Z :=
  let q := total / n in
  let r := total mod n in
  if 2 * r <? n then q
  else if n <? 2 * r then q + 1
  else if Z.even q then q else q + 1.

Definition sum (l : list Z) : Z := foldr Z.add 0 l.

End Money.

(* ===================================================================== *)
(** ** Ledger entities and the transaction life cycle (models.py) *)
(* ===================================================================== *)

Module Ledger.
Import Calendar.

(** [TIPO_CHOICES]. *)
Inductive Tipo := receita | despesa.

(** [STATUS_CHOICES]. *)
Inductive Status := previsto | realizado | atrasado | cancelado.

(** [DRE_GROUP_CHOICES]; a blank [dre_group] is [None]. *)
Inductive DreGroup :=
| receita_operacional | impostos_venda | cmv | despesas_venda
| despesas_financeiras | receita_financeira | despesas_gerais_adm.

#[global] Instance Tipo_eq_dec : EqDecision Tipo.
Proof. solve_decision. Defined.
#[global] Instance Status_eq_dec : EqDecision Status.
Proof. solve_decision. Defined.
#[global] Instance DreGroup_eq_dec : EqDecision DreGroup.
Proof. solve_decision. Defined.

Record Account := {
  acc_id : nat;
  acc_user : nat;
  bank_code : string;
  agencia : string;
  conta_numero : string;
  saldo_inicial : Z;
  ativa : bool;
  is_primary : bool;
}.

Record Category := {
  cat_id : nat;
  nome : string;
  cat_tipo : Tipo;
  dre_group : option DreGroup;
}.

(** The fields of [Transaction] the ledger rules read or write; free-text
    and recurrence fields play no part in them and are left out. *)
Record Transaction := {
  user : nat;
  work_order : option nat;
  tipo : Tipo;
  status : Status;
  valor : Z;
  data_vencimento : date;
  data_pagamento : option date;
  payment_origin : option string;
  account : Account;
  category : Category;
  is_installment : bool;
  is_projection : bool;
  installment_group_id : option nat;
  installment_number : option Z;
  installment_total : option Z;
  invoice_number : option string;
  invoice_issued_at : option date;
  boleto_number : option string;
  boleto_issued_at : option date;
}.

Definition set_status (s : Status) (t : Transaction) : Transaction :=
  {| user := user t; work_order := work_order t; tipo := tipo t;
     status := s; valor := valor t;
     data_vencimento := data_vencimento t;
     data_pagamento := data_pagamento t;
     payment_origin := payment_origin t; account := account t;
     category := category t; is_installment := is_installment t;
     is_projection := is_projection t;
     installment_group_id := installment_group_id t;
     installment_number := installment_number t;
     installment_total := installment_total t;
     invoice_number := invoice_number t;
     invoice_issued_at := invoice_issued_at t;
     boleto_number := boleto_number t;
     boleto_issued_at := boleto_issued_at t |}.

Definition set_data_pagamento (p : option date) (t : Transaction)
  : Transaction :=
  {| user := user t; work_order := work_order t; tipo := tipo t;
     status := status t; valor := valor t;
     data_vencimento := data_vencimento t;
     data_pagamento := p;
     payment_origin := payment_origin t; account := account t;
     category := category t; is_installment := is_installment t;
     is_projection := is_projection t;
     installment_group_id := installment_group_id t;
     installment_number := installment_number t;
     installment_total := installment_total t;
     invoice_number := invoice_number t;
     invoice_issued_at := invoice_issued_at t;
     boleto_number := boleto_number t;
     boleto_issued_at := boleto_issued_at t |}.

Definition set_data_vencimento (d : date) (t : Transaction)
  : Transaction :=
  {| user := user t; work_order := work_order t; tipo := tipo t;
     status := status t; valor := valor t;
     data_vencimento := d;
     data_pagamento := data_pagamento t;
     payment_origin := payment_origin t; account := account t;
     category := category t; is_installment := is_installment t;
     is_projection := is_projection t;
     installment_group_id := installment_group_id t;
     installment_number := installment_number t;
     installment_total := installment_total t;
     invoice_number := invoice_number t;
     invoice_issued_at := invoice_issued_at t;
     boleto_number := boleto_number t;
     boleto_issued_at := boleto_issued_at t |}.

(** Python truth value of an optional field: [None] is false, a date or
    a record is true. *)
Definition truthy {A} (o : option A) : bool :=
  match o with Some _ => true | None => false end.

(** [Transaction.clean]: the [ValidationError] it raises, if any. *)
Inductive ValidationError :=
| PaymentBeforeDue | PaymentAfterToday | CategoryKindMismatch.

Definition clean (today : date) (t : Transaction)
  : option ValidationError :=
  match data_pagamento t with
  | Some p =>
      if date_ltb p (data_vencimento t) then Some PaymentBeforeDue
      else if date_ltb today p then Some PaymentAfterToday
      else if bool_decide (tipo t <> cat_tipo (category t))
           then Some CategoryKindMismatch else None
  | None =>
      if bool_decide (tipo t <> cat_tipo (category t))
      then Some CategoryKindMismatch else None
  end.

(** [Transaction.save], with [today = timezone.now().date()]; the value
    returned is the row that [super().save()] persists. *)
Definition save (today : date) (t : Transaction) : Transaction :=
  if bool_decide (status t = cancelado) then
    set_data_pagamento None t
  else if is_projection t && negb (truthy (data_pagamento t))
  then set_data_pagamento None (set_status previsto t)
  else
    match data_pagamento t with
    | Some _ => set_status realizado t
    | None =>
        if date_ltb (data_vencimento t) today
        then set_data_pagamento None (set_status atrasado t)
        else set_data_pagamento None (set_status previsto t)
    end.

(** [Transaction.marcar_como_realizado]: [data_pagamento or today]. *)
Definition marcar_como_realizado (today : date) (pagamento : option date)
           (t : Transaction) : Transaction :=
  save today
       (set_data_pagamento (Some (default today pagamento))
                           (set_status realizado t)).

(** [Transaction.marcar_como_previsto]. *)
Definition marcar_como_previsto (today : date) (t : Transaction)
  : Transaction :=
  save today (set_data_pagamento None (set_status previsto t)).

(** [Transaction.cancelar]. *)
Definition cancelar (today : date) (t : Transaction) : Transaction :=
  save today (set_data_pagamento None (set_status cancelado t)).

(** [Account.calcular_saldo_atual] over the account's transactions. *)
Definition realized_total (k : Tipo) (txs : list Transaction) : Z :=
  Money.sum
    (map valor
         (filter (fun t => tipo t = k /\ status t = realizado) txs)).

Definition calcular_saldo_atual (a : Account) (txs : list Transaction)
  : Z :=
  saldo_inicial a + realized_total receita txs
  - realized_total despesa txs.

End Ledger.

(* ===================================================================== *)
(** ** The installment generators and the ledger endpoints (views.py) *)
(* ===================================================================== *)

Module Views.
Import Calendar Ledger.

(** [Transaction.objects.create(...)]: build the row with the model's
    defaults ([status='previsto'], no invoice data) and [save] it. *)
Definition create (today : date) (u : nat) (wo : option nat) (k : Tipo)
           (amount : Z) (due : date) (pagamento : option date)
           (acc : Account) (cat : Category)
           (installment projection : bool)
           (group : option nat) (number total : option Z) : Transaction :=
  save today
    {| user := u; work_order := wo; tipo := k; status := previsto;
       valor := amount; data_vencimento := due;
       data_pagamento := pagamento; payment_origin := None;
       account := acc; category := cat;
       is_installment := installment; is_projection := projection;
       installment_group_id := group;
       installment_number := number; installment_total := total;
       invoice_number := None; invoice_issued_at := None;
       boleto_number := None; boleto_issued_at := None |}.

(** *** [TransactionCreateView._create_expense_installments] *)

Record TransactionFormData := {
  f_valor : option Z;
  f_data_vencimento : date;
  f_account : Account;
  f_category : Category;
}.

Definition _create_expense_installments
           (today : date) (request_user : nat) (group_id : nat)
           (form : TransactionFormData) (installments : Z)
  : option (list Transaction) :=
  let total_amount := default 0 (f_valor form) in
  let first_due_date := f_data_vencimento form in
  let base_value := Money.quantize_div total_amount installments in
  let remainder := total_amount - base_value * installments in
  mapM (fun idx =>
          let installment_value :=
            if idx =? installments - 1 then base_value + remainder
            else base_value in
          due_date ← _add_months first_due_date idx;
          Some (create today request_user None despesa
                       installment_value due_date None
                       (f_account form) (f_category form)
                       true false (Some group_id)
                       (Some (idx + 1)) (Some installments)))
       (seqZ 0 installments).

(** *** [WorkOrderPaymentView.post] *)

Record WorkOrder := { wo_id : nat; labor_cost : option Z }.

Record WorkOrderPaymentForm := {
  installments : Z;
  first_due_date : date;
  confirm_regenerate : bool;
}.

(** [IntegerField(min_value=1, max_value=24)]. *)
Definition payment_form_is_valid (form : WorkOrderPaymentForm) : bool :=
  (1 <=? installments form) && (installments form <=? 24).

(** The creation loop of [post], lines 1139-1177. *)
Definition generate_installments
           (today : date) (request_user : nat) (group_id : nat)
           (order : WorkOrder) (total_amount : Z)
           (acc : Account) (cat : Category)
           (form : WorkOrderPaymentForm)
  : option (list Transaction) :=
  let n := installments form in
  let base_value := Money.quantize_div total_amount n in
  let remainder := total_amount - base_value * n in
  mapM (fun idx =>
          let installment_value :=
            if idx =? n - 1 then base_value + remainder
            else base_value in
          due_date ← (if idx =? 0 then Some (first_due_date form)
                      else _add_months (first_due_date form) idx);
          Some (create today request_user (Some (wo_id order)) receita
                       installment_value due_date None acc cat
                       true true (Some group_id)
                       (Some (idx + 1)) (Some n)))
       (seqZ 0 n).

(** The reasons [post] gives for refusing; [DateOutOfRange] is the
    [ValueError] of a due date past the calendar, which leaves the atomic
    block and rolls it back. *)
Inductive Rejection :=
| AlreadyHasInstallments | AlreadyRealized | FormInvalid
| MissingAmount | MissingDefaults | ConfirmRegenerate
| DateOutOfRange.

Definition of_order (order : WorkOrder) (t : Transaction) : bool :=
  bool_decide (work_order t = Some (wo_id order)).

(** The bulk [update(status='cancelado', data_pagamento=None)] of the
    order's open non-installment rows; [update] does not call [save]. *)
Definition supersede (order : WorkOrder) (t : Transaction) : Transaction :=
  if of_order order t && negb (is_installment t)
     && negb (bool_decide (status t = cancelado))
     && negb (bool_decide (status t = realizado))
  then set_data_pagamento None (set_status cancelado t)
  else t.

(** [post]: the stored transactions after the request, or the reason the
    request was refused.  [acc] and [cat] are the outcome of the default
    account and category look-up. *)
Definition WorkOrderPaymentView_post
           (today : date) (request_user : nat) (group_id : nat)
           (db : list Transaction) (order : WorkOrder)
           (acc : option Account) (cat : option Category)
           (form : WorkOrderPaymentForm)
  : Rejection + list Transaction :=
  if existsb (fun t => of_order order t && is_installment t
                       && negb (bool_decide (status t = cancelado))) db
  then inl AlreadyHasInstallments
  else if existsb (fun t => of_order order t
                            && bool_decide (status t = realizado)) db
  then inl AlreadyRealized
  else if negb (payment_form_is_valid form) then inl FormInvalid
  else
    let total_amount := default 0 (labor_cost order) in
    if total_amount <=? 0 then inl MissingAmount
    else
      match acc, cat with
      | Some a, Some c =>
          if existsb (fun t => of_order order t && is_installment t
                               && bool_decide (status t = cancelado)) db
             && negb (confirm_regenerate form)
          then inl ConfirmRegenerate
          else
            match generate_installments today request_user group_id
                                        order total_amount a c form with
            | Some created => inr (map (supersede order) db ++ created)
            | None => inl DateOutOfRange
            end
      | _, _ => inl MissingDefaults
      end.

(** *** The mark-realized, mark-pending, cancel and invoice endpoints *)

Inductive Message :=
| NotFound | IsProjection | IsCanceled | IsRealized | AccountIncomplete
| FormNotValid | NotInstallment | NotRealized | Success.

Definition nonempty (s : string) : bool :=
  match s with EmptyString => false | String _ _ => true end.

Definition account_complete (a : Account) : bool :=
  nonempty (bank_code a) && nonempty (agencia a)
  && nonempty (conta_numero a).

Record MarkAsCompletedForm := {
  confirmacao : bool;
  form_data_pagamento : option date;
}.

(** [TransactionMarkAsCompletedView.post]. *)
Definition TransactionMarkAsCompletedView_post
           (today : date) (request_user : nat)
           (form : MarkAsCompletedForm) (t : Transaction)
  : Transaction * Message :=
  if negb (bool_decide (user t = request_user)) then (t, NotFound)
  else if is_projection t then (t, IsProjection)
  else if bool_decide (status t = cancelado) then (t, IsCanceled)
  else if bool_decide (status t = realizado) then (t, IsRealized)
  else if negb (account_complete (account t)) then (t, AccountIncomplete)
  else if confirmacao form then
    let data_pagamento := default today (form_data_pagamento form) in
    (marcar_como_realizado today (Some data_pagamento) t, Success)
  else (t, FormNotValid).

(** [TransactionMarkAsPendingView.post]: it warns and redirects; the
    call of [marcar_como_previsto] is not part of this view. *)
Definition TransactionMarkAsPendingView_post
           (request_user : nat) (t : Transaction)
  : Transaction * Message :=
  if negb (bool_decide (user t = request_user)) then (t, NotFound)
  else if negb (bool_decide (status t = realizado)) then (t, NotRealized)
  else (t, Success).

(** [TransactionCancelView.post]. *)
Definition TransactionCancelView_post
           (today : date) (request_user : nat) (t : Transaction)
  : Transaction * Message :=
  if negb (bool_decide (user t = request_user)) then (t, NotFound)
  else if negb (is_installment t) then (t, NotInstallment)
  else if bool_decide (status t = realizado) then (t, IsRealized)
  else (cancelar today t, Success).

(** The cleaned data of [InstallmentInvoiceForm]; [inv_is_valid] is the
    outcome of [form.is_valid()]. *)
Record InstallmentInvoiceForm := {
  inv_is_valid : bool;
  inv_payment_origin : option string;
  generate_nf : bool;
  inv_invoice_number : option string;
  inv_invoice_issued_at : option date;
  generate_boleto : bool;
  inv_boleto_number : option string;
  inv_boleto_issued_at : option date;
}.

(** [InstallmentInvoiceView.post]. *)
Definition InstallmentInvoiceView_post
           (today : date) (form : InstallmentInvoiceForm)
           (t : Transaction) : Transaction * Message :=
  if negb (is_installment t && bool_decide (tipo t = receita))
  then (t, NotFound)
  else if bool_decide (status t = realizado) then (t, IsRealized)
  else if bool_decide (status t = cancelado) then (t, IsCanceled)
  else if negb (inv_is_valid form) then (t, FormNotValid)
  else
    (save today
       {| user := user t; work_order := work_order t; tipo := tipo t;
          status := status t; valor := valor t;
          data_vencimento := data_vencimento t;
          data_pagamento := data_pagamento t;
          payment_origin := inv_payment_origin form;
          account := account t; category := category t;
          is_installment := is_installment t;
          is_projection :=
            if generate_nf form then false else is_projection t;
          installment_group_id := installment_group_id t;
          installment_number := installment_number t;
          installment_total := installment_total t;
          invoice_number :=
            if generate_nf form then inv_invoice_number form else None;
          invoice_issued_at :=
            if generate_nf form then inv_invoice_issued_at form
            else None;
          boleto_number :=
            if generate_boleto form then inv_boleto_number form
            else None;
          boleto_issued_at :=
            if generate_boleto form then inv_boleto_issued_at form
            else None |},
     Success).

End Views.

(* ===================================================================== *)
(** ** Report builders (services.py) *)
(* ===================================================================== *)

Module Services.
Import Calendar Ledger.

Record Database := {
  accounts : list Account;
  transactions : list Transaction;
}.

(** [phase == 'futuro'] selects the forecast; every other value takes the
    [else] branch, which the callers name ['consolidado']. *)
Inductive Phase := futuro | consolidado.

Inductive DateFieldName := data_vencimento_field | data_pagamento_field.

Definition getattr_date (f : DateFieldName) (t : Transaction)
  : option date :=
  match f with
  | data_vencimento_field => Some (data_vencimento t)
  | data_pagamento_field => data_pagamento t
  end.

(** [get_finance_queryset]. *)
Definition get_finance_queryset (db : Database)
           (user_f account_id category_id : option nat)
  : list Transaction :=
  let qs := transactions db in
  let qs := match user_f with
            | Some u => filter (fun t => user t = u) qs
            | None => qs end in
  let qs := match account_id with
            | Some a => filter (fun t => acc_id (account t) = a) qs
            | None => qs end in
  match category_id with
  | Some c => filter (fun t => cat_id (category t) = c) qs
  | None => qs
  end.

(** [apply_phase_filter]. *)
Definition apply_phase_filter (qs : list Transaction) (phase : Phase)
           (start_date end_date : date)
  : list Transaction * DateFieldName :=
  let qs := filter (fun t => status t <> cancelado) qs in
  let qs := filter (fun t =>
                      date_leb start_date (data_vencimento t) = true
                      /\ date_leb (data_vencimento t) end_date = true)
                   qs in
  let qs := match phase with
            | futuro =>
                filter (fun t => status t = previsto
                                 \/ status t = atrasado) qs
            | consolidado => filter (fun t => status t = realizado) qs
            end in
  let date_field := data_vencimento_field in
  (qs, date_field).

(** [month.strftime('%Y-%m')]: the key is the (year, month) pair. *)
Definition month_key (d : date) : Z * Z := (year d, month d).

(** [{label['key']: idx for idx, label in enumerate(month_labels)}]. *)
Definition month_index_of (months : list date) : gmap (Z * Z) nat :=
  foldl (fun m p => <[month_key p.2 := p.1]> m) ∅
        (imap (fun i d => (i, d)) months).

(** [TruncMonth(date_field)]. *)
Definition TruncMonth (f : DateFieldName) (t : Transaction)
  : option date :=
  replace_day1 <$> getattr_date f t.

(** *** Category classification (the if/elif chain of lines 93-108) *)

Fixpoint contains (keyword s : string) : bool :=
  String.prefix keyword s
  || match s with
     | EmptyString => false
     | String _ rest => contains keyword rest
     end.

(** [str.lower] on a name written in ASCII: the letters A-Z move to
    a-z, every other character stays. *)
Definition lower_ascii (c : ascii) : ascii :=
  let n := nat_of_ascii c in
  if ((65 <=? n) && (n <=? 90))%nat then ascii_of_nat (n + 32) else c.

Fixpoint ascii_lower (s : string) : string :=
  match s with
  | EmptyString => EmptyString
  | String c rest => String (lower_ascii c) (ascii_lower rest)
  end.

Section Classifier.
(** [str.lower] is taken as given. *)
Variable lower : string -> string.

Definition match_category (name : string) (keywords : list string)
  : bool :=
  match name with
  | EmptyString => false
  | _ => let name_lower := lower name in
         existsb (fun keyword => contains keyword name_lower) keywords
  end.

Definition kw_receita_financeira : list string :=
  ["juros"; "rendimento"; "financeira"; "tarifa"]%string.
Definition kw_impostos_venda : list string :=
  ["imposto"; "tributo"; "iss"; "icms"; "simples"]%string.
Definition kw_cmv : list string :=
  ["custo"; "cmv"; "cpv"; "mercadoria"; "producao"]%string.
Definition kw_despesas_venda : list string :=
  ["venda"; "comissao"; "marketing"; "publicidade"; "frete"]%string.
Definition kw_despesas_financeiras : list string :=
  ["juros"; "tarifa"; "taxa"; "banco"; "financeira"]%string.

Definition group_is (g : DreGroup) (dre : option DreGroup) : bool :=
  bool_decide (dre = Some g).

Definition classify (k : Tipo) (category_name : string)
           (dre : option DreGroup) : DreGroup :=
  match k with
  | receita =>
      if group_is receita_financeira dre
         || match_category category_name kw_receita_financeira
      then receita_financeira
      else receita_operacional
  | despesa =>
      if group_is impostos_venda dre
         || match_category category_name kw_impostos_venda
      then impostos_venda
      else if group_is cmv dre
              || match_category category_name kw_cmv
      then cmv
      else if group_is despesas_venda dre
              || match_category category_name kw_despesas_venda
      then despesas_venda
      else if group_is despesas_financeiras dre
              || match_category category_name kw_despesas_financeiras
      then despesas_financeiras
      else despesas_gerais_adm
  end.

(** *** [build_dre_context] *)

(** One row of [.values('tipo', 'category__nome',
    'category__dre_group', 'month').annotate(total=Sum('valor'))]. *)
Record DreItem := {
  it_tipo : Tipo;
  it_nome : string;
  it_dre_group : option DreGroup;
  it_month : option date;
  it_total : Z;
}.

Definition same_dre_key (a b : DreItem) : bool :=
  bool_decide (it_tipo a = it_tipo b /\ it_nome a = it_nome b
               /\ it_dre_group a = it_dre_group b
               /\ it_month a = it_month b).

Fixpoint add_dre_item (x : DreItem) (acc : list DreItem)
  : list DreItem :=
  match acc with
  | [] => [x]
  | y :: rest =>
      if same_dre_key x y
      then {| it_tipo := it_tipo y; it_nome := it_nome y;
              it_dre_group := it_dre_group y;
              it_month := it_month y;
              it_total := it_total y + it_total x |} :: rest
      else y :: add_dre_item x rest
  end.

Definition dre_aggregates (qs : list Transaction)
           (date_field : DateFieldName) : list DreItem :=
  foldl (fun acc t =>
           add_dre_item
             {| it_tipo := tipo t; it_nome := nome (category t);
                it_dre_group := dre_group (category t);
                it_month := TruncMonth date_field t;
                it_total := valor t |} acc)
        [] qs.

(** The [groups] dictionary: one list of monthly sums per group. *)
Definition Groups := DreGroup -> list Z.

Definition add_to_group (g : DreGroup) (idx : nat) (total : Z)
           (groups : Groups) : Groups :=
  fun g' => if bool_decide (g' = g)
            then alter (Z.add total) idx (groups g')
            else groups g'.

(** The body of [for item in aggregates]; [None] is the
    [AttributeError] of [None.strftime]. *)
Definition dre_step (month_index : gmap (Z * Z) nat)
           (groups : option Groups) (item : DreItem) : option Groups :=
  gs ← groups;
  m ← it_month item;
  match month_index !! month_key m with
  | None => Some gs
  | Some idx =>
      Some (add_to_group (classify (it_tipo item) (it_nome item)
                                   (it_dre_group item))
                         idx (it_total item) gs)
  end.

Record DreContext := {
  dre_months : list date;
  dre_groups : Groups;
  receita_liquida : list Z;
  lucro_bruto : list Z;
  despesas_operacionais : list Z;
  lucro_liquido : list Z;
}.

(** [build_dre_context]; the three percentage rows, which divide
    decimals, are not part of the embedding. *)
Definition build_dre_context (db : Database)
           (start_date end_date : date) (phase : Phase)
           (account_id category_id user_f : option nat)
  : option DreContext :=
  let qs := get_finance_queryset db user_f account_id category_id in
  let '(qs, date_field) :=
    apply_phase_filter qs phase start_date end_date in
  months ← _month_list start_date end_date;
  let month_index := month_index_of months in
  let zero : Groups := fun _ => map (fun _ => 0) months in
  groups ← foldl (dre_step month_index) (Some zero)
                 (dre_aggregates qs date_field);
  let rl := zip_with Z.sub (groups receita_operacional)
                     (groups impostos_venda) in
  let lb := zip_with Z.sub rl (groups cmv) in
  let dop := zip_with Z.add (groups despesas_venda)
                      (groups despesas_gerais_adm) in
  let ll := zip_with Z.add
              (zip_with Z.sub (zip_with Z.sub lb dop)
                        (groups despesas_financeiras))
              (groups receita_financeira) in
  Some {| dre_months := months; dre_groups := groups;
          receita_liquida := rl; lucro_bruto := lb;
          despesas_operacionais := dop; lucro_liquido := ll |}.

End Classifier.

(** *** [build_cashflow_context] *)

(** One row of [.values('tipo', 'category_id', 'category__nome',
    'month').annotate(total=Sum('valor'))]. *)
Record CashItem := {
  ci_tipo : Tipo;
  ci_category_id : nat;
  ci_category_nome : string;
  ci_month : option date;
  ci_total : Z;
}.

Definition same_cash_key (a b : CashItem) : bool :=
  bool_decide (ci_tipo a = ci_tipo b
               /\ ci_category_id a = ci_category_id b
               /\ ci_category_nome a = ci_category_nome b
               /\ ci_month a = ci_month b).

Fixpoint add_cash_item (x : CashItem) (acc : list CashItem)
  : list CashItem :=
  match acc with
  | [] => [x]
  | y :: rest =>
      if same_cash_key x y
      then {| ci_tipo := ci_tipo y; ci_category_id := ci_category_id y;
              ci_category_nome := ci_category_nome y;
              ci_month := ci_month y;
              ci_total := ci_total y + ci_total x |} :: rest
      else y :: add_cash_item x rest
  end.

Definition cash_aggregates (qs : list Transaction)
           (date_field : DateFieldName) : list CashItem :=
  foldl (fun acc t =>
           add_cash_item
             {| ci_tipo := tipo t; ci_category_id := cat_id (category t);
                ci_category_nome := nome (category t);
                ci_month := TruncMonth date_field t;
                ci_total := valor t |} acc)
        [] qs.

Record Row := {
  row_tipo : Tipo;
  row_category_id : nat;
  row_category_name : string;
  values_list : list Z;
  row_total : Z;
}.

(** The [rows] dictionary, in insertion order; its key
    [f"{tipo}-{category_id}"] is the pair. *)
Definition Rows := list ((Tipo * nat) * Row).

Fixpoint rows_get (k : Tipo * nat) (rows : Rows) : option Row :=
  match rows with
  | [] => None
  | (k', r) :: rest => if bool_decide (k' = k) then Some r
                       else rows_get k rest
  end.

Fixpoint rows_set (k : Tipo * nat) (r : Row) (rows : Rows) : Rows :=
  match rows with
  | [] => [(k, r)]
  | (k', r') :: rest => if bool_decide (k' = k) then (k', r) :: rest
                        else (k', r') :: rows_set k r rest
  end.

Definition set_values (vs : list Z) (r : Row) : Row :=
  {| row_tipo := row_tipo r; row_category_id := row_category_id r;
     row_category_name := row_category_name r;
     values_list := vs; row_total := row_total r |}.

Definition set_total (x : Z) (r : Row) : Row :=
  {| row_tipo := row_tipo r; row_category_id := row_category_id r;
     row_category_name := row_category_name r;
     values_list := values_list r; row_total := x |}.

(** The body of the first [for item in aggregates] loop. *)
Definition cash_step (months : list date)
           (month_index : gmap (Z * Z) nat)
           (rows : option Rows) (item : CashItem) : option Rows :=
  rs ← rows;
  m ← ci_month item;
  let row_key := (ci_tipo item, ci_category_id item) in
  let row := default
               {| row_tipo := ci_tipo item;
                  row_category_id := ci_category_id item;
                  row_category_name := ci_category_nome item;
                  values_list := map (fun _ => 0) months;
                  row_total := 0 |}
               (rows_get row_key rs) in
  let row := match month_index !! month_key m with
             | Some idx =>
                 set_values (<[idx := ci_total item]> (values_list row))
                            row
             | None => row
             end in
  Some (rows_set row_key row rs).

(** [rows.sort(key=lambda r: r['category_name'])]: a stable sort on the
    name, strings compared character by character. *)
Fixpoint insert_row (r : Row) (sorted : list Row) : list Row :=
  match sorted with
  | [] => [r]
  | x :: rest =>
      if String.ltb (row_category_name r) (row_category_name x)
      then r :: x :: rest
      else x :: insert_row r rest
  end.

Definition sort_rows (l : list Row) : list Row :=
  foldl (fun acc r => insert_row r acc) [] l.

(** [for row in rows: for idx, value in enumerate(row['values_list']):
    totals[idx] += value]. *)
Definition add_row (totals : list Z) (row : Row) : list Z :=
  foldl (fun acc p => alter (Z.add p.2) p.1 acc) totals
        (imap (fun i v => (i, v)) (values_list row)).

Record CashflowContext := {
  cf_months : list date;
  receitas : list Row;
  despesas : list Row;
  totals_receita_list : list Z;
  totals_despesa_list : list Z;
  totals_saldo_list : list Z;
  totals_saldo_final_list : list Z;
  saldo_inicial_total : Z;
}.

(** [build_cashflow_context]; the [cells] only repackage the value lists
    with their month labels and are left out. *)
Definition build_cashflow_context (db : Database)
           (start_date end_date : date) (phase : Phase)
           (account_id category_id user_f : option nat)
  : option CashflowContext :=
  let qs := get_finance_queryset db user_f account_id category_id in
  let '(qs, date_field) :=
    apply_phase_filter qs phase start_date end_date in
  months ← _month_list start_date end_date;
  let month_index := month_index_of months in
  rows ← foldl (cash_step months month_index) (Some [])
               (cash_aggregates qs date_field);
  let rows := map (fun kr => set_total (Money.sum (values_list kr.2))
                                       kr.2) rows in
  let receita_rows :=
    sort_rows (filter (fun r => row_tipo r = receita) rows) in
  let despesa_rows :=
    sort_rows (filter (fun r => row_tipo r <> receita) rows) in
  let zeros := map (fun _ => 0) months in
  let totals_receita := foldl add_row zeros receita_rows in
  let totals_despesa := foldl add_row zeros despesa_rows in
  let totals_saldo := zip_with Z.sub totals_receita totals_despesa in
  let saldo_inicial := 0 in
  let totals_saldo_final :=
    map (fun x => saldo_inicial + x) totals_saldo in
  Some {| cf_months := months;
          receitas := receita_rows; despesas := despesa_rows;
          totals_receita_list := totals_receita;
          totals_despesa_list := totals_despesa;
          totals_saldo_list := totals_saldo;
          totals_saldo_final_list := totals_saldo_final;
          saldo_inicial_total := saldo_inicial |}.

(** [CashflowView.get_context_data], lines 1341-1347: the running
    balance the view derives from the builder's context. *)
Definition saldo_final_values (ctx : CashflowContext) : list Z :=
  (foldl (fun st value =>
            let running_saldo := st.1 + value in
            (running_saldo, st.2 ++ [running_saldo]))
         (saldo_inicial_total ctx, []) (totals_saldo_list ctx)).2.

End Services.

(* ===================================================================== *)
(** ** Requests against one transaction *)
(* ===================================================================== *)

Module Endpoints.
Import Calendar Ledger Views.

(** A save of the row, or one of the four endpoints that act on a
    single transaction. *)
Inductive Request :=
| ReqSave (today : date)
| ReqMarkCompleted (today : date) (request_user : nat)
                   (form : MarkAsCompletedForm)
| ReqMarkPending (request_user : nat)
| ReqCancel (today : date) (request_user : nat)
| ReqInvoice (today : date) (form : InstallmentInvoiceForm).

Definition handle (r : Request) (t : Transaction) : Transaction :=
  match r with
  | ReqSave today => save today t
  | ReqMarkCompleted today u form =>
      (TransactionMarkAsCompletedView_post today u form t).1
  | ReqMarkPending u => (TransactionMarkAsPendingView_post u t).1
  | ReqCancel today u => (TransactionCancelView_post today u t).1
  | ReqInvoice today form => (InstallmentInvoiceView_post today form t).1
  end.

Definition run (rs : list Request) (t : Transaction) : Transaction :=
  foldl (fun t r => handle r t) t rs.

(** The request issues an invoice: the only step that clears
    [is_projection]. *)
Definition issues_invoice (r : Request) : bool :=
  match r with
  | ReqInvoice _ form => inv_is_valid form && generate_nf form
  | _ => false
  end.

Definition is_cancel (r : Request) : bool :=
  match r with ReqCancel _ _ => true | _ => false end.

End Endpoints.

(* ===================================================================== *)
(** ** Sample data used by the closed examples *)
(* ===================================================================== *)

Module Samples.
Import Calendar Ledger Views Endpoints Services.

Definition conta : Account :=
  {| acc_id := 1; acc_user := 7; bank_code := "001"; agencia := "1234";
     conta_numero := "56789"; saldo_inicial := 100000; ativa := true;
     is_primary := true |}.

Definition servicos : Category :=
  {| cat_id := 1; nome := "Servicos"; cat_tipo := receita;
     dre_group := None |}.

Definition operacional : Category :=
  {| cat_id := 2; nome := "Operacional"; cat_tipo := despesa;
     dre_group := None |}.

Definition ordem : WorkOrder := {| wo_id := 42; labor_cost := Some 20000 |}.

Definition hoje : date := Date 2026 1 10.

Definition lancamento (k : Tipo) (st : Status) (amount : Z) (due : date)
           (pagamento : option date) (cat : Category) : Transaction :=
  {| user := 7; work_order := None; tipo := k; status := st;
     valor := amount; data_vencimento := due;
     data_pagamento := pagamento; payment_origin := None;
     account := conta; category := cat;
     is_installment := false; is_projection := false;
     installment_group_id := None;
     installment_number := None; installment_total := None;
     invoice_number := None; invoice_issued_at := None;
     boleto_number := None; boleto_issued_at := None |}.

Definition payment_form (n : Z) (first : date) : WorkOrderPaymentForm :=
  {| installments := n; first_due_date := first;
     confirm_regenerate := false |}.

Definition expense_form (total : Z) (first : date) : TransactionFormData :=
  {| f_valor := Some total; f_data_vencimento := first;
     f_account := conta; f_category := operacional |}.

(** The three installments of a 200.00 order first due on 30 November
    2025, and a few requests against the first of them. *)
Definition parcelas : list Transaction :=
  default [] (generate_installments hoje 7 1 ordem 20000 conta servicos
                                    (payment_form 3 (Date 2025 11 30))).

Definition primeira : Transaction :=
  default (lancamento receita previsto 0 hoje None servicos)
          (head parcelas).

(** A realized receipt due on 31 January and paid on 5 February, and
    one due on 28 December and paid on 5 January. *)
Definition db_dre : Database :=
  {| accounts := [conta];
     transactions :=
       [lancamento receita realizado 100000 (Date 2026 1 31)
                   (Some (Date 2026 2 5)) servicos;
        lancamento receita realizado 7000 (Date 2025 12 28)
                   (Some (Date 2026 1 5)) servicos] |}.

(** An active account opened with 1000.00 and three realized entries:
    +1000.00 in January, -300.00 and +50.00 in February. *)
Definition db_cash : Database :=
  {| accounts := [conta];
     transactions :=
       [lancamento receita realizado 100000 (Date 2026 1 15)
                   (Some (Date 2026 1 15)) servicos;
        lancamento despesa realizado 30000 (Date 2026 2 10)
                   (Some (Date 2026 2 10)) operacional;
        lancamento receita realizado 5000 (Date 2026 2 11)
                   (Some (Date 2026 2 11)) servicos] |}.

Definition pedidos : list Request :=
  [ReqSave (Date 2026 3 1);
   ReqMarkCompleted (Date 2026 3 2) 7
     {| confirmacao := true; form_data_pagamento := None |};
   ReqInvoice (Date 2026 3 3)
     {| inv_is_valid := true; inv_payment_origin := Some "boleto";
        generate_nf := false; inv_invoice_number := None;
        inv_invoice_issued_at := None; generate_boleto := true;
        inv_boleto_number := Some "0001";
        inv_boleto_issued_at := Some (Date 2026 3 3) |}].

End Samples.

(* ===================================================================== *)
(** ** The properties stated of the engine *)
(* ===================================================================== *)

Module Spec.
Import Calendar Ledger Views Endpoints Services.

(** The due date the loops compute for index [idx]. *)
Definition due_date_of (first : date) (idx : Z) : date :=
  let y := year first + (month first - 1 + idx) / 12 in
  let m := ((month first - 1 + idx) mod 12) + 1 in
  Date y m (Z.min (day first) (days_in_month y m)).

(** [txs] is what one of the two generators returns for a total of
    [total] cents split in [n] from the first due date [first]. *)
Definition generated (today : date) (u g : nat) (order : WorkOrder)
           (acc : Account) (cat : Category) (total n : Z) (first : date)
           (txs : list Transaction) : Prop :=
  generate_installments today u g order total acc cat
    {| installments := n; first_due_date := first;
       confirm_regenerate := false |} = Some txs
  \/ _create_expense_installments today u g
       {| f_valor := Some total; f_data_vencimento := first;
          f_account := acc; f_category := cat |} n = Some txs.

(** Both generators return their installments. *)
Definition generators_succeed (today : date) (u g : nat)
           (order : WorkOrder) (acc : Account) (cat : Category)
           (total n : Z) (first : date) : Prop :=
  is_Some (generate_installments today u g order total acc cat
             {| installments := n; first_due_date := first;
                confirm_regenerate := false |})
  /\ is_Some (_create_expense_installments today u g
                {| f_valor := Some total; f_data_vencimento := first;
                   f_account := acc; f_category := cat |} n).

(** Both generators return when the plan ends within the calendar, and
    what either returns are [n] amounts that sum to [total]: [n - 1] times
    the rounded quotient and then the quotient plus the remainder. *)
Definition split_conserved (today : date) (u g : nat) (order : WorkOrder)
           (acc : Account) (cat : Category) (total n : Z) (first : date)
  : Prop :=
  let base := Money.quantize_div total n in
  (valid_date first -> year first + 2 <= MAXYEAR ->
   generators_succeed today u g order acc cat total n first)
  /\ forall txs,
      generated today u g order acc cat total n first txs ->
      Z.of_nat (length txs) = n
      /\ Money.sum (map valor txs) = total
      /\ map valor txs
         = replicate (Z.to_nat (n - 1)) base ++ [base + (total - base * n)]
      /\ ((n | total) ->
          map valor txs = replicate (Z.to_nat n) (total / n))
      /\ (~ (n | total) -> base + (total - base * n) <> base).

(** The per-installment rule of both generators. *)
Definition amount_rule (today : date) (u g : nat) (order : WorkOrder)
           (acc : Account) (cat : Category) (total n : Z) (first : date)
  : Prop :=
  let base := Money.quantize_div total n in
  total / n <= base <= total / n + 1
  /\ 2 * Z.abs (total - base * n) <= n
  /\ (2 * (total mod n) = n -> Z.even base = true)
  /\ (valid_date first -> year first + 2 <= MAXYEAR ->
      generators_succeed today u g order acc cat total n first)
  /\ forall txs,
      generated today u g order acc cat total n first txs ->
      forall i, 0 <= i < n ->
        valor <$> (txs !! Z.to_nat i)
        = Some (if i =? n - 1 then base + (total - base * n) else base).

(** [d] is [first] moved [i] calendar months on, its day clamped to the
    length of the month it lands in. *)
Definition advanced_and_clamped (first : date) (i : Z) (d : date) : Prop :=
  valid_date d
  /\ 12 * year d + month d = 12 * year first + month first + i
  /\ day d = Z.min (day first) (days_in_month (year d) (month d)).

Definition clamped_due_date (first : date) (i : Z) : Prop :=
  exists d, _add_months first i = Some d
            /\ advanced_and_clamped first i d
            /\ (i = 0 -> d = first).


Definition projected (t : Transaction) : Prop :=
  is_projection t = true /\ data_pagamento t = None
  /\ (status t = previsto \/ status t = cancelado).

(** The life of a billing installment until it is invoiced or paid. *)
Definition stays_pending (rs : list Request) (t : Transaction) : Prop :=
  let t' := run rs t in
  is_projection t' = true /\ data_pagamento t' = None
  /\ (status t' = previsto \/ status t' = cancelado)
  /\ (forallb (fun r => negb (is_cancel r)) rs = true ->
      status t' = previsto)
  /\ (forall today, status (save today t') = status t')
  /\ (forall today form,
        TransactionMarkAsCompletedView_post today (user t') form t'
        = (t', IsProjection)).

(** The kind of entry each income-statement group collects. *)
Definition group_kind (g : DreGroup) : Tipo :=
  match g with
  | receita_operacional | receita_financeira => receita
  | _ => despesa
  end.

(** The keywords the classifier tries before it reaches group [g]. *)
Definition tested_before (g : DreGroup) : list string :=
  match g with
  | receita_financeira => []
  | receita_operacional => kw_receita_financeira
  | impostos_venda => []
  | cmv => kw_impostos_venda
  | despesas_venda => kw_impostos_venda ++ kw_cmv
  | despesas_financeiras =>
      kw_impostos_venda ++ kw_cmv ++ kw_despesas_venda
  | despesas_gerais_adm =>
      kw_impostos_venda ++ kw_cmv ++ kw_despesas_venda
      ++ kw_despesas_financeiras
  end.

(** The keywords of a group; the last group of each kind has none. *)
Definition keywords_of (g : DreGroup) : list string :=
  match g with
  | receita_financeira => kw_receita_financeira
  | impostos_venda => kw_impostos_venda
  | cmv => kw_cmv
  | despesas_venda => kw_despesas_venda
  | despesas_financeiras => kw_despesas_financeiras
  | receita_operacional | despesas_gerais_adm => []
  end.

(** The groups in the order the classifier tries them for an entry of
    kind [k]. *)
Definition tried (k : Tipo) : list DreGroup :=
  match k with
  | receita => [receita_financeira; receita_operacional]
  | despesa => [impostos_venda; cmv; despesas_venda;
                despesas_financeiras; despesas_gerais_adm]
  end.

(** A group is chosen when it is the category's explicit group or one of
    its keywords occurs in the lower-cased name; the last group of each
    kind is chosen whenever it is reached. *)
Definition chosen (lower : string -> string) (name : string)
           (dre : option DreGroup) (g : DreGroup) : bool :=
  match g with
  | receita_operacional | despesas_gerais_adm => true
  | _ => group_is g dre || match_category lower name (keywords_of g)
  end.

(** The opening balance the cashflow sheet is said to start from. *)
Definition opening_balance_of_active_accounts (db : Database) : Z :=
  Money.sum (map saldo_inicial
                 (filter (fun a => ativa a = true) (accounts db))).

End Spec.

(* ===================================================================== *)
(** ** More of the calendar helpers (views.py) *)
(* ===================================================================== *)

Module CalendarHelpers.
Import Calendar.

(** views.py, [_shift_months]: the first day of the month [months] months
    away; [months] may be negative. *)
Definition _shift_months (base_date : date) (months : Z) : option date :=
  let y := year base_date + ((month base_date - 1 + months) / 12) in
  let m := ((month base_date - 1 + months) mod 12) + 1 in
  py_date y m 1.

(** The months since year 0 a date lies in. *)
Definition month_number (d : date) : Z := 12 * year d + (month d - 1).

(** The first day of the month [i] months after the month of [d]. *)
Definition nth_month (d : date) (i : Z) : date :=
  Date (year d + (month d - 1 + i) / 12) ((month d - 1 + i) mod 12 + 1) 1.

End CalendarHelpers.

(* ===================================================================== *)
(** ** Accounts: the stored table and the balance (models.py) *)
(* ===================================================================== *)

Module Accounts.
Import Calendar Ledger.

Definition set_is_primary (b : bool) (a : Account) : Account :=
  {| acc_id := acc_id a; acc_user := acc_user a;
     bank_code := bank_code a; agencia := agencia a;
     conta_numero := conta_numero a; saldo_inicial := saldo_inicial a;
     ativa := ativa a; is_primary := b |}.

(** [super().save()]: the row with the primary key of [a] is replaced, or
    [a] is inserted when the key is new. *)
Fixpoint upsert (a : Account) (table : list Account) : list Account :=
  match table with
  | [] => [a]
  | b :: rest => if bool_decide (acc_id b = acc_id a) then a :: rest
                 else b :: upsert a rest
  end.

(** [Account.save]: after the row is stored, a primary account clears the
    flag of every other primary account of its user
    ([filter(user=self.user, is_primary=True).exclude(pk=self.pk)
    .update(is_primary=False)]). *)
Definition Account_save (a : Account) (table : list Account)
  : list Account :=
  let table := upsert a table in
  if is_primary a then
    map (fun b =>
           if bool_decide (acc_user b = acc_user a) && is_primary b
              && negb (bool_decide (acc_id b = acc_id a))
           then set_is_primary false b else b)
        table
  else table.

(** [self.transactions]: the rows whose account is [a]. *)
Definition transactions_of (a : Account) (txs : list Transaction)
  : list Transaction :=
  filter (fun t => acc_id (account t) = acc_id a) txs.

(** [Account.calcular_saldo_atual] against the stored transactions. *)
Definition saldo_atual (a : Account) (txs : list Transaction) : Z :=
  calcular_saldo_atual a (transactions_of a txs).

(** What one transaction adds to the balance of account [a]. *)
Definition contribution (a : Account) (t : Transaction) : Z :=
  if bool_decide (acc_id (account t) = acc_id a)
     && bool_decide (status t = realizado)
  then match tipo t with receita => valor t | despesa => - valor t end
  else 0.

End Accounts.

(* ===================================================================== *)
(** ** One primary account per user *)
(* ===================================================================== *)

Module PrimaryAccount.
Import Ledger Accounts.


End PrimaryAccount.

(* ===================================================================== *)
(** ** Rows whose status and payment date agree *)
(* ===================================================================== *)

Module Consistency.
Import Ledger.

(** The state every save leaves a row in: realized exactly when a payment
    date is present. *)
Definition consistent (t : Transaction) : Prop :=
  status t = realizado <-> is_Some (data_pagamento t).

End Consistency.

(* ===================================================================== *)
(** ** Deleting a transaction (views.py, [TransactionDeleteView]) *)
(* ===================================================================== *)

Module Deletion.
Import Calendar Ledger.

(** [user.role == 'financial'] or any other role. *)
Inductive Role := role_financial | role_other.

(** [get_queryset] over the stored transactions by primary key: the
    financial role sees every row, the others their own. *)
Definition get_queryset (role : Role) (request_user : nat)
           (db : gmap nat Transaction) : gmap nat Transaction :=
  match role with
  | role_financial => db
  | role_other => filter (fun kv => user kv.2 = request_user) db
  end.

Inductive DeleteOutcome :=
| Http404 | InstallmentKept | RealizedKept | Deleted.

(** [post]: [get_object] raises [Http404] outside the queryset; the two
    guards redirect; otherwise [super().post] deletes the row. *)
Definition TransactionDeleteView_post (role : Role) (request_user : nat)
           (pk : nat) (db : gmap nat Transaction)
  : gmap nat Transaction * DeleteOutcome :=
  match get_queryset role request_user db !! pk with
  | None => (db, Http404)
  | Some transaction =>
      if is_installment transaction then (db, InstallmentKept)
      else if bool_decide (status transaction = realizado)
              && truthy (data_pagamento transaction)
      then (db, RealizedKept)
      else (delete pk db, Deleted)
  end.

(** The rows of the table, in key order. *)
Definition rows (db : gmap nat Transaction) : list Transaction :=
  (map_to_list db).*2.

End Deletion.

(* ===================================================================== *)
(** ** Finalizing a work order (workorder/views.py) *)
(* ===================================================================== *)

Module WorkOrderViews.
Import Calendar Ledger.

(** The finance part of [finalize_work_order], lines 922-929:
    [local_today] is [timezone.localdate()], [today] the date [save]
    reads from [timezone.now()].  [None] is the [OverflowError] of the
    subtraction, which the view catches: nothing is stored. *)
Definition finalize_finance_tx (local_today today : date)
           (finance_tx : Transaction) : option Transaction :=
  due ← minus_one_day local_today;
  Some (save today
             (set_data_pagamento None
                (set_data_vencimento due finance_tx))).

End WorkOrderViews.

(* ===================================================================== *)
(** ** Invoicing an installment (forms.py, views.py) *)
(* ===================================================================== *)

Module Invoicing.
Import Calendar Ledger Views.

(** [cleaned_data] of [InstallmentInvoiceForm] after the fields have been
    validated one by one: [field_errors] tells whether one of them was
    refused, in which case its key is missing ([c_payment_origin] and the
    dates are then [None]); a blank [CharField] is the empty string. *)
Record InvoiceCleaned := {
  field_errors : bool;
  c_payment_origin : option string;
  c_generate_nf : bool;
  c_invoice_number : string;
  c_invoice_issued_at : option date;
  c_generate_boleto : bool;
  c_boleto_number : string;
  c_boleto_issued_at : option date;
}.

(** Python's truth value of [cleaned.get('payment_origin')]. *)
Definition origin_given (c : InvoiceCleaned) : bool :=
  match c_payment_origin c with Some s => nonempty s | None => false end.

(** [InstallmentInvoiceForm.clean], with [local_today =
    timezone.localdate()] and [others] the stored rows but the
    installment being edited.  The record returned is what the view reads
    from the form: [inv_is_valid] is false when [clean] raised or added
    an error. *)
Definition InstallmentInvoiceForm_clean (local_today : date)
           (others : list Transaction) (c : InvoiceCleaned)
  : InstallmentInvoiceForm :=
  let payment_origin := c_payment_origin c in
  let generate_nf := c_generate_nf c in
  let generate_boleto := c_generate_boleto c in
  let none_selected := negb generate_nf && negb generate_boleto in
  let not_boleto :=
    origin_given c
    && negb (bool_decide (payment_origin = Some "boleto"%string)) in
  let boleto_refused := not_boleto && generate_boleto in
  let number_missing :=
    generate_nf && negb (nonempty (c_invoice_number c)) in
  let date_missing :=
    generate_nf && negb (truthy (c_invoice_issued_at c)) in
  let date_past :=
    generate_nf
    && match c_invoice_issued_at c with
       | Some d => date_ltb d local_today
       | None => false
       end in
  let number_used :=
    generate_nf && nonempty (c_invoice_number c)
    && existsb (fun t => bool_decide
                           (invoice_number t = Some (c_invoice_number c)))
               others in
  {| inv_is_valid :=
       negb (field_errors c || none_selected || boleto_refused
             || number_missing || date_missing || date_past
             || number_used);
     inv_payment_origin :=
       if origin_given c then payment_origin else None;
     generate_nf := generate_nf;
     inv_invoice_number := Some (c_invoice_number c);
     inv_invoice_issued_at := c_invoice_issued_at c;
     generate_boleto := if not_boleto then false else generate_boleto;
     inv_boleto_number := Some (c_boleto_number c);
     inv_boleto_issued_at := c_boleto_issued_at c |}.



(** *** The three billing tabs ([BillingBaseMixin], [Billing*View]) *)

Definition awaiting_nf (t : Transaction) : bool :=
  negb (truthy (invoice_number t))
  && negb (bool_decide (status t = cancelado)).

Definition open_nf (t : Transaction) : bool :=
  truthy (invoice_number t)
  && negb (bool_decide (status t = cancelado))
  && negb (bool_decide (status t = realizado)).

Definition closed_nf (t : Transaction) : bool :=
  truthy (invoice_number t) && bool_decide (status t = realizado)
  && negb (bool_decide (status t = cancelado)).

(** [_installments_queryset]: the installments of the closed orders. *)
Definition _installments_queryset (closed_orders : list nat)
           (db : list Transaction) : list Transaction :=
  List.filter (fun t => match work_order t with
                        | Some o => bool_decide (o ∈ closed_orders)
                        | None => false
                        end && is_installment t) db.

Record BillingCounts := {
  awaiting_count : nat;
  open_count : nat;
  closed_count : nat;
}.

(** [_billing_counts], the three installment counters. *)
Definition _billing_counts (installments_qs : list Transaction)
  : BillingCounts :=
  {| awaiting_count := length (List.filter awaiting_nf installments_qs);
     open_count := length (List.filter open_nf installments_qs);
     closed_count := length (List.filter closed_nf installments_qs) |}.

End Invoicing.

(* ===================================================================== *)
(** ** Totals of the reported rows and of the DRE groups *)
(* ===================================================================== *)

Module ReportTotals.
Import Calendar Ledger Services.

(** The kind of entry each group collects. *)
Definition kind_of_group (g : DreGroup) : Tipo :=
  match g with
  | receita_operacional | receita_financeira => receita
  | _ => despesa
  end.

(** The amounts of kind [k] among the rows. *)
Definition rows_total (k : Tipo) (qs : list Transaction) : Z :=
  Money.sum (map (fun t => if bool_decide (tipo t = k) then valor t
                           else 0) qs).

(** The amounts of kind [k] among the aggregated items. *)
Definition items_total (k : Tipo) (items : list DreItem) : Z :=
  Money.sum (map (fun i => if bool_decide (it_tipo i = k) then it_total i
                           else 0) items).

(** The grand total of the groups of kind [k]. *)
Definition groups_total (k : Tipo) (gs : Groups) : Z :=
  match k with
  | receita =>
      Money.sum (gs receita_operacional) + Money.sum (gs receita_financeira)
  | despesa =>
      Money.sum (gs impostos_venda) + Money.sum (gs cmv)
      + Money.sum (gs despesas_venda) + Money.sum (gs despesas_financeiras)
      + Money.sum (gs despesas_gerais_adm)
  end.

End ReportTotals.

(* ===================================================================== *)
(** ** Day arithmetic and the aging reports (views.py) *)
(* ===================================================================== *)

Module Aging.
Import Calendar Ledger.

(** [d + timedelta(days=1)]: the next calendar day; [None] is the
    [OverflowError] raised above [date.max]. *)
Definition plus_one_day (d : date) : option date :=
  if day d <? days_in_month (year d) (month d)
  then Some (Date (year d) (month d) (day d + 1))
  else if month d <? 12 then Some (Date (year d) (month d + 1) 1)
       else py_date (year d + 1) 1 1.

(** [d + timedelta(days=n)] for [n >= 0]. *)
Fixpoint plus_days (d : date) (n : nat) : option date :=
  match n with
  | O => Some d
  | S n' => next ← plus_one_day d; plus_days next n'
  end.

(** [Sum('valor')] with [Coalesce(..., 0)] over a queryset. *)
Definition total_of (qs : list Transaction) : Z := Money.sum (map valor qs).

(** The context keys of [AccountsPayableReportView] and of
    [AccountsReceivableReportView] that depend on the due date. *)
Record AgingReport := {
  overdue : list Transaction;
  due_today : list Transaction;
  due_this_week : list Transaction;
  due_this_month : list Transaction;
  due_later : list Transaction;
  overdue_total : Z;  overdue_count : nat;
  today_total : Z;    today_count : nat;
  week_total : Z;     week_count : nat;
  month_total : Z;    month_count : nat;
  later_total : Z;    later_count : nat;
  grand_total : Z;    grand_count : nat;
}.

(** The five periods of the two reports, over the filtered [queryset]. *)
Definition aging_report (today : date) (queryset : list Transaction)
  : option AgingReport :=
  week_end ← plus_days today 7;
  month_end ← plus_days today 30;
  let overdue :=
    List.filter (fun t => date_ltb (data_vencimento t) today) queryset in
  let due_today :=
    List.filter (fun t => bool_decide (data_vencimento t = today))
                queryset in
  let due_this_week :=
    List.filter (fun t => date_ltb today (data_vencimento t)
                          && date_leb (data_vencimento t) week_end)
                queryset in
  let due_this_month :=
    List.filter (fun t => date_ltb week_end (data_vencimento t)
                          && date_leb (data_vencimento t) month_end)
                queryset in
  let due_later :=
    List.filter (fun t => date_ltb month_end (data_vencimento t))
                queryset in
  Some {| overdue := overdue; due_today := due_today;
          due_this_week := due_this_week;
          due_this_month := due_this_month; due_later := due_later;
          overdue_total := total_of overdue;
          overdue_count := length overdue;
          today_total := total_of due_today;
          today_count := length due_today;
          week_total := total_of due_this_week;
          week_count := length due_this_week;
          month_total := total_of due_this_month;
          month_count := length due_this_month;
          later_total := total_of due_later;
          later_count := length due_later;
          grand_total := total_of queryset;
          grand_count := length queryset |}.

End Aging.

(* ===================================================================== *)
(** ** The statistics of the transaction list (views.py) *)
(* ===================================================================== *)

Module ListStatistics.
Import Calendar Ledger.

(** [qs.filter(...).aggregate(total=Sum('valor'))['total'] or 0]. *)
Definition sum_where (p : Transaction -> bool) (qs : list Transaction)
  : Z :=
  Money.sum (map valor (List.filter p qs)).

Definition is_tipo (k : Tipo) (t : Transaction) : bool :=
  bool_decide (tipo t = k).

Definition has_status (s : Status) (t : Transaction) : bool :=
  bool_decide (status t = s).

(** [status__in=['previsto', 'atrasado']]. *)
Definition is_pending (t : Transaction) : bool :=
  has_status previsto t || has_status atrasado t.

Record ListStats := {
  st_saldo_atual : Z;
  st_total_receitas : Z;
  st_total_despesas : Z;
  st_receitas_em_atraso : Z;
  st_receitas_a_receber : Z;
  st_despesas_em_atraso : Z;
  st_saldo_projetado : Z;
}.

(** [context['stats']] of [TransactionListView.get_context_data], over the
    filtered queryset of the page. *)
Definition list_stats (queryset : list Transaction) : ListStats :=
  let qs := List.filter (fun t => negb (has_status cancelado t))
                        queryset in
  let total_receitas :=
    sum_where (fun t => is_tipo receita t && has_status realizado t) qs in
  let total_despesas := sum_where (is_tipo despesa) qs in
  let receitas_realizadas :=
    sum_where (fun t => is_tipo receita t && has_status realizado t) qs in
  let despesas_realizadas :=
    sum_where (fun t => is_tipo despesa t && has_status realizado t) qs in
  let receitas_pendentes :=
    sum_where (fun t => is_tipo receita t && is_pending t) qs in
  let despesas_pendentes :=
    sum_where (fun t => is_tipo despesa t && is_pending t) qs in
  {| st_saldo_atual := receitas_realizadas - despesas_realizadas;
     st_total_receitas := total_receitas;
     st_total_despesas := total_despesas;
     st_receitas_em_atraso :=
       sum_where (fun t => is_tipo receita t && has_status atrasado t) qs;
     st_receitas_a_receber :=
       sum_where (fun t => is_tipo receita t && is_pending t) qs;
     st_despesas_em_atraso :=
       sum_where (fun t => is_tipo despesa t && has_status atrasado t) qs;
     st_saldo_projetado :=
       (receitas_realizadas - despesas_realizadas)
       + receitas_pendentes - despesas_pendentes |}.

End ListStatistics.

(* ===================================================================== *)
(** ** The daily cash-flow series of the dashboard (views.py) *)
(* ===================================================================== *)

Module Dashboard.
Import Calendar Ledger Aging ListStatistics.

(** A date as dictionary key. *)
Definition date_key (d : date) : Z * Z * Z := (year d, month d, day d).

(** [data_vencimento__range=(a, b)], both ends included. *)
Definition in_range (a b : date) (t : Transaction) : bool :=
  date_leb a (data_vencimento t) && date_leb (data_vencimento t) b.

(** One row of [.values('data_vencimento', 'tipo')
    .annotate(total=Sum('valor'))]. *)
Definition DailyItem : Type := date * Tipo * Z.

Definition daily_key (x : DailyItem) : date * Tipo := x.1.

Fixpoint add_daily (d : date) (k : Tipo) (v : Z) (acc : list DailyItem)
  : list DailyItem :=
  match acc with
  | [] => [(d, k, v)]
  | y :: rest =>
      if bool_decide (daily_key y = (d, k))
      then (d, k, y.2 + v) :: rest
      else y :: add_daily d k v rest
  end.

Definition daily_data (rows : list Transaction) : list DailyItem :=
  foldl (fun acc t =>
           add_daily (data_vencimento t) (tipo t) (valor t) acc) [] rows.

(** [daily_map]: per day the pair (receita, despesa); a day is entered
    with (0, 0) and the item's total is assigned to its kind. *)
Definition daily_map_step (m : gmap (Z * Z * Z) (Z * Z)) (item : DailyItem)
  : gmap (Z * Z * Z) (Z * Z) :=
  let key := date_key item.1.1 in
  let cur := default (0, 0) (m !! key) in
  <[key := match item.1.2 with
           | receita => (item.2, cur.2)
           | despesa => (cur.1, item.2)
           end]> m.

Definition daily_map_of (items : list DailyItem)
  : gmap (Z * Z * Z) (Z * Z) :=
  foldl daily_map_step ∅ items.

(** A number that grows with the date, used to bound the loop. *)
Definition day_rank (d : date) : Z :=
  372 * year d + 31 * month d + day d.

Section Series.
(** [float(...)], the conversion of a [Decimal] to a binary float, is
    taken as given. *)
Variable F : Type.
Variable to_float : Z -> F.

(** The [while current_date <= end_date] loop: the balance is carried as
    a [Decimal] and its conversion to [float] is appended to
    [cashflow_series]. *)
Fixpoint cashflow_loop (fuel : nat) (daily_map : gmap (Z * Z * Z) (Z * Z))
         (current_date end_date : date) (running_balance : Z)
  : option (list F) :=
  if date_leb current_date end_date then
    match fuel with
    | O => None
    | S fuel' =>
        let net := match daily_map !! date_key current_date with
                   | Some entry => entry.1 - entry.2
                   | None => 0
                   end in
        let running_balance := running_balance + net in
        next ← plus_one_day current_date;
        rest ← cashflow_loop fuel' daily_map next end_date
                             running_balance;
        Some (to_float running_balance :: rest)
    end
  else Some [].

Record DashboardBalance := {
  kpi_saldo_inicial_total : Z;
  kpi_saldo_atual : Z;
  kpi_resultado_periodo : Z;
  cashflow_series : list F;
}.

(** The balance figures of [FinanceDashboardView.get_context_data] for
    the filtered transactions [qs], the accounts [accounts_qs] and the
    period. *)
Definition dashboard_balance (qs : list Transaction)
           (accounts_qs : list Account) (start_date end_date : date)
  : option DashboardBalance :=
  let period_qs := List.filter (in_range start_date end_date) qs in
  let saldo_inicial_total := Money.sum (map saldo_inicial accounts_qs) in
  let realized_until_end :=
    List.filter (fun t => has_status realizado t
                          && date_leb (data_vencimento t) end_date) qs in
  let saldo_atual :=
    saldo_inicial_total
    + sum_where (is_tipo receita) realized_until_end
    - sum_where (is_tipo despesa) realized_until_end in
  let receitas_realizadas :=
    sum_where (fun t => is_tipo receita t && has_status realizado t)
              period_qs in
  let despesas_realizadas :=
    sum_where (fun t => is_tipo despesa t && has_status realizado t)
              period_qs in
  let realized_before_start :=
    List.filter (fun t => has_status realizado t
                          && date_ltb (data_vencimento t) start_date)
                qs in
  let running_balance :=
    saldo_inicial_total
    + sum_where (is_tipo receita) realized_before_start
    - sum_where (is_tipo despesa) realized_before_start in
  let daily_map :=
    daily_map_of
      (daily_data (List.filter (has_status realizado) period_qs)) in
  series ← cashflow_loop
             (Z.to_nat (day_rank end_date - day_rank start_date + 1))
             daily_map start_date end_date running_balance;
  Some {| kpi_saldo_inicial_total := saldo_inicial_total;
          kpi_saldo_atual := saldo_atual;
          kpi_resultado_periodo :=
            receitas_realizadas - despesas_realizadas;
          cashflow_series := series |}.

End Series.

Arguments cashflow_loop {F} to_float fuel daily_map current_date
  end_date running_balance.
Arguments kpi_saldo_inicial_total {F} _.
Arguments kpi_saldo_atual {F} _.
Arguments kpi_resultado_periodo {F} _.
Arguments cashflow_series {F} _.
Arguments dashboard_balance {F} to_float qs accounts_qs start_date
  end_date.

(** The amount in cents as an exact fraction: what stands for [float]
    in the closed examples. *)
Definition cents_value (cents : Z) : Z * positive := (cents, 100%positive).

(** The signed amount of a row: income counts up, expense down. *)
Definition signed_valor (t : Transaction) : Z :=
  match tipo t with receita => valor t | despesa => - valor t end.

(** The sum of [f] over the rows that satisfy [p]. *)
Definition sum_if (p : Transaction -> bool) (f : Transaction -> Z)
           (rows : list Transaction) : Z :=
  Money.sum (map (fun t => if p t then f t else 0) rows).

(** The total of the aggregated items with key [(d, k)]. *)
Definition item_sum (d : date) (k : Tipo) (items : list DailyItem) : Z :=
  Money.sum (map (fun x : DailyItem =>
                    if bool_decide (daily_key x = (d, k)) then x.2
                    else 0) items).

(** The entry of kind [k] for day [d] in the daily map. *)
Definition map_entry (m : gmap (Z * Z * Z) (Z * Z)) (d : date) (k : Tipo)
  : Z :=
  match m !! date_key d with
  | Some entry => match k with receita => entry.1 | despesa => entry.2 end
  | None => 0
  end.

End Dashboard.

(* ===================================================================== *)
(** ** Totals of the cash-flow sheet *)
(* ===================================================================== *)

Module CashTotals.
Import Calendar Ledger Services.

(** The row [cash_aggregates] adds for one transaction. *)
Definition cash_item_of (f : DateFieldName) (t : Transaction) : CashItem :=
  {| ci_tipo := tipo t; ci_category_id := cat_id (category t);
     ci_category_nome := nome (category t);
     ci_month := TruncMonth f t; ci_total := valor t |}.

(** The GROUP BY key of an aggregated row, and the part of it that picks
    a cell of the sheet. *)
Definition cash_key (x : CashItem) : Tipo * nat * string * option date :=
  (ci_tipo x, ci_category_id x, ci_category_nome x, ci_month x).

Definition cell_key (x : CashItem) : Tipo * nat * option date :=
  (ci_tipo x, ci_category_id x, ci_month x).

Definition cash_items_total (k : Tipo) (items : list CashItem) : Z :=
  Money.sum (map (fun i => if bool_decide (ci_tipo i = k) then ci_total i
                           else 0) items).

(** What a row adds to the totals of kind [k]. *)
Definition row_contribution (k : Tipo) (r : Row) : Z :=
  if bool_decide (row_tipo r = k) then Money.sum (values_list r) else 0.

Definition rows_of_kind_total (k : Tipo) (rows : Rows) : Z :=
  Money.sum (map (fun kr => row_contribution k kr.2) rows).

(** A category id stands for one category name (the foreign key). *)
Definition names_by_id (qs : list Transaction) : Prop :=
  forall t1 t2, t1 ∈ qs -> t2 ∈ qs ->
    cat_id (category t1) = cat_id (category t2) ->
    nome (category t1) = nome (category t2).

(** An aggregated row whose month is a first of month of the sheet. *)
Definition on_sheet (months : list date) (x : CashItem) : Prop :=
  exists m idx, ci_month x = Some m /\ day m = 1
                /\ month_index_of months !! month_key m = Some idx.

(** What the first loop of [build_cashflow_context] maintains, with
    [seen] the aggregated rows handled so far. *)
Definition sheet_inv (months : list date) (rows : Rows)
           (seen : list CashItem) : Prop :=
  Forall (fun kr : (Tipo * nat) * Row =>
            row_tipo kr.2 = kr.1.1
            /\ length (values_list kr.2) = length months) rows
  /\ (forall k, rows_of_kind_total k rows = cash_items_total k seen)
  /\ forall rk row idx v,
       rows_get rk rows = Some row ->
       values_list row !! idx = Some v -> v <> 0 ->
       exists x m, x ∈ seen /\ (ci_tipo x, ci_category_id x) = rk
                   /\ ci_month x = Some m /\ day m = 1
                   /\ month_index_of months !! month_key m = Some idx.

End CashTotals.

(* ===================================================================== *)
(** ** A billing request from the start (views.py, [post]) *)
(* ===================================================================== *)

Module BillingRequests.
Import Calendar Ledger Views.

(** [_get_end_date]: the closing day of the order, else the day it was
    finished, else nothing. *)
Definition _get_end_date (closed_on finished_at : option date)
  : option date :=
  match closed_on with
  | Some d => Some d
  | None => finished_at
  end.

(** How a request ends: [OrderNotFound] is the [Http404] of [_get_order]
    for an order whose status is not a closed one. *)
Inductive BillingOutcome :=
| OrderNotFound
| MissingEndDate
| Refused (why : Rejection)
| Generated (stored : list Transaction).

(** [post] from its first line: the order is looked up among the closed
    orders, its end date is required, and only then the stored
    transactions are examined. *)
Definition WorkOrderPaymentView_request
           (today : date) (request_user : nat) (group_id : nat)
           (db : list Transaction)
           (is_closed : bool) (closed_on finished_at : option date)
           (order : WorkOrder)
           (acc : option Account) (cat : option Category)
           (form : WorkOrderPaymentForm) : BillingOutcome :=
  if negb is_closed then OrderNotFound
  else if negb (truthy (_get_end_date closed_on finished_at))
  then MissingEndDate
  else match WorkOrderPaymentView_post today request_user group_id db
                                       order acc cat form with
       | inl why => Refused why
       | inr stored => Generated stored
       end.

(** An installment of the order that is not canceled. *)
Definition active_installment (order : WorkOrder) (t : Transaction)
  : bool :=
  of_order order t && is_installment t
  && negb (bool_decide (status t = cancelado)).

End BillingRequests.

(* ===================================================================== *)
(** ** Calendar facts *)
(* ===================================================================== *)

Module CalendarFacts.
Import Calendar.

Lemma days_in_month_bounds y m : 28 <= days_in_month y m <= 31.
Proof.
  unfold days_in_month.
  destruct (m =? 2); [destruct (is_leap y); lia|].
  destruct ((m =? 4) || (m =? 6) || (m =? 9) || (m =? 11)); lia.
Qed.

Lemma valid_dateb_spec d :
  valid_dateb d = true <->
  MINYEAR <= year d <= MAXYEAR /\ 1 <= month d <= 12
  /\ 1 <= day d <= days_in_month (year d) (month d).
Proof.
  unfold valid_dateb.
  rewrite !andb_true_iff, !Z.leb_le. tauto.
Qed.

Lemma py_date_Some y m d :
  MINYEAR <= y <= MAXYEAR -> 1 <= m <= 12 ->
  1 <= d <= days_in_month y m ->
  py_date y m d = Some (Date y m d).
Proof.
  intros Hy Hm Hd. unfold py_date.
  assert (valid_dateb (Date y m d) = true) as ->; [|done].
  apply valid_dateb_spec; simpl; auto.
Qed.

Lemma py_date_valid y m d r : py_date y m d = Some r -> valid_date r.
Proof.
  unfold py_date, valid_date.
  destruct (valid_dateb (Date y m d)) eqn:E; [|done].
  by intros [= <-].
Qed.

(** The last day of a month is the day numbered by its length. *)
Lemma last_day_of_month_first y m :
  MINYEAR <= y <= MAXYEAR -> 1 <= m <= 12 ->
  _last_day_of_month (Date y m 1) = Some (Date y m (days_in_month y m)).
Proof.
  intros Hy Hm. unfold _last_day_of_month; simpl.
  destruct (m =? 12) eqn:E12.
  - apply Z.eqb_eq in E12; subst m.
    by rewrite py_date_Some.
  - apply Z.eqb_neq in E12.
    rewrite py_date_Some; [|done|lia|].
    2:{ pose proof (days_in_month_bounds y (m + 1)); lia. }
    simpl. unfold minus_one_day; simpl.
    assert ((1 <? m + 1) = true) as -> by (apply Z.ltb_lt; lia).
    by replace (m + 1 - 1) with m by lia.
Qed.

Lemma target_month_range m i :
  1 <= ((m - 1 + i) mod 12) + 1 <= 12.
Proof. pose proof (Z.mod_pos_bound (m - 1 + i) 12); lia. Qed.

(** [_add_months] on a target year the calendar supports. *)
Lemma add_months_Some (base : date) (i : Z) :
  valid_date base -> 0 <= i ->
  year base + (month base - 1 + i) / 12 <= MAXYEAR ->
  let y := year base + (month base - 1 + i) / 12 in
  let m := ((month base - 1 + i) mod 12) + 1 in
  _add_months base i
  = Some (Date y m (Z.min (day base) (days_in_month y m))).
Proof.
  intros Hv Hi Hmax y m.
  apply valid_dateb_spec in Hv as (Hy & Hm & Hd).
  assert (0 <= (month base - 1 + i) / 12) by (apply Z.div_pos; lia).
  assert (MINYEAR <= y <= MAXYEAR) by (unfold y; lia).
  pose proof (target_month_range (month base) i) as Hm'.
  pose proof (days_in_month_bounds y m).
  unfold _add_months. fold y m.
  rewrite py_date_Some by (auto; lia). simpl.
  rewrite last_day_of_month_first by auto. simpl.
  apply py_date_Some; auto; lia.
Qed.

Lemma add_months_zero (base : date) :
  valid_date base -> _add_months base 0 = Some base.
Proof.
  intros Hv. pose proof Hv as Hv'.
  apply valid_dateb_spec in Hv' as (Hy & Hm & Hd).
  rewrite add_months_Some; [|done|lia|].
  - replace (month base - 1 + 0) with (month base - 1) by lia.
    rewrite Z.div_small, Z.mod_small by lia.
    replace (year base + 0) with (year base) by lia.
    replace (month base - 1 + 1) with (month base) by lia.
    rewrite Z.min_l by lia. by destruct base.
  - replace (month base - 1 + 0) with (month base - 1) by lia.
    rewrite Z.div_small by lia. lia.
Qed.

(** Within 24 installments the target year is at most two years on. *)
Lemma target_year_bound m i :
  1 <= m <= 12 -> 0 <= i < 24 -> 0 <= (m - 1 + i) / 12 <= 2.
Proof.
  intros Hm Hi. split.
  - apply Z.div_pos; lia.
  - apply Z.lt_succ_r. apply Z.div_lt_upper_bound; lia.
Qed.

Lemma py_date_first y m :
  MINYEAR <= y <= MAXYEAR -> 1 <= m <= 12 ->
  py_date y m 1 = Some (Date y m 1).
Proof.
  intros Hy Hm. apply py_date_Some; [done|done|].
  pose proof (days_in_month_bounds y m). lia.
Qed.

(** Between first-of-month dates the order is the sign of the span. *)
Lemma first_of_month_leb (a b : date) :
  1 <= month a <= 12 -> 1 <= month b <= 12 -> day a = 1 -> day b = 1 ->
  date_leb a b = (1 <=? month_span a b).
Proof.
  intros Ha Hb Hda Hdb. unfold date_leb, date_ltb, month_span.
  rewrite Hda, Hdb.
  repeat match goal with
         | |- context [?x <? ?y] => destruct (Z.ltb_spec x y)
         | |- context [?x =? ?y] => destruct (Z.eqb_spec x y)
         | |- context [?x <=? ?y] => destruct (Z.leb_spec x y)
         end; simpl; try done; lia.
Qed.

Lemma next_month_fields (m : Z) :
  1 <= m <= 12 ->
  (m = 12 /\ m / 12 = 1 /\ m mod 12 + 1 = 1)
  \/ (m < 12 /\ m / 12 = 0 /\ m mod 12 + 1 = m + 1).
Proof.
  intros Hm. destruct (Z.eq_dec m 12) as [->|Hne].
  - left. done.
  - right. rewrite Z.div_small, Z.mod_small by lia. lia.
Qed.

(** The loop of [_month_list] ends within its fuel: it returns one entry
    per month of the span. *)
Lemma month_list_loop_total (fuel : nat) (cursor e : date) :
  MINYEAR <= year cursor -> 1 <= month cursor <= 12 -> day cursor = 1 ->
  year e < MAXYEAR -> 1 <= month e <= 12 -> day e = 1 ->
  Z.of_nat fuel = Z.max 0 (month_span cursor e) ->
  exists l, month_list_loop fuel cursor e = Some l /\ length l = fuel.
Proof.
  revert cursor.
  induction fuel as [|fuel IH]; intros cursor Hy Hm Hd Hye Hme Hde Hf;
    simpl; rewrite first_of_month_leb by done.
  - destruct (Z.leb_spec 1 (month_span cursor e)); [lia|]. by exists [].
  - destruct (Z.leb_spec 1 (month_span cursor e)); [|lia].
    assert (year cursor <= year e) by (unfold month_span in *; lia).
    destruct (next_month_fields (month cursor) Hm)
      as [(Hm12 & -> & ->) | (Hlt & -> & ->)].
    + rewrite py_date_first by lia. simpl.
      destruct (IH (Date (year cursor + 1) 1 1)) as (l & -> & Hl);
        simpl; try done; try lia.
      { unfold month_span in *; simpl. lia. }
      exists (cursor :: l). simpl. by rewrite Hl.
    + rewrite py_date_first by lia. simpl.
      destruct (IH (Date (year cursor + 0) (month cursor + 1) 1))
        as (l & -> & Hl); simpl; try done; try lia.
      { unfold month_span in *; simpl. lia. }
      exists (cursor :: l). simpl. by rewrite Hl.
Qed.

Lemma month_list_total (start_date end_date : date) :
  valid_date start_date -> valid_date end_date ->
  year end_date < MAXYEAR ->
  exists l, _month_list start_date end_date = Some l
            /\ Z.of_nat (length l)
               = Z.max 0 (month_span start_date end_date).
Proof.
  intros Hs He Hy.
  apply valid_dateb_spec in Hs as (Hsy & Hsm & _).
  apply valid_dateb_spec in He as (_ & Hem & _).
  destruct (month_list_loop_total
              (Z.to_nat (month_span start_date end_date))
              (replace_day1 start_date) (replace_day1 end_date))
    as (l & Hl & Hlen); simpl; try done; try lia.
  { unfold month_span; simpl. lia. }
  exists l. split; [done|]. rewrite Hlen. lia.
Qed.

End CalendarFacts.

(* ===================================================================== *)
(** ** Rounding and the shape of a split *)
(* ===================================================================== *)

Module SplitFacts.
Import Calendar Ledger Views Spec.

Lemma quantize_div_between total n :
  0 < n ->
  total / n <= Money.quantize_div total n <= total / n + 1.
Proof.
  intros Hn. unfold Money.quantize_div.
  repeat case_match; lia.
Qed.

(** [quantize] picks a nearest cent: the product misses the total by at
    most half a cent per installment. *)
Lemma quantize_div_nearest total n :
  0 < n ->
  2 * Z.abs (total - Money.quantize_div total n * n) <= n.
Proof.
  intros Hn. unfold Money.quantize_div.
  pose proof (Z.div_mod total n ltac:(lia)) as Hdm.
  pose proof (Z.mod_pos_bound total n Hn) as Hr.
  repeat case_match;
    repeat match goal with
           | H : (_ <? _) = true |- _ => apply Z.ltb_lt in H
           | H : (_ <? _) = false |- _ => apply Z.ltb_ge in H
           end; nia.
Qed.

(** On a tie the even cent is taken. *)
Lemma quantize_div_tie_even total n :
  0 < n -> 2 * (total mod n) = n ->
  Z.even (Money.quantize_div total n) = true.
Proof.
  intros Hn Htie. unfold Money.quantize_div.
  assert ((2 * (total mod n) <? n) = false) as -> by (apply Z.ltb_ge; lia).
  assert ((n <? 2 * (total mod n)) = false) as -> by (apply Z.ltb_ge; lia).
  destruct (Z.even (total / n)) eqn:E; [done|].
  rewrite Z.even_add, E. done.
Qed.

Lemma quantize_div_exact total n :
  0 < n -> (n | total) -> Money.quantize_div total n * n = total.
Proof.
  intros Hn [k ->]. unfold Money.quantize_div.
  rewrite Z.mod_mul, Z.div_mul by lia.
  assert ((2 * 0 <? n) = true) as -> by (apply Z.ltb_lt; lia).
  done.
Qed.

Lemma sum_replicate_last k b x :
  Money.sum (replicate k b ++ [x]) = Z.of_nat k * b + x.
Proof.
  induction k as [|k IH]; simpl in *; [lia|]. rewrite IH. lia.
Qed.

(** The amounts the creation loop hands out, index by index. *)
Lemma values_shape (b r n : Z) :
  1 <= n ->
  map (fun idx => if idx =? n - 1 then b + r else b) (seqZ 0 n)
  = replicate (Z.to_nat (n - 1)) b ++ [b + r].
Proof.
  intros Hn.
  assert (seqZ 0 n = seqZ 0 (n - 1) ++ seqZ (0 + (n - 1)) 1) as ->.
  { rewrite <- seqZ_app by lia. f_equal. lia. }
  rewrite map_app. f_equal.
  - assert (Forall (fun idx => (if idx =? n - 1 then b + r else b) = b)
                   (seqZ 0 (n - 1))) as HF.
    { apply Forall_forall. intros idx Hin.
      apply elem_of_seqZ in Hin.
      destruct (Z.eqb_spec idx (n - 1)); [lia|done]. }
    rewrite <- (length_seqZ 0 (n - 1)).
    induction HF as [|x l Hx _ IH]; simpl; [done|].
    by rewrite Hx, IH.
  - simpl. rewrite Z.eqb_refl. done.
Qed.

Lemma mapM_seqZ_Some {A} (f : Z -> option A) (g : Z -> A) n :
  (forall i, 0 <= i < n -> f i = Some (g i)) ->
  mapM f (seqZ 0 n) = Some (map g (seqZ 0 n)).
Proof.
  intros Hf. apply mapM_Some_2, Forall2_fmap_r, Forall_Forall2_diag.
  apply Forall_forall. intros i Hi.
  apply elem_of_seqZ in Hi. apply Hf. lia.
Qed.

Lemma valor_save today t : valor (save today t) = valor t.
Proof. unfold save. repeat case_match; done. Qed.

Lemma is_projection_save today t :
  is_projection (save today t) = is_projection t.
Proof. unfold save. repeat case_match; done. Qed.

Lemma data_vencimento_save today t :
  data_vencimento (save today t) = data_vencimento t.
Proof. unfold save. repeat case_match; done. Qed.

Lemma due_year_ok first idx :
  valid_date first -> year first + 2 <= MAXYEAR -> 0 <= idx < 24 ->
  year first + (month first - 1 + idx) / 12 <= MAXYEAR.
Proof.
  intros Hv Hy Hi.
  apply CalendarFacts.valid_dateb_spec in Hv as (_ & Hm & _).
  pose proof (CalendarFacts.target_year_bound (month first) idx Hm Hi).
  lia.
Qed.

(** The work-order loop succeeds and yields one row per index. *)
Lemma generate_installments_Some today u g order total acc cat form :
  1 <= installments form <= 24 ->
  valid_date (first_due_date form) ->
  year (first_due_date form) + 2 <= MAXYEAR ->
  let n := installments form in
  let base := Money.quantize_div total n in
  generate_installments today u g order total acc cat form
  = Some (map (fun idx =>
                 create today u (Some (wo_id order)) receita
                        (if idx =? n - 1
                         then base + (total - base * n) else base)
                        (due_date_of (first_due_date form) idx) None
                        acc cat true true (Some g)
                        (Some (idx + 1)) (Some n))
              (seqZ 0 n)).
Proof.
  intros Hn Hv Hy n base. unfold generate_installments.
  apply mapM_seqZ_Some. intros i Hi. fold n in Hi.
  destruct (Z.eqb_spec i 0) as [->|Hne]; simpl.
  - replace (due_date_of (first_due_date form) 0)
      with (first_due_date form); [done|].
    pose proof (CalendarFacts.add_months_zero _ Hv) as H0.
    rewrite CalendarFacts.add_months_Some in H0; [|done|lia|].
    + unfold due_date_of. by injection H0.
    + apply due_year_ok; auto; lia.
  - rewrite CalendarFacts.add_months_Some; [done|done|lia|].
    apply due_year_ok; auto. unfold n in Hi. lia.
Qed.

(** The expense loop succeeds and yields one row per index. *)
Lemma create_expense_installments_Some today u g form n :
  1 <= n <= 24 ->
  valid_date (f_data_vencimento form) ->
  year (f_data_vencimento form) + 2 <= MAXYEAR ->
  let total := default 0 (f_valor form) in
  let base := Money.quantize_div total n in
  _create_expense_installments today u g form n
  = Some (map (fun idx =>
                 create today u None despesa
                        (if idx =? n - 1
                         then base + (total - base * n) else base)
                        (due_date_of (f_data_vencimento form) idx) None
                        (f_account form) (f_category form)
                        true false (Some g)
                        (Some (idx + 1)) (Some n))
              (seqZ 0 n)).
Proof.
  intros Hn Hv Hy total base. unfold _create_expense_installments.
  apply mapM_seqZ_Some. intros i Hi.
  rewrite CalendarFacts.add_months_Some; [done|done|lia|].
  apply due_year_ok; auto. lia.
Qed.

Lemma lookup_map {A B} (f : A -> B) (l : list A) (i : nat) :
  map f l !! i = f <$> (l !! i).
Proof. exact (list_lookup_fmap f l i). Qed.

Lemma valor_map_create {A} (l : list A) (mk : A -> Transaction)
      (amount : A -> Z) :
  (forall x, valor (mk x) = amount x) ->
  map valor (map mk l) = map amount l.
Proof.
  intros H. induction l as [|x l IH]; simpl; [done|].
  by rewrite H, IH.
Qed.

Lemma valor_create today u wo k amount due p acc cat i pr g nb tt :
  valor (create today u wo k amount due p acc cat i pr g nb tt) = amount.
Proof. unfold create. by rewrite valor_save. Qed.

Lemma mapM_values {A} (f : A -> option Transaction) (amount : A -> Z)
      (l : list A) (txs : list Transaction) :
  (forall x t, f x = Some t -> valor t = amount x) ->
  mapM f l = Some txs -> map valor txs = map amount l.
Proof.
  intros Hf Hm. apply mapM_Some_1 in Hm.
  induction Hm as [|x t l txs Hx _ IH]; simpl; [done|].
  by rewrite (Hf _ _ Hx), IH.
Qed.

(** Whatever either generator returns carries the amounts of the loop. *)
Lemma generated_values today u g order acc cat total n first txs :
  generated today u g order acc cat total n first txs ->
  let base := Money.quantize_div total n in
  map valor txs
  = map (fun idx => if idx =? n - 1
                    then base + (total - base * n) else base) (seqZ 0 n).
Proof.
  intros [H | H] base.
  - unfold generate_installments in H; simpl in H.
    eapply mapM_values; [|exact H].
    intros idx t Ht. simpl in Ht.
    apply bind_Some in Ht as (due & _ & [= <-]).
    by rewrite valor_create.
  - unfold _create_expense_installments in H; simpl in H.
    eapply mapM_values; [|exact H].
    intros idx t Ht. simpl in Ht.
    apply bind_Some in Ht as (due & _ & [= <-]).
    by rewrite valor_create.
Qed.

(** A request [WorkOrderPaymentView.post] accepts stores the superseded
    rows followed by the installments of the creation loop. *)
Lemma post_stores_generated today u g db order acc cat form db' :
  WorkOrderPaymentView_post today u g db order acc cat form = inr db' ->
  exists a c created,
    acc = Some a /\ cat = Some c
    /\ 1 <= installments form <= 24
    /\ 0 < default 0 (labor_cost order)
    /\ generate_installments today u g order
         (default 0 (labor_cost order)) a c form = Some created
    /\ db' = map (supersede order) db ++ created.
Proof.
  unfold WorkOrderPaymentView_post, payment_form_is_valid.
  repeat case_match; try done. intros [= <-].
  repeat match goal with
         | H : negb _ = false |- _ => apply negb_false_iff in H
         | H : (_ && _) = true |- _ => apply andb_true_iff in H as [? ?]
         | H : (_ <=? _) = true |- _ => apply Z.leb_le in H
         | H : (_ <=? _) = false |- _ => apply Z.leb_gt in H
         end.
  eexists _, _, _. repeat split; try done; lia.
Qed.

Lemma generators_succeed_in_calendar today u g order acc cat total n first :
  1 <= n <= 24 -> valid_date first -> year first + 2 <= MAXYEAR ->
  generators_succeed today u g order acc cat total n first.
Proof.
  intros Hn Hv Hy. split.
  - rewrite generate_installments_Some by done. by eexists.
  - rewrite create_expense_installments_Some by done. by eexists.
Qed.

End SplitFacts.

(* ===================================================================== *)
(** ** Installment generator: amounts *)
(* ===================================================================== *)

Module Installments.
Import Calendar Ledger Views Spec SplitFacts.

(** C1 (split conservation).  For every total T > 0 and count N in
    [1,24], what either installment generator produces are N amounts that
    sum to exactly T; the first N-1 are the rounded quotient and the last
    one takes the whole remainder, so all N are equal when N divides T and
    otherwise only the last one differs.  Both generators do produce them
    whenever the plan ends within the calendar. *)
Theorem split_conservation (today : date) (u g : nat) (order : WorkOrder)
        (acc : Account) (cat : Category) (total n : Z) (first : date) :
  0 < total -> 1 <= n <= 24 ->
  split_conserved today u g order acc cat total n first.
Proof.
  intros HT Hn. unfold split_conserved.
  set (base := Money.quantize_div total n).
  split; [intros; by apply generators_succeed_in_calendar|].
  intros txs Hgen.
  pose proof (generated_values _ _ _ _ _ _ _ _ _ _ Hgen) as Hval.
  simpl in Hval. fold base in Hval.
  rewrite values_shape in Hval by lia.
  split; [|split; [|split; [|split]]].
  - rewrite <- (length_map valor), Hval.
    rewrite length_app, length_replicate. simpl. lia.
  - rewrite Hval, sum_replicate_last, Z2Nat.id by lia. ring.
  - done.
  - intros Hdiv. rewrite Hval.
    pose proof (quantize_div_exact total n ltac:(lia) Hdiv) as He.
    fold base in He.
    assert (base = total / n) as Hb.
    { rewrite <- He. by rewrite Z.div_mul by lia. }
    rewrite <- Hb.
    replace (base + (total - base * n)) with base by lia.
    rewrite <- replicate_S_end. f_equal. lia.
  - intros Hnd Heq. apply Hnd. exists base. lia.
Qed.

Lemma split_conservation_witness :
  0 < 100000 /\ 1 <= 3 <= 24
  /\ split_conserved Samples.hoje 7 1 Samples.ordem Samples.conta
                     Samples.servicos 100000 3 (Date 2026 1 31).
Proof.
  split; [lia|]. split; [lia|].
  apply split_conservation; lia.
Defined.

Example split_1000_in_3 :
  map valor <$> generate_installments Samples.hoje 7 1 Samples.ordem
                  100000 Samples.conta Samples.servicos
                  (Samples.payment_form 3 (Date 2026 1 31))
  = Some [33333; 33333; 33334].
Proof. vm_compute. reflexivity. Qed.

(** C7, amended.  The base amount is T/N rounded to the nearest cent
    (a tie going to the even cent), so it is either the floor of T/N or
    one cent more; every installment before the last gets the base
    amount and the last gets base + (T - base*N). *)
Theorem installment_amount_rule (today : date) (u g : nat)
        (order : WorkOrder) (acc : Account) (cat : Category)
        (total n : Z) (first : date) :
  0 < total -> 1 <= n <= 24 ->
  amount_rule today u g order acc cat total n first.
Proof.
  intros HT Hn. unfold amount_rule.
  split; [apply quantize_div_between; lia|].
  split; [apply quantize_div_nearest; lia|].
  split; [apply quantize_div_tie_even; lia|].
  split; [intros; by apply generators_succeed_in_calendar|].
  intros txs Hgen i Hi.
  pose proof (generated_values _ _ _ _ _ _ _ _ _ _ Hgen) as Hval.
  simpl in Hval.
  rewrite <- lookup_map, Hval, lookup_map, lookup_seqZ_lt by lia.
  simpl. by rewrite Z2Nat.id by lia.
Qed.

Lemma installment_amount_rule_witness :
  0 < 20000 /\ 1 <= 3 <= 24
  /\ amount_rule Samples.hoje 7 1 Samples.ordem Samples.conta
                 Samples.servicos 20000 3 (Date 2026 1 31).
Proof.
  split; [lia|]. split; [lia|].
  apply installment_amount_rule; lia.
Defined.

(** C7 as stated fails: 200.00 in 3 installments has base 66.67, while
    the floor of 200.00 / 3 to two decimals is 66.66. *)
Lemma base_amount_is_not_the_floor :
  map valor <$> generate_installments Samples.hoje 7 1 Samples.ordem
                  20000 Samples.conta Samples.servicos
                  (Samples.payment_form 3 (Date 2026 1 31))
  = Some [6667; 6667; 6666]
  /\ map valor <$> _create_expense_installments Samples.hoje 7 1
                     (Samples.expense_form 20000 (Date 2026 1 31)) 3
     = Some [6667; 6667; 6666]
  /\ 20000 / 3 = 6666.
Proof. repeat split; vm_compute; reflexivity. Qed.

End Installments.

(* ===================================================================== *)
(** ** Installment generator: due dates *)
(* ===================================================================== *)

Module DueDates.
Import Calendar Views Spec.

(** C8, amended.  For every first due date and every index i >= 0 whose
    target month is not after December 9999, [_add_months] returns the
    first due date advanced by i calendar months with the day clamped to
    the last valid day of the target month; no date construction fails.
    At i = 0 it returns the first due date itself, which is what the
    work-order path uses for its first installment. *)
Theorem month_clamping (first : date) (i : Z) :
  valid_date first -> 0 <= i ->
  year first + (month first - 1 + i) / 12 <= MAXYEAR ->
  clamped_due_date first i.
Proof.
  intros Hv Hi Hmax. unfold clamped_due_date.
  rewrite CalendarFacts.add_months_Some by done.
  eexists; split; [done|].
  pose proof Hv as Hv'.
  apply CalendarFacts.valid_dateb_spec in Hv' as (Hy & Hm & Hd).
  pose proof (CalendarFacts.target_month_range (month first) i) as Hm'.
  assert (0 <= (month first - 1 + i) / 12) by (apply Z.div_pos; lia).
  split; [split; [|split]|]; simpl.
  - apply CalendarFacts.valid_dateb_spec; simpl.
    pose proof (CalendarFacts.days_in_month_bounds
                  (year first + (month first - 1 + i) / 12)
                  ((month first - 1 + i) mod 12 + 1)).
    lia.
  - pose proof (Z.div_mod (month first - 1 + i) 12 ltac:(lia)). lia.
  - done.
  - intros ->.
    pose proof (CalendarFacts.add_months_zero first Hv) as H0.
    rewrite CalendarFacts.add_months_Some in H0 by done.
    by injection H0.
Qed.

Lemma month_clamping_witness :
  valid_date (Date 2024 1 31) /\ 0 <= 1
  /\ year (Date 2024 1 31) + (month (Date 2024 1 31) - 1 + 1) / 12
     <= MAXYEAR
  /\ clamped_due_date (Date 2024 1 31) 1.
Proof.
  split; [reflexivity|]. split; [lia|].
  split; [vm_compute; discriminate|].
  apply month_clamping; [reflexivity | lia | ].
  vm_compute. discriminate.
Defined.

Example jan31_plus_one_month :
  _add_months (Date 2026 1 31) 1 = Some (Date 2026 2 28)
  /\ _add_months (Date 2024 1 31) 1 = Some (Date 2024 2 29)
  /\ _add_months (Date 2026 1 31) 3 = Some (Date 2026 4 30).
Proof. repeat split; reflexivity. Qed.

(** C8 as stated fails at the end of the calendar: the second
    installment of a plan that starts on 31 December 9999 needs
    [date(10000, 1, 1)], which raises. *)
Lemma month_clamping_fails_after_9999 :
  valid_date (Date 9999 12 31)
  /\ _add_months (Date 9999 12 31) 1 = None
  /\ generate_installments Samples.hoje 7 1 Samples.ordem 20000
       Samples.conta Samples.servicos
       (Samples.payment_form 2 (Date 9999 12 31)) = None.
Proof. repeat split; vm_compute; reflexivity. Qed.

End DueDates.

(* ===================================================================== *)
(** ** Transaction life cycle *)
(* ===================================================================== *)

Module Lifecycle.
Import Calendar Ledger Views Endpoints Spec.

Lemma date_ltb_leb_trans a b c :
  date_ltb a b = true -> date_leb b c = true -> date_ltb a c = true.
Proof.
  unfold date_leb, date_ltb.
  repeat match goal with
         | |- context [?x <? ?y] => destruct (Z.ltb_spec x y)
         | |- context [?x =? ?y] => destruct (Z.eqb_spec x y)
         end; simpl; try done; lia.
Qed.




(** Issuing the invoice of a projected installment whose due date has
    passed clears the flag, and the save that follows turns it overdue. *)
Example invoice_of_past_due_projection :
  let t := (InstallmentInvoiceView_post Samples.hoje
              {| inv_is_valid := true; inv_payment_origin := Some "pix";
                 generate_nf := true; inv_invoice_number := Some "NF-1";
                 inv_invoice_issued_at := Some Samples.hoje;
                 generate_boleto := false; inv_boleto_number := None;
                 inv_boleto_issued_at := None |}
              Samples.primeira).1 in
  status Samples.primeira = previsto
  /\ data_vencimento Samples.primeira = Date 2025 11 30
  /\ is_projection t = false
  /\ status t = atrasado.
Proof. repeat split; reflexivity. Qed.

Example pending_turns_overdue_after_due_date :
  let t := save (Date 2026 1 10)
             (Samples.lancamento despesa previsto 12000 (Date 2026 1 20)
                                 None Samples.operacional) in
  status t = previsto
  /\ status (save (Date 2026 1 20) t) = previsto
  /\ status (save (Date 2026 1 21) t) = atrasado.
Proof. repeat split; reflexivity. Qed.

(** *** Canceled entries *)

Lemma save_canceled today t :
  status t = cancelado ->
  status (save today t) = cancelado /\ data_pagamento (save today t) = None.
Proof.
  intros H. unfold save. by rewrite bool_decide_eq_true_2.
Qed.

Lemma handle_canceled r t :
  status t = cancelado -> status (handle r t) = cancelado.
Proof.
  intros H. destruct r as [d|d u f|u|d u|d f]; simpl.
  - by apply save_canceled.
  - unfold TransactionMarkAsCompletedView_post.
    rewrite (bool_decide_eq_true_2 (status t = cancelado)) by done.
    repeat case_match; done.
  - unfold TransactionMarkAsPendingView_post. repeat case_match; done.
  - unfold TransactionCancelView_post.
    repeat case_match; simpl; done.
  - unfold InstallmentInvoiceView_post.
    rewrite (bool_decide_eq_true_2 (status t = cancelado)) by done.
    repeat case_match; done.
Qed.

(** C5, amended.  Canceled is terminal for saves and for the ledger
    endpoints: no sequence of saves and of mark-realized, mark-pending,
    cancel and invoice requests moves a canceled transaction away from
    canceled. *)
Theorem canceled_is_terminal (rs : list Request) (t : Transaction) :
  status t = cancelado -> status (run rs t) = cancelado.
Proof.
  revert t. induction rs as [|r rs IH]; intros t H; simpl; [done|].
  apply IH. by apply handle_canceled.
Qed.

Lemma canceled_is_terminal_witness :
  status (Samples.lancamento receita cancelado 5000 (Date 2026 1 20)
                             None Samples.servicos) = cancelado
  /\ status
       (run [ReqMarkCompleted Samples.hoje 7
               {| confirmacao := true; form_data_pagamento := None |};
             ReqMarkPending 7; ReqSave (Date 2026 2 1)]
            (Samples.lancamento receita cancelado 5000 (Date 2026 1 20)
                                None Samples.servicos)) = cancelado.
Proof.
  split; [reflexivity|]. apply canceled_is_terminal. reflexivity.
Defined.

(** C5 as stated fails: called on a canceled transaction, the model
    methods overwrite the status before [save] can see it. *)
Lemma model_methods_leave_canceled :
  let t := Samples.lancamento receita cancelado 5000 (Date 2026 1 20)
                              None Samples.servicos in
  status t = cancelado
  /\ status (marcar_como_realizado Samples.hoje None t) = realizado
  /\ status (marcar_como_previsto Samples.hoje t) = previsto.
Proof. repeat split; reflexivity. Qed.

(** *** The payment date after a mark-realized request *)

(** C9 fails on the code.  A pending entry due on 20 January is marked
    realized on 10 January with no date supplied: the payment date
    becomes today, ten days before the due date, a row [clean] refuses.
    Marked with a supplied date in the future, the payment date lies
    after today. *)
Lemma mark_realized_escapes_clean :
  let t := save Samples.hoje
             (Samples.lancamento despesa previsto 12000 (Date 2026 1 20)
                                 None Samples.operacional) in
  let early := TransactionMarkAsCompletedView_post Samples.hoje 7
                 {| confirmacao := true; form_data_pagamento := None |}
                 t in
  let late := TransactionMarkAsCompletedView_post Samples.hoje 7
                {| confirmacao := true;
                   form_data_pagamento := Some (Date 2026 3 1) |} t in
  early.2 = Success
  /\ status early.1 = realizado
  /\ data_pagamento early.1 = Some (Date 2026 1 10)
  /\ data_vencimento early.1 = Date 2026 1 20
  /\ clean Samples.hoje early.1 = Some PaymentBeforeDue
  /\ late.2 = Success
  /\ data_pagamento late.1 = Some (Date 2026 3 1)
  /\ clean Samples.hoje late.1 = Some PaymentAfterToday.
Proof. repeat split; reflexivity. Qed.

(** *** Projected installments of the billing path *)

Lemma save_projected today t : projected t -> projected (save today t).
Proof.
  intros (Hp & Hd & Hs). unfold projected, save.
  rewrite Hp, Hd. simpl.
  destruct Hs as [Hs | Hs]; rewrite Hs; simpl; rewrite ?Hs; auto.
Qed.

Lemma save_projected_status today t :
  projected t -> status (save today t) = status t.
Proof.
  intros (Hp & Hd & Hs). unfold save. rewrite Hp, Hd. simpl.
  destruct Hs as [Hs | Hs]; rewrite Hs; simpl; done.
Qed.

Lemma handle_projected r t :
  issues_invoice r = false -> projected t -> projected (handle r t).
Proof.
  intros Hr HP. pose proof HP as (Hp & Hd & Hs).
  destruct r as [d|d u f|u|d u|d f]; simpl in *.
  - by apply save_projected.
  - unfold TransactionMarkAsCompletedView_post. rewrite Hp.
    repeat case_match; done.
  - unfold TransactionMarkAsPendingView_post. repeat case_match; done.
  - unfold TransactionCancelView_post.
    repeat case_match; simpl; try done.
    unfold cancelar. apply save_projected.
    unfold projected; simpl; auto.
  - unfold InstallmentInvoiceView_post.
    destruct (negb (is_installment t && bool_decide (tipo t = receita)));
      [done|].
    destruct (bool_decide (status t = realizado)); [done|].
    destruct (bool_decide (status t = cancelado)) eqn:Hc; [done|].
    destruct (inv_is_valid f); simpl in *; [|done].
    subst. apply bool_decide_eq_false in Hc.
    apply save_projected. unfold projected; simpl.
    rewrite Hr. tauto.
Qed.

Lemma handle_projected_status r t :
  issues_invoice r = false -> is_cancel r = false -> projected t ->
  status (handle r t) = status t.
Proof.
  intros Hr Hc HP. pose proof HP as (Hp & Hd & Hs).
  destruct r as [d|d u f|u|d u|d f]; simpl in *; try done.
  - by apply save_projected_status.
  - unfold TransactionMarkAsCompletedView_post. rewrite Hp.
    repeat case_match; done.
  - unfold TransactionMarkAsPendingView_post. repeat case_match; done.
  - unfold InstallmentInvoiceView_post.
    destruct (negb (is_installment t && bool_decide (tipo t = receita)));
      [done|].
    destruct (bool_decide (status t = realizado)); [done|].
    destruct (bool_decide (status t = cancelado)) eqn:Hcc; [done|].
    destruct (inv_is_valid f); simpl in *; [|done].
    subst. apply bool_decide_eq_false in Hcc.
    unfold save; simpl. rewrite bool_decide_eq_false_2 by done.
    rewrite Hp, Hd, Hr. simpl. by destruct Hs.
Qed.

Lemma run_projected rs t :
  forallb (fun r => negb (issues_invoice r)) rs = true ->
  projected t -> projected (run rs t).
Proof.
  revert t. induction rs as [|r rs IH]; intros t Hrs HP; simpl; [done|].
  simpl in Hrs. apply andb_true_iff in Hrs as [Hr Hrs].
  apply IH; [done|]. apply handle_projected; [|done].
  by apply negb_true_iff.
Qed.

Lemma run_projected_status rs t :
  forallb (fun r => negb (issues_invoice r)) rs = true ->
  forallb (fun r => negb (is_cancel r)) rs = true ->
  projected t -> status (run rs t) = status t.
Proof.
  revert t. induction rs as [|r rs IH]; intros t Hrs Hcs HP; simpl;
    [done|].
  simpl in Hrs, Hcs.
  apply andb_true_iff in Hrs as [Hr Hrs].
  apply andb_true_iff in Hcs as [Hc Hcs].
  apply negb_true_iff in Hr, Hc.
  rewrite IH; [|done|done|by apply handle_projected].
  by apply handle_projected_status.
Qed.

Lemma created_projected today u g order total acc cat form txs t :
  generate_installments today u g order total acc cat form = Some txs ->
  t ∈ txs -> projected t /\ status t = previsto.
Proof.
  unfold generate_installments. intros Hgen Hin.
  apply mapM_Some_1 in Hgen.
  apply list_elem_of_lookup in Hin as [i Hi].
  destruct (Forall2_lookup_r _ _ _ _ _ Hgen Hi) as (idx & _ & Hidx).
  apply bind_Some in Hidx as (due & _ & [= <-]).
  unfold projected, create, save; simpl. auto.
Qed.

(** C10, amended.  Every installment created by the work-order billing
    path is flagged is_projection; through every sequence of saves and
    endpoint requests that issues no invoice it keeps the flag and has
    no payment date, every save leaves it pending unless it has been
    canceled, in which case it stays canceled; it never becomes
    overdue, whatever its due date, and the mark-realized endpoint
    rejects it as a projection. *)
Theorem projection_stays_pending
        (today : date) (u g : nat) (order : WorkOrder) (total : Z)
        (acc : Account) (cat : Category) (form : WorkOrderPaymentForm)
        (txs : list Transaction) (t : Transaction) (rs : list Request) :
  generate_installments today u g order total acc cat form = Some txs ->
  t ∈ txs ->
  forallb (fun r => negb (issues_invoice r)) rs = true ->
  stays_pending rs t.
Proof.
  intros Hgen Hin Hrs.
  destruct (created_projected _ _ _ _ _ _ _ _ _ _ Hgen Hin) as [HP Hst].
  pose proof (run_projected rs t Hrs HP) as HP'.
  pose proof HP' as (Hp & Hd & Hs).
  unfold stays_pending. repeat split; auto.
  - intros Hcs. by rewrite run_projected_status.
  - intros d. by apply save_projected_status.
  - intros d f. unfold TransactionMarkAsCompletedView_post.
    rewrite bool_decide_eq_true_2 by done. simpl. by rewrite Hp.
Qed.

Lemma projection_stays_pending_witness :
  generate_installments Samples.hoje 7 1 Samples.ordem 20000
    Samples.conta Samples.servicos
    (Samples.payment_form 3 (Date 2025 11 30)) = Some Samples.parcelas
  /\ Samples.primeira ∈ Samples.parcelas
  /\ forallb (fun r => negb (issues_invoice r)) Samples.pedidos = true
  /\ stays_pending Samples.pedidos Samples.primeira.
Proof.
  assert (generate_installments Samples.hoje 7 1 Samples.ordem 20000
            Samples.conta Samples.servicos
            (Samples.payment_form 3 (Date 2025 11 30))
          = Some Samples.parcelas) as Hgen by reflexivity.
  assert (Samples.primeira ∈ Samples.parcelas) as Hin
      by (vm_compute; apply list_elem_of_here).
  split; [exact Hgen|]. split; [exact Hin|]. split; [reflexivity|].
  exact (projection_stays_pending _ _ _ _ _ _ _ _ _ _ Samples.pedidos
                                  Hgen Hin eq_refl).
Defined.

(** C10 as stated fails for an installment that is canceled: no payment
    date is set and no invoice was issued, yet a save leaves it
    canceled, not pending. *)
Lemma canceled_projection_is_not_pending :
  let t := (TransactionCancelView_post Samples.hoje 7
                                       Samples.primeira).1 in
  Samples.primeira ∈ Samples.parcelas
  /\ is_projection t = true
  /\ data_pagamento t = None
  /\ invoice_number t = None
  /\ status (save (Date 2026 2 1) t) = cancelado.
Proof.
  split; [vm_compute; apply list_elem_of_here|].
  repeat split; reflexivity.
Qed.

End Lifecycle.

(* ===================================================================== *)
(** ** Reports *)
(* ===================================================================== *)

Module Reports.
Import Calendar Ledger Services Spec.

(** *** The phase filter *)

Lemma phase_filter_date_field qs phase start_date end_date :
  (apply_phase_filter qs phase start_date end_date).2
  = data_vencimento_field.
Proof. reflexivity. Qed.

Lemma phase_filter_status qs phase start_date end_date t :
  t ∈ (apply_phase_filter qs phase start_date end_date).1 ->
  match phase with
  | consolidado => status t = realizado
  | futuro => status t = previsto \/ status t = atrasado
  end
  /\ date_leb start_date (data_vencimento t) = true
  /\ date_leb (data_vencimento t) end_date = true.
Proof.
  unfold apply_phase_filter; simpl. intros Hin.
  destruct phase;
    apply list_elem_of_filter in Hin as [Hst Hin];
    apply list_elem_of_filter in Hin as [[Hs He] _]; auto.
Qed.

(** C2 fails on the code.  In the realized phase the builder keeps only
    realized entries, but it selects and buckets them by due date: a
    receipt due on 31 January and paid on 5 February is reported in
    January, and one due in December and paid in January is not
    reported at all in a January-February statement. *)
Theorem realized_phase_buckets_by_due_date :
  (fun c => dre_groups c receita_operacional)
    <$> build_dre_context ascii_lower Samples.db_dre
          (Date 2026 1 1) (Date 2026 2 28) consolidado None None None
  = Some [100000; 0].
Proof. vm_compute. reflexivity. Qed.

(** *** The cashflow balance *)

Lemma cashflow_final_is_monthly_net db s e phase a c u ctx :
  build_cashflow_context db s e phase a c u = Some ctx ->
  saldo_inicial_total ctx = 0
  /\ totals_saldo_final_list ctx = totals_saldo_list ctx.
Proof.
  unfold build_cashflow_context.
  destruct (apply_phase_filter _ _ _ _) as [qs f].
  intros H.
  apply bind_Some in H as (months & _ & H).
  apply bind_Some in H as (rows & _ & [= <-]). simpl.
  split; [done|].
  induction (zip_with _ _ _) as [|x l IH]; simpl; [done|].
  by rewrite IH.
Qed.

(** C3 fails on the code.  With an active account opened at 1000.00 and
    monthly nets of +1000.00 and -250.00, the builder reports an opening
    balance of 0.00 and the balances 1000.00 and -250.00, each month's
    net on its own, where the claim has 2000.00 and 1750.00. *)
Theorem cashflow_balance_not_carried :
  opening_balance_of_active_accounts Samples.db_cash = 100000
  /\ (fun c => (saldo_inicial_total c, totals_saldo_list c,
                totals_saldo_final_list c))
       <$> build_cashflow_context Samples.db_cash
             (Date 2026 1 1) (Date 2026 2 28) consolidado None None None
     = Some (0, [100000; -25000], [100000; -25000]).
Proof. split; vm_compute; reflexivity. Qed.

(** *** Classification *)

Lemma match_category_app lower name l1 l2 :
  match_category lower name (l1 ++ l2)
  = match_category lower name l1 || match_category lower name l2.
Proof.
  unfold match_category. destruct name; [done|].
  apply existsb_app.
Qed.

Lemma match_category_nil lower name : match_category lower name [] = false.
Proof. unfold match_category. by destruct name. Qed.

(** C4, amended.  The classification is a total function: every
    category lands in exactly one group, a group of the entry's kind.
    The groups are tried in a fixed order and a group is chosen when it
    is the explicit group or one of its keywords occurs in the name, so
    an explicit group of the entry's kind is used exactly when no
    keyword of a group tried earlier occurs in the category's name; and
    for every category, tagged or not, the result is the first group in
    that order that is chosen, keywords being consulted whether or not an
    explicit group is set. *)
Theorem classification_total_and_ordered
        (lower : string -> string) (k : Tipo) (name : string)
        (dre : option DreGroup) :
  group_kind (classify lower k name dre) = k
  /\ (forall g, dre = Some g -> group_kind g = k ->
        (classify lower k name dre = g
         <-> match_category lower name (tested_before g) = false))
  /\ List.find (chosen lower name dre) (tried k)
     = Some (classify lower k name dre).
Proof.
  split; [|split].
  - unfold classify. destruct k; repeat case_match; done.
  - intros g -> Hk. unfold classify, group_is.
    destruct g; simpl in Hk; subst k; unfold tested_before;
      rewrite ?match_category_app, ?match_category_nil;
      repeat (rewrite bool_decide_eq_false_2 by done);
      repeat (rewrite bool_decide_eq_true_2 by done);
      repeat match goal with
             | |- context [match_category lower name ?l] =>
                 destruct (match_category lower name l)
             end; simpl; split; intros; done.
  - unfold classify, tried, chosen, keywords_of. destruct k; simpl.
    + by destruct (group_is receita_financeira dre
                   || match_category lower name kw_receita_financeira).
    + destruct (group_is impostos_venda dre
                || match_category lower name kw_impostos_venda);
        [done|].
      destruct (group_is cmv dre || match_category lower name kw_cmv);
        [done|].
      destruct (group_is despesas_venda dre
                || match_category lower name kw_despesas_venda);
        [done|].
      by destruct (group_is despesas_financeiras dre
                   || match_category lower name kw_despesas_financeiras).
Qed.

(** C4 as stated fails: an expense category tagged "general and
    administrative" whose name contains "imposto" is classified as sales
    tax, and an income category tagged "operating revenue" whose name
    contains "juros" as financial revenue. *)
Lemma keyword_overrides_explicit_group :
  classify ascii_lower despesa "Imposto predial"
           (Some despesas_gerais_adm) = impostos_venda
  /\ classify ascii_lower receita "Juros recebidos"
              (Some receita_operacional) = receita_financeira.
Proof. split; reflexivity. Qed.

Example classify_examples :
  classify ascii_lower despesa "Aluguel" None = despesas_gerais_adm
  /\ classify ascii_lower despesa "Frete e entregas" None
     = despesas_venda
  /\ classify ascii_lower despesa "Comissao de Vendas" None
     = impostos_venda
  /\ classify ascii_lower despesa "Aluguel" (Some cmv) = cmv.
Proof. repeat split; reflexivity. Qed.

End Reports.

(* ===================================================================== *)
(** ** Months: last day, month list, month shift *)
(* ===================================================================== *)

Module Months.
Import Calendar CalendarHelpers CalendarFacts.

(** X1.  [_last_day_of_month] never fails on a valid date: it returns the
    valid date of the same year and month whose day is the length of the
    month, which is not before the date given. *)
Theorem last_day_of_month_spec (value : date) :
  valid_date value ->
  exists d, _last_day_of_month value = Some d
            /\ valid_date d
            /\ year d = year value /\ month d = month value
            /\ day d = days_in_month (year value) (month value)
            /\ date_leb value d = true.
Proof.
  intros Hv. apply valid_dateb_spec in Hv as (Hy & Hm & Hd).
  exists (Date (year value) (month value)
               (days_in_month (year value) (month value))).
  split.
  - change (_last_day_of_month value)
      with (_last_day_of_month (Date (year value) (month value) 1)).
    by apply last_day_of_month_first.
  - repeat split; simpl.
    + apply valid_dateb_spec; simpl.
      pose proof (days_in_month_bounds (year value) (month value)). lia.
    + unfold date_leb, date_ltb; simpl.
      rewrite !Z.ltb_irrefl, !Z.eqb_refl. simpl.
      apply negb_true_iff, Z.ltb_ge. lia.
Qed.

Lemma last_day_of_month_spec_witness :
  valid_date (Date 2024 2 10)
  /\ exists d, _last_day_of_month (Date 2024 2 10) = Some d
               /\ valid_date d
               /\ year d = 2024 /\ month d = 2
               /\ day d = days_in_month 2024 2
               /\ date_leb (Date 2024 2 10) d = true.
Proof.
  split; [reflexivity|].
  exact (last_day_of_month_spec (Date 2024 2 10) eq_refl).
Defined.

Lemma nth_month_zero (d : date) :
  1 <= month d <= 12 -> day d = 1 -> nth_month d 0 = d.
Proof.
  intros Hm Hd. unfold nth_month.
  replace (month d - 1 + 0) with (month d - 1) by lia.
  rewrite Z.div_small, Z.mod_small by lia.
  destruct d as [y m dd]; simpl in *. subst dd. f_equal; lia.
Qed.

Lemma nth_month_add (d : date) (a b : Z) :
  nth_month (nth_month d a) b = nth_month d (a + b).
Proof.
  unfold nth_month; simpl.
  pose proof (Z.div_mod (month d - 1 + a) 12 ltac:(lia)) as H1.
  set (q := (month d - 1 + a) / 12) in *.
  set (r := (month d - 1 + a) mod 12) in *.
  replace (r + 1 - 1 + b) with (r + b) by lia.
  replace (month d - 1 + (a + b)) with ((r + b) + q * 12) by lia.
  rewrite Z.div_add, Z_mod_plus_full by lia.
  f_equal; lia.
Qed.

Lemma nth_month_next (d : date) :
  nth_month d 1 = Date (year d + month d / 12) (month d mod 12 + 1) 1.
Proof.
  unfold nth_month. by replace (month d - 1 + 1) with (month d) by lia.
Qed.

Lemma nth_month_valid (d : date) (i : Z) :
  MINYEAR <= year d + (month d - 1 + i) / 12 <= MAXYEAR ->
  valid_date (nth_month d i).
Proof.
  intros Hy. apply valid_dateb_spec; simpl.
  pose proof (target_month_range (month d) i).
  pose proof (days_in_month_bounds (year d + (month d - 1 + i) / 12)
                ((month d - 1 + i) mod 12 + 1)).
  lia.
Qed.

Lemma month_list_loop_spec (fuel : nat) (cursor e : date) :
  MINYEAR <= year cursor -> 1 <= month cursor <= 12 -> day cursor = 1 ->
  year e <= MAXYEAR -> 1 <= month e <= 12 -> day e = 1 ->
  ~ (year e = MAXYEAR /\ month e = 12) ->
  Z.of_nat fuel = Z.max 0 (month_span cursor e) ->
  exists l, month_list_loop fuel cursor e = Some l
            /\ length l = fuel
            /\ forall i, (i < fuel)%nat ->
                 l !! i = Some (nth_month cursor (Z.of_nat i)).
Proof.
  revert cursor.
  induction fuel as [|fuel IH];
    intros cursor Hy Hm Hd Hye Hme Hde Hlast Hf;
    simpl; rewrite first_of_month_leb by done.
  - destruct (Z.leb_spec 1 (month_span cursor e)); [lia|].
    exists []. split; [done|]. split; [done|]. intros i Hi. lia.
  - destruct (Z.leb_spec 1 (month_span cursor e)); [|lia].
    assert (year cursor + month cursor / 12 <= MAXYEAR
            /\ month_span (nth_month cursor 1) e
               = month_span cursor e - 1) as [Hny Hspan].
    { rewrite nth_month_next. unfold month_span in *; simpl.
      destruct (next_month_fields (month cursor) Hm)
        as [(Hm12 & -> & ->) | (Hlt & -> & ->)]; lia. }
    pose proof (target_month_range (month cursor) 1) as Hnm.
    replace (month cursor - 1 + 1) with (month cursor) in Hnm by lia.
    assert (0 <= month cursor / 12) by (apply Z.div_pos; lia).
    rewrite py_date_first by lia. simpl.
    rewrite <- nth_month_next.
    destruct (IH (nth_month cursor 1)) as (l & -> & Hl & Hnth);
      try done; try (rewrite nth_month_next; simpl; lia); try lia.
    exists (cursor :: l). simpl. split; [done|]. split; [by rewrite Hl|].
    intros [|i] Hi; simpl.
    + by rewrite nth_month_zero.
    + rewrite Hnth by lia. rewrite nth_month_add. do 2 f_equal. lia.
Qed.

(** X2.  For valid dates whose range does not end in December 9999,
    [_month_list] returns one first-of-month date per calendar month from
    the month of the start date to the month of the end date, in order;
    the list is empty when the end month lies before the start month. *)
Theorem month_list_spec (start_date end_date : date) :
  valid_date start_date -> valid_date end_date ->
  ~ (year end_date = MAXYEAR /\ month end_date = 12) ->
  exists l, _month_list start_date end_date = Some l
            /\ Z.of_nat (length l)
               = Z.max 0 (month_span start_date end_date)
            /\ forall i, (i < length l)%nat ->
                 l !! i = Some (nth_month start_date (Z.of_nat i)).
Proof.
  intros Hs He Hlast.
  apply valid_dateb_spec in Hs as (Hsy & Hsm & _).
  apply valid_dateb_spec in He as (Hey & Hem & _).
  destruct (month_list_loop_spec
              (Z.to_nat (month_span start_date end_date))
              (replace_day1 start_date) (replace_day1 end_date))
    as (l & Hl & Hlen & Hnth); simpl; try done; try lia.
  { unfold month_span; simpl. lia. }
  exists l. split; [done|]. split; [rewrite Hlen; lia|].
  intros i Hi. rewrite Hnth by lia. done.
Qed.

Lemma month_list_spec_witness :
  valid_date (Date 2025 11 20) /\ valid_date (Date 2026 2 3)
  /\ ~ (year (Date 2026 2 3) = MAXYEAR /\ month (Date 2026 2 3) = 12)
  /\ exists l, _month_list (Date 2025 11 20) (Date 2026 2 3) = Some l
               /\ Z.of_nat (length l)
                  = Z.max 0 (month_span (Date 2025 11 20) (Date 2026 2 3))
               /\ forall i, (i < length l)%nat ->
                    l !! i = Some (nth_month (Date 2025 11 20)
                                             (Z.of_nat i)).
Proof.
  assert (~ (year (Date 2026 2 3) = MAXYEAR
             /\ month (Date 2026 2 3) = 12)) as Hlast
      by (intros [H _]; discriminate H).
  split; [reflexivity|]. split; [reflexivity|]. split; [exact Hlast|].
  exact (month_list_spec (Date 2025 11 20) (Date 2026 2 3)
                         eq_refl eq_refl Hlast).
Defined.

Lemma month_list_loop_raises (fuel : nat) (cursor e : date) :
  MINYEAR <= year cursor -> 1 <= month cursor <= 12 -> day cursor = 1 ->
  year e = MAXYEAR -> month e = 12 -> day e = 1 ->
  1 <= month_span cursor e ->
  Z.of_nat fuel = month_span cursor e ->
  month_list_loop fuel cursor e = None.
Proof.
  revert cursor.
  induction fuel as [|fuel IH];
    intros cursor Hy Hm Hd Hye Hme Hde Hspan Hf; [lia|].
  simpl. rewrite first_of_month_leb by lia.
  destruct (Z.leb_spec 1 (month_span cursor e)); [|lia].
  destruct (Z.eq_dec (month_span cursor e) 1) as [Hone | Hmore].
  - assert (year cursor = MAXYEAR /\ month cursor = 12) as [Hcy Hcm]
        by (unfold month_span in *; lia).
    rewrite Hcy, Hcm. reflexivity.
  - assert (year cursor + month cursor / 12 <= MAXYEAR
            /\ month_span (nth_month cursor 1) e
               = month_span cursor e - 1) as [Hny Hsp].
    { rewrite nth_month_next. unfold month_span in *; simpl.
      destruct (next_month_fields (month cursor) Hm)
        as [(Hm12 & -> & ->) | (Hlt & -> & ->)]; lia. }
    pose proof (target_month_range (month cursor) 1) as Hnm.
    replace (month cursor - 1 + 1) with (month cursor) in Hnm by lia.
    assert (0 <= month cursor / 12) by (apply Z.div_pos; lia).
    rewrite py_date_first by lia. simpl.
    rewrite <- nth_month_next.
    rewrite IH; try done; try (rewrite nth_month_next; simpl; lia); lia.
Qed.

(** X3.  Every range that ends in December 9999 makes [_month_list]
    fail: after the last month the loop builds [date(10000, 1, 1)], which
    raises. *)
Theorem month_list_raises_at_calendar_end (start_date end_date : date) :
  valid_date start_date -> valid_date end_date ->
  year end_date = MAXYEAR -> month end_date = 12 ->
  _month_list start_date end_date = None.
Proof.
  intros Hs He Hy Hm.
  apply valid_dateb_spec in Hs as (Hsy & Hsm & _).
  unfold _month_list.
  apply month_list_loop_raises; simpl; try done; try lia.
  - unfold month_span; simpl. unfold MAXYEAR in *. lia.
  - unfold month_span; simpl. unfold MAXYEAR in *. lia.
Qed.

Lemma month_list_raises_at_calendar_end_witness :
  valid_date (Date 9999 1 1) /\ valid_date (Date 9999 12 31)
  /\ year (Date 9999 12 31) = MAXYEAR /\ month (Date 9999 12 31) = 12
  /\ _month_list (Date 9999 1 1) (Date 9999 12 31) = None.
Proof.
  repeat (split; [reflexivity|]).
  exact (month_list_raises_at_calendar_end (Date 9999 1 1)
           (Date 9999 12 31) eq_refl eq_refl eq_refl eq_refl).
Defined.

(** X4.  [_shift_months] returns the first day of the month exactly
    [a] months away (earlier when [a] is negative) whenever that month is
    within the calendar, and shifts compose: shifting the result by [b]
    is shifting the original date by [a + b]. *)
Theorem shift_months_spec (base_date : date) (a : Z) :
  valid_date base_date ->
  MINYEAR <= year base_date + (month base_date - 1 + a) / 12 <= MAXYEAR ->
  exists d, _shift_months base_date a = Some d
            /\ valid_date d /\ day d = 1
            /\ month_number d = month_number base_date + a
            /\ forall b, _shift_months d b = _shift_months base_date (a + b).
Proof.
  intros Hv Hy. exists (nth_month base_date a).
  pose proof (target_month_range (month base_date) a) as Hm.
  split; [unfold _shift_months; by rewrite py_date_first|].
  split; [by apply nth_month_valid|]. split; [done|]. split.
  - unfold month_number, nth_month; simpl.
    pose proof (Z.div_mod (month base_date - 1 + a) 12 ltac:(lia)). lia.
  - intros b.
    pose proof (nth_month_add base_date a b) as Hadd.
    unfold nth_month in Hadd. injection Hadd as Hyy Hmm.
    unfold _shift_months. simpl. by rewrite Hyy, Hmm.
Qed.

Lemma shift_months_spec_witness :
  valid_date (Date 2026 1 15)
  /\ MINYEAR <= year (Date 2026 1 15)
                + (month (Date 2026 1 15) - 1 + -1) / 12 <= MAXYEAR
  /\ exists d, _shift_months (Date 2026 1 15) (-1) = Some d
               /\ valid_date d /\ day d = 1
               /\ month_number d = month_number (Date 2026 1 15) + -1
               /\ forall b, _shift_months d b
                            = _shift_months (Date 2026 1 15) (-1 + b).
Proof.
  assert (MINYEAR <= year (Date 2026 1 15)
                     + (month (Date 2026 1 15) - 1 + -1) / 12 <= MAXYEAR)
    as Hy by (vm_compute; split; discriminate).
  split; [reflexivity|]. split; [exact Hy|].
  exact (shift_months_spec (Date 2026 1 15) (-1) eq_refl Hy).
Defined.

Example previous_month_of_january :
  _shift_months (Date 2026 1 1) (-1) = Some (Date 2025 12 1).
Proof. reflexivity. Qed.

End Months.

(* ===================================================================== *)
(** ** Installment generator: order, numbering and sign of the entries *)
(* ===================================================================== *)

Module InstallmentFacts.
Import Calendar Ledger Views Spec CalendarFacts SplitFacts.

Lemma add_months_inv (base d : date) (i : Z) :
  valid_date base -> 0 <= i -> _add_months base i = Some d ->
  d = due_date_of base i.
Proof.
  intros Hv Hi H. unfold _add_months in H.
  apply bind_Some in H as (first & Hfirst & H).
  pose proof (py_date_valid _ _ _ _ Hfirst) as Hvf.
  unfold py_date in Hfirst.
  destruct (valid_dateb (Date _ _ 1)) eqn:E; [|done].
  injection Hfirst as <-.
  apply valid_dateb_spec in E as (Hy & Hm & _); simpl in Hy, Hm.
  rewrite last_day_of_month_first in H by done. simpl in H.
  unfold py_date in H. destruct (valid_dateb _); [|done].
  by injection H as <-.
Qed.

Lemma due_date_of_zero (first : date) :
  valid_date first -> due_date_of first 0 = first.
Proof.
  intros Hv. pose proof (add_months_zero first Hv) as H0.
  symmetry. by apply add_months_inv in H0.
Qed.

Lemma mapM_lookup {A B} (f : A -> option B) (l : list A) (k : list B)
      (i : nat) (y : B) :
  mapM f l = Some k -> k !! i = Some y ->
  exists x, l !! i = Some x /\ f x = Some y.
Proof.
  intros Hm Hi. apply mapM_Some_1 in Hm.
  destruct (Forall2_lookup_r _ _ _ _ _ Hm Hi) as (x & Hx & Hf). eauto.
Qed.

(** What the creation loops store at index [i]: the source of every
    field of a generated installment. *)
Lemma generated_lookup today u g order acc cat total n first txs i t :
  valid_date first ->
  generated today u g order acc cat total n first txs ->
  txs !! i = Some t ->
  Z.of_nat i < n
  /\ (t = create today u (Some (wo_id order)) receita (valor t)
                 (due_date_of first (Z.of_nat i)) None acc cat true true
                 (Some g) (Some (Z.of_nat i + 1)) (Some n)
      \/ t = create today u None despesa (valor t)
                    (due_date_of first (Z.of_nat i)) None acc cat true false
                    (Some g) (Some (Z.of_nat i + 1)) (Some n)).
Proof.
  intros Hv [H | H] Hi.
  - unfold generate_installments in H; simpl in H.
    destruct (mapM_lookup _ _ _ _ _ H Hi) as (idx & Hidx & Hf).
    apply lookup_seqZ in Hidx as [Hidx Hlt].
    rewrite Z.add_0_l in Hidx. subst idx. simpl in Hf.
    apply bind_Some in Hf as (due & Hdue & [= <-]).
    split; [done|]. left. rewrite valor_create.
    revert Hdue.
    destruct (Z.eqb_spec (Z.of_nat i) 0) as [E|E]; intros Hdue.
    + injection Hdue as <-. rewrite E. by rewrite due_date_of_zero.
    + apply add_months_inv in Hdue; [|done|lia]. by subst due.
  - unfold _create_expense_installments in H; simpl in H.
    destruct (mapM_lookup _ _ _ _ _ H Hi) as (idx & Hidx & Hf).
    apply lookup_seqZ in Hidx as [Hidx Hlt].
    rewrite Z.add_0_l in Hidx. subst idx. simpl in Hf.
    apply bind_Some in Hf as (due & Hdue & [= <-]).
    split; [done|]. right. rewrite valor_create.
    apply add_months_inv in Hdue; [|done|lia]. by subst due.
Qed.

Lemma month_number_lt (a b : date) :
  1 <= month a <= 12 -> 1 <= month b <= 12 ->
  12 * year a + month a < 12 * year b + month b ->
  date_ltb a b = true.
Proof.
  intros Ha Hb Hlt. unfold date_ltb.
  repeat match goal with
         | |- context [?x <? ?y] => destruct (Z.ltb_spec x y)
         | |- context [?x =? ?y] => destruct (Z.eqb_spec x y)
         end; simpl; try done; lia.
Qed.

Lemma due_date_of_lt (first : date) (i j : Z) :
  i < j -> date_ltb (due_date_of first i) (due_date_of first j) = true.
Proof.
  intros Hij. apply month_number_lt; simpl.
  - apply target_month_range.
  - apply target_month_range.
  - pose proof (Z.div_mod (month first - 1 + i) 12 ltac:(lia)).
    pose proof (Z.div_mod (month first - 1 + j) 12 ltac:(lia)).
    lia.
Qed.

(** X5.  The installments either generator returns fall due in strictly
    increasing order, one calendar month apart, the first of them on the
    first due date given. *)
Theorem due_dates_increase today u g order acc cat total n first txs :
  valid_date first ->
  generated today u g order acc cat total n first txs ->
  (forall t, txs !! 0%nat = Some t -> data_vencimento t = first)
  /\ (forall i t, txs !! i = Some t ->
        CalendarHelpers.month_number (data_vencimento t)
        = CalendarHelpers.month_number first + Z.of_nat i)
  /\ (forall i j ti tj, txs !! i = Some ti -> txs !! j = Some tj ->
        (i < j)%nat ->
        date_ltb (data_vencimento ti) (data_vencimento tj) = true).
Proof.
  intros Hv Hgen.
  assert (forall i t, txs !! i = Some t ->
            data_vencimento t = due_date_of first (Z.of_nat i)) as Hdue.
  { intros i t Hi.
    destruct (generated_lookup _ _ _ _ _ _ _ _ _ _ _ _ Hv Hgen Hi)
      as (_ & [-> | ->]);
      unfold create; by rewrite data_vencimento_save. }
  split; [|split].
  - intros t Ht. rewrite (Hdue _ _ Ht). by apply due_date_of_zero.
  - intros i t Ht. rewrite (Hdue _ _ Ht).
    unfold CalendarHelpers.month_number, due_date_of; simpl.
    pose proof (Z.div_mod (month first - 1 + Z.of_nat i) 12 ltac:(lia)).
    lia.
  - intros i j ti tj Hi Hj Hij.
    rewrite (Hdue _ _ Hi), (Hdue _ _ Hj). apply due_date_of_lt. lia.
Qed.

Lemma due_dates_increase_witness :
  valid_date (Date 2025 11 30)
  /\ generated Samples.hoje 7 1 Samples.ordem Samples.conta
               Samples.servicos 20000 3 (Date 2025 11 30)
               Samples.parcelas
  /\ (forall t, Samples.parcelas !! 0%nat = Some t ->
        data_vencimento t = Date 2025 11 30)
  /\ (forall i t, Samples.parcelas !! i = Some t ->
        CalendarHelpers.month_number (data_vencimento t)
        = CalendarHelpers.month_number (Date 2025 11 30) + Z.of_nat i)
  /\ (forall i j ti tj,
        Samples.parcelas !! i = Some ti -> Samples.parcelas !! j = Some tj ->
        (i < j)%nat ->
        date_ltb (data_vencimento ti) (data_vencimento tj) = true).
Proof.
  assert (generated Samples.hoje 7 1 Samples.ordem Samples.conta
                    Samples.servicos 20000 3 (Date 2025 11 30)
                    Samples.parcelas) as Hgen by (left; reflexivity).
  split; [reflexivity|]. split; [exact Hgen|].
  assert (valid_date (Date 2025 11 30)) as Hv by reflexivity.
  exact (due_dates_increase _ _ _ _ _ _ _ _ _ _ Hv Hgen).
Defined.

(** X6.  Every installment the work-order path creates is a pending
    income projection of the order, and every installment the expense
    path creates is an expense that is pending, or overdue when its due
    date is before today; in both, the entry at position i carries number
    i+1 of N, the group id of the batch and the requesting user, and has
    no payment date. *)
Theorem installment_fields today u g order acc cat total n first :
  valid_date first ->
  (forall txs i t,
     generate_installments today u g order total acc cat
       {| installments := n; first_due_date := first;
          confirm_regenerate := false |} = Some txs ->
     txs !! i = Some t ->
     tipo t = receita /\ work_order t = Some (wo_id order)
     /\ is_projection t = true /\ status t = previsto
     /\ is_installment t = true /\ data_pagamento t = None
     /\ installment_number t = Some (Z.of_nat i + 1)
     /\ installment_total t = Some n
     /\ installment_group_id t = Some g /\ user t = u
     /\ account t = acc /\ category t = cat)
  /\ (forall txs i t,
        _create_expense_installments today u g
          {| f_valor := Some total; f_data_vencimento := first;
             f_account := acc; f_category := cat |} n = Some txs ->
        txs !! i = Some t ->
        tipo t = despesa /\ work_order t = None
        /\ is_projection t = false
        /\ status t = (if date_ltb (data_vencimento t) today
                       then atrasado else previsto)
        /\ is_installment t = true /\ data_pagamento t = None
        /\ installment_number t = Some (Z.of_nat i + 1)
        /\ installment_total t = Some n
        /\ installment_group_id t = Some g /\ user t = u
        /\ account t = acc /\ category t = cat).
Proof.
  intros Hv. split; intros txs i t Hgen Hi.
  - unfold generate_installments in Hgen; simpl in Hgen.
    destruct (mapM_lookup _ _ _ _ _ Hgen Hi) as (idx & Hidx & Hf).
    apply lookup_seqZ in Hidx as [Hidx Hlt].
    rewrite Z.add_0_l in Hidx. subst idx. simpl in Hf.
    apply bind_Some in Hf as (due & _ & [= <-]).
    unfold create, save; simpl. repeat split; done.
  - unfold _create_expense_installments in Hgen; simpl in Hgen.
    destruct (mapM_lookup _ _ _ _ _ Hgen Hi) as (idx & Hidx & Hf).
    apply lookup_seqZ in Hidx as [Hidx Hlt].
    rewrite Z.add_0_l in Hidx. subst idx. simpl in Hf.
    apply bind_Some in Hf as (due & _ & [= <-]).
    unfold create, save; simpl.
    destruct (date_ltb due today) eqn:E; simpl; rewrite ?E;
      repeat split; done.
Qed.

Lemma installment_fields_witness :
  valid_date (Date 2025 11 30)
  /\ forall i t, Samples.parcelas !! i = Some t ->
       tipo t = receita /\ is_projection t = true /\ status t = previsto
       /\ installment_number t = Some (Z.of_nat i + 1)
       /\ installment_total t = Some 3.
Proof.
  split; [reflexivity|]. intros i t Hi.
  destruct (installment_fields Samples.hoje 7 1 Samples.ordem
              Samples.conta Samples.servicos 20000 3 (Date 2025 11 30)
              eq_refl) as [Hw _].
  destruct (Hw Samples.parcelas i t eq_refl Hi)
    as (H1 & _ & H3 & H4 & _ & _ & H7 & H8 & _).
  auto.
Defined.

Lemma amounts_positive_arith (n total base idx : Z) :
  1 <= n <= 24 -> n * (n - 1) < 2 * total ->
  2 * Z.abs (total - base * n) <= n -> 0 <= idx < n ->
  1 <= (if idx =? n - 1 then base + (total - base * n) else base).
Proof.
  intros Hn. revert total base idx.
  assert (Forall (fun n => forall total base idx,
                    n * (n - 1) < 2 * total ->
                    2 * Z.abs (total - base * n) <= n -> 0 <= idx < n ->
                    1 <= (if idx =? n - 1
                          then base + (total - base * n) else base))
                 (seqZ 1 24)) as HF.
  { replace (seqZ 1 24)
      with [1; 2; 3; 4; 5; 6; 7; 8; 9; 10; 11; 12; 13; 14; 15; 16; 17;
            18; 19; 20; 21; 22; 23; 24] by reflexivity.
    repeat apply List.Forall_cons; [..|apply List.Forall_nil];
      intros total base idx HT Hnear Hidx;
      match goal with
      | |- context [?a =? ?b] => destruct (Z.eqb_spec a b)
      end; lia. }
  rewrite Forall_seqZ in HF. apply HF. lia.
Qed.

(** X7.  When the total exceeds N(N-1)/2 cents, every installment either
    generator returns is at least one cent, the least amount the model
    accepts; at N(N-1)/2 cents and below the last installment can be
    zero or negative. *)
Theorem installments_positive today u g order acc cat total n first txs :
  1 <= n <= 24 -> n * (n - 1) < 2 * total ->
  generated today u g order acc cat total n first txs ->
  forall t, t ∈ txs -> 1 <= valor t.
Proof.
  intros Hn HT Hgen t Hin.
  pose proof (generated_values _ _ _ _ _ _ _ _ _ _ Hgen) as Hval.
  simpl in Hval.
  pose proof (quantize_div_nearest total n ltac:(lia)) as Hnear.
  set (base := Money.quantize_div total n) in *.
  assert (valor t ∈ map valor txs) as Hv
      by (apply list_elem_of_fmap; eauto).
  rewrite Hval in Hv.
  apply list_elem_of_fmap in Hv as (idx & -> & Hidx).
  apply elem_of_seqZ in Hidx.
  apply amounts_positive_arith; auto; lia.
Qed.

Lemma installments_positive_witness :
  1 <= 3 <= 24 /\ 3 * (3 - 1) < 2 * 20000
  /\ generated Samples.hoje 7 1 Samples.ordem Samples.conta
               Samples.servicos 20000 3 (Date 2025 11 30)
               Samples.parcelas
  /\ forall t, t ∈ Samples.parcelas -> 1 <= valor t.
Proof.
  assert (generated Samples.hoje 7 1 Samples.ordem Samples.conta
                    Samples.servicos 20000 3 (Date 2025 11 30)
                    Samples.parcelas) as Hgen by (left; reflexivity).
  assert (1 <= 3 <= 24) as Hn by lia.
  assert (3 * (3 - 1) < 2 * 20000) as HT by lia.
  split; [exact Hn|]. split; [exact HT|]. split; [exact Hgen|].
  exact (installments_positive _ _ _ _ _ _ _ _ _ _ Hn HT Hgen).
Defined.

Example small_total_gives_negative_installment :
  map valor <$> generate_installments Samples.hoje 7 1 Samples.ordem
                  13 Samples.conta Samples.servicos
                  (Samples.payment_form 24 (Date 2026 1 31))
  = Some (replicate 23 1 ++ [-10])
  /\ map valor <$> generate_installments Samples.hoje 7 1 Samples.ordem
                     276 Samples.conta Samples.servicos
                     (Samples.payment_form 24 (Date 2026 1 31))
     = Some (replicate 23 12 ++ [0]).
Proof. split; vm_compute; reflexivity. Qed.

End InstallmentFacts.

(* ===================================================================== *)
(** ** Saved rows, accounts and balances *)
(* ===================================================================== *)

Module LedgerFacts.
Import Calendar Ledger Views Accounts.

(** X8.  After every save the status and the payment date agree: the row
    is realized exactly when it carries a payment date, it is canceled
    exactly when it was canceled before, it is overdue only when it is
    not a projection and its due date is before today, and the save has
    touched nothing but the status and the payment date (which it either
    keeps or clears). *)
Theorem save_postcondition (today : date) (t : Transaction) :
  let t' := save today t in
  (status t' = realizado <-> is_Some (data_pagamento t'))
  /\ (status t' = cancelado <-> status t = cancelado)
  /\ (status t' = atrasado ->
      is_projection t = false
      /\ date_ltb (data_vencimento t) today = true)
  /\ (data_pagamento t' = data_pagamento t \/ data_pagamento t' = None)
  /\ set_data_pagamento (data_pagamento t') (set_status (status t') t)
     = t'.
Proof.
  destruct t as [u wo k st v due pay po a c ii ip gid num tot inv invd
                   bn bd].
  unfold save; simpl.
  destruct (decide (st = cancelado)) as [->|Hnc].
  - simpl. repeat split; try done; try (by intros [? [=]]); auto.
  - rewrite bool_decide_eq_false_2 by done.
    destruct ip, pay as [p|]; simpl;
      try destruct (date_ltb due today) eqn:Hlt; simpl;
      repeat split; try done; try (by intros [? [=]]);
      try (by eexists); auto.
Qed.

Lemma realized_total_cons k t txs :
  realized_total k (t :: txs)
  = (if bool_decide (tipo t = k /\ status t = realizado)
     then valor t else 0) + realized_total k txs.
Proof.
  unfold realized_total. rewrite filter_cons.
  case_decide;
    [rewrite bool_decide_eq_true_2 by done
    |rewrite bool_decide_eq_false_2 by done]; simpl; lia.
Qed.

Lemma saldo_atual_cons a t txs :
  saldo_atual a (t :: txs) = saldo_atual a txs + contribution a t.
Proof.
  unfold saldo_atual, calcular_saldo_atual, transactions_of, contribution.
  rewrite filter_cons.
  destruct (decide (acc_id (account t) = acc_id a)) as [Ha|Ha].
  - rewrite (bool_decide_eq_true_2 _ Ha), !realized_total_cons.
    destruct (tipo t) eqn:Hk;
      destruct (decide (status t = realizado)) as [Hs|Hs].
    + rewrite !(bool_decide_eq_true_2 (status t = realizado)) by done.
      rewrite bool_decide_eq_true_2 by done.
      rewrite bool_decide_eq_false_2 by (intros [? ?]; done). simpl. lia.
    + rewrite !(bool_decide_eq_false_2 (status t = realizado)) by done.
      rewrite !bool_decide_eq_false_2 by (intros [? ?]; done). simpl. lia.
    + rewrite !(bool_decide_eq_true_2 (status t = realizado)) by done.
      rewrite bool_decide_eq_false_2 by (intros [? ?]; done).
      rewrite bool_decide_eq_true_2 by done. simpl. lia.
    + rewrite !(bool_decide_eq_false_2 (status t = realizado)) by done.
      rewrite !bool_decide_eq_false_2 by (intros [? ?]; done). simpl. lia.
  - rewrite (bool_decide_eq_false_2 _ Ha). simpl. lia.
Qed.

Lemma saldo_atual_contributions a txs :
  saldo_atual a txs = saldo_inicial a + Money.sum (map (contribution a) txs).
Proof.
  induction txs as [|t txs IH].
  - unfold saldo_atual, calcular_saldo_atual, realized_total; simpl. lia.
  - rewrite saldo_atual_cons, IH. simpl. lia.
Qed.

Lemma sum_map_insert {A} (f : A -> Z) (l : list A) (i : nat) (x y : A) :
  l !! i = Some x ->
  Money.sum (map f (<[i := y]> l)) = Money.sum (map f l) - f x + f y.
Proof.
  revert i. induction l as [|z l IH]; intros [|i] H; simpl in *; try done.
  - injection H as ->. lia.
  - rewrite (IH _ H). lia.
Qed.

Lemma saldo_atual_insert a txs i t t' :
  txs !! i = Some t ->
  saldo_atual a (<[i := t']> txs)
  = saldo_atual a txs - contribution a t + contribution a t'.
Proof.
  intros Hi. rewrite !saldo_atual_contributions.
  rewrite (sum_map_insert _ _ _ _ _ Hi). lia.
Qed.

End LedgerFacts.

(* ===================================================================== *)
(** ** The account table *)
(* ===================================================================== *)

Module AccountFacts.
Import Ledger Accounts PrimaryAccount.






Example second_primary_account_clears_the_first :
  map (fun a => (acc_id a, is_primary a))
      (Account_save
         {| acc_id := 2; acc_user := 7; bank_code := ""; agencia := "";
            conta_numero := ""; saldo_inicial := 0; ativa := true;
            is_primary := true |}
         [Samples.conta])
  = [(1%nat, false); (2%nat, true)].
Proof. reflexivity. Qed.

End AccountFacts.

(* ===================================================================== *)
(** ** What moves a balance *)
(* ===================================================================== *)

Module BalanceFacts.
Import Calendar Ledger Views Endpoints Accounts Consistency LedgerFacts.

Lemma save_consistent today t : consistent (save today t).
Proof.
  unfold consistent, save.
  destruct (decide (status t = cancelado)) as [Hc|Hc].
  - rewrite (bool_decide_eq_true_2 _ Hc). simpl. rewrite Hc.
    split; [done|by intros [? [=]]].
  - rewrite (bool_decide_eq_false_2 _ Hc).
    destruct (is_projection t), (data_pagamento t) as [p|] eqn:Hp; simpl;
      try destruct (date_ltb (data_vencimento t) today); simpl;
      rewrite ?Hp; split; try done; try (by intros [? [=]]); by eexists.
Qed.

Lemma contribution_unrealized a t :
  status t <> realizado -> contribution a t = 0.
Proof.
  intros H. unfold contribution.
  rewrite (bool_decide_eq_false_2 _ H). by rewrite andb_false_r.
Qed.

Lemma save_contribution a today t :
  consistent t -> contribution a (save today t) = contribution a t.
Proof.
  intros Hc. unfold consistent in Hc.
  destruct (decide (status t = realizado)) as [Hr|Hr].
  - destruct (proj1 Hc Hr) as [p Hp].
    unfold save. rewrite bool_decide_eq_false_2 by congruence.
    rewrite Hp. simpl. rewrite andb_false_r.
    unfold contribution; simpl. by rewrite Hr.
  - rewrite (contribution_unrealized a t Hr).
    apply contribution_unrealized.
    assert (data_pagamento t = None) as Hp.
    { destruct (data_pagamento t) eqn:E; [|done].
      exfalso. apply Hr, Hc. by eexists. }
    unfold save. rewrite Hp. repeat case_match; simpl; try done.
    all: try (intros ?; congruence).
Qed.

Lemma handle_consistent r t : consistent t -> consistent (handle r t).
Proof.
  intros Hc. destruct r as [d|d u f|u|d u|d f]; simpl.
  - apply save_consistent.
  - unfold TransactionMarkAsCompletedView_post, marcar_como_realizado.
    repeat case_match; simpl; try done; apply save_consistent.
  - unfold TransactionMarkAsPendingView_post. repeat case_match; done.
  - unfold TransactionCancelView_post, cancelar.
    repeat case_match; simpl; try done; apply save_consistent.
  - unfold InstallmentInvoiceView_post.
    repeat case_match; simpl; try done; apply save_consistent.
Qed.

(** X10.  On a row whose status and payment date agree (the state every
    save leaves), no save and no request to the mark-pending, cancel or
    invoice endpoint changes the balance of any account, and neither
    does a mark-realized request that is refused; the row stays in that
    state. *)
Theorem only_payment_moves_a_balance
        (a : Account) (txs : list Transaction) (i : nat)
        (t : Transaction) (r : Request) :
  txs !! i = Some t -> consistent t ->
  consistent (handle r t)
  /\ match r with
     | ReqMarkCompleted today u form =>
         (TransactionMarkAsCompletedView_post today u form t).2 <> Success
         -> saldo_atual a (<[i := handle r t]> txs) = saldo_atual a txs
     | _ => saldo_atual a (<[i := handle r t]> txs) = saldo_atual a txs
     end.
Proof.
  intros Hi Hc. split; [by apply handle_consistent|].
  assert (forall t', contribution a t' = contribution a t ->
            saldo_atual a (<[i := t']> txs) = saldo_atual a txs) as Hsame.
  { intros t' Heq. rewrite (saldo_atual_insert _ _ _ _ _ Hi). lia. }
  destruct r as [d|d u f|u|d u|d f]; simpl.
  - apply Hsame. by apply save_contribution.
  - intros Hmsg. apply Hsame. revert Hmsg.
    unfold TransactionMarkAsCompletedView_post.
    repeat case_match; simpl; done.
  - apply Hsame. unfold TransactionMarkAsPendingView_post.
    repeat case_match; done.
  - apply Hsame. unfold TransactionCancelView_post.
    destruct (negb (bool_decide (user t = u))); [done|].
    destruct (negb (is_installment t)); [done|].
    case_bool_decide as Hr; [done|]. simpl.
    rewrite (contribution_unrealized a t Hr).
    apply contribution_unrealized. unfold cancelar, save; simpl. done.
  - apply Hsame. unfold InstallmentInvoiceView_post.
    destruct (negb _); [done|].
    case_bool_decide as Hr; [done|].
    case_bool_decide as Hcc; [done|].
    destruct (negb (inv_is_valid f)); [done|]. simpl.
    rewrite (contribution_unrealized a t Hr).
    apply contribution_unrealized.
    assert (data_pagamento t = None) as Hp.
    { destruct (data_pagamento t) eqn:E; [|done].
      exfalso. apply Hr, Hc. by eexists. }
    unfold save; simpl. rewrite bool_decide_eq_false_2 by done.
    rewrite Hp. repeat case_match; simpl; done.
Qed.

Lemma only_payment_moves_a_balance_witness :
  [Samples.primeira] !! 0%nat = Some Samples.primeira
  /\ consistent Samples.primeira
  /\ saldo_atual Samples.conta
       (<[0%nat := handle (ReqCancel Samples.hoje 7) Samples.primeira]>
          [Samples.primeira])
     = saldo_atual Samples.conta [Samples.primeira].
Proof.
  assert (consistent Samples.primeira) as Hc.
  { split; [discriminate|]. by intros [? [=]]. }
  split; [reflexivity|]. split; [exact Hc|].
  exact (proj2 (only_payment_moves_a_balance Samples.conta
                  [Samples.primeira] 0 Samples.primeira
                  (ReqCancel Samples.hoje 7) eq_refl Hc)).
Defined.

(** X11.  A mark-realized request that succeeds was made by the owner on
    a pending or overdue entry that is not a projection; it leaves the
    entry realized with the payment date of the form, or today when the
    form has none; it raises the balance of the entry's account by the
    amount of an income entry, lowers it by the amount of an expense and
    leaves every other account's balance alone; and a second request on
    the result is refused as already realized. *)
Theorem mark_realized_success
        (today : date) (u : nat) (form : MarkAsCompletedForm)
        (txs : list Transaction) (i : nat) (t t' : Transaction) :
  txs !! i = Some t ->
  TransactionMarkAsCompletedView_post today u form t = (t', Success) ->
  user t = u /\ is_projection t = false
  /\ (status t = previsto \/ status t = atrasado)
  /\ status t' = realizado
  /\ data_pagamento t'
     = Some (default today (form_data_pagamento form))
  /\ (forall a,
        saldo_atual a (<[i := t']> txs)
        = saldo_atual a txs
          + (if bool_decide (acc_id (account t) = acc_id a)
             then match tipo t with
                  | receita => valor t | despesa => - valor t end
             else 0))
  /\ (forall today2 form2,
        TransactionMarkAsCompletedView_post today2 u form2 t'
        = (t', IsRealized)).
Proof.
  intros Hi. unfold TransactionMarkAsCompletedView_post.
  case_bool_decide as Hu; simpl; [|done].
  destruct (is_projection t) eqn:Hp; [done|].
  case_bool_decide as Hc; [done|].
  case_bool_decide as Hr; [done|].
  destruct (account_complete (account t)) eqn:Hacc; simpl; [|done].
  destruct (confirmacao form); [|done].
  intros [= <-].
  assert (status t = previsto \/ status t = atrasado) as Hst
      by (destruct (status t); auto; done).
  unfold marcar_como_realizado, save; simpl. rewrite Hp. simpl.
  repeat split; try done.
  - intros a. rewrite (saldo_atual_insert _ _ _ _ _ Hi).
    rewrite (contribution_unrealized a t Hr).
    unfold contribution; simpl.
    case_bool_decide; simpl; lia.
  - intros today2 form2. simpl.
    rewrite (bool_decide_eq_true_2 _ Hu). simpl. by rewrite Hp.
Qed.

Lemma mark_realized_success_witness :
  [Samples.lancamento receita previsto 5000 (Date 2026 1 5) None
                      Samples.servicos] !! 0%nat
  = Some (Samples.lancamento receita previsto 5000 (Date 2026 1 5) None
                             Samples.servicos)
  /\ status
       (TransactionMarkAsCompletedView_post Samples.hoje 7
          {| confirmacao := true; form_data_pagamento := None |}
          (Samples.lancamento receita previsto 5000 (Date 2026 1 5) None
                              Samples.servicos)).1 = realizado.
Proof.
  split; [reflexivity|].
  exact (proj1 (proj2 (proj2 (proj2
           (mark_realized_success Samples.hoje 7
              {| confirmacao := true; form_data_pagamento := None |}
              [Samples.lancamento receita previsto 5000 (Date 2026 1 5)
                                  None Samples.servicos]
              0 _ _ eq_refl eq_refl))))).
Defined.

(** X12.  A row that passes [Transaction.clean] and is then saved keeps
    the payment-date rule: if it carries a payment date afterwards, the
    date is not before the due date and not after today, and the row is
    realized; and its kind is the kind of its category. *)
Theorem clean_then_save (today : date) (t : Transaction) :
  clean today t = None ->
  let t' := save today t in
  tipo t' = cat_tipo (category t')
  /\ forall p, data_pagamento t' = Some p ->
       date_leb (data_vencimento t') p = true
       /\ date_leb p today = true
       /\ status t' = realizado.
Proof.
  intros Hclean. simpl.
  assert (tipo t = cat_tipo (category t)
          /\ forall p, data_pagamento t = Some p ->
               date_ltb p (data_vencimento t) = false
               /\ date_ltb today p = false) as [Hk Hp].
  { unfold clean in Hclean.
    destruct (data_pagamento t) as [p|].
    - destruct (date_ltb p (data_vencimento t)) eqn:E1; [done|].
      destruct (date_ltb today p) eqn:E2; [done|].
      case_bool_decide as Hk; [done|].
      split; [by destruct (decide (tipo t = cat_tipo (category t)))|].
      by intros ? [= <-].
    - case_bool_decide as Hk; [done|].
      split; [by destruct (decide (tipo t = cat_tipo (category t)))|].
      done. }
  unfold save.
  destruct (decide (status t = cancelado)) as [Hc|Hc].
  - rewrite (bool_decide_eq_true_2 _ Hc). simpl. split; [done|]. done.
  - rewrite (bool_decide_eq_false_2 _ Hc).
    destruct (data_pagamento t) as [p|] eqn:E; simpl.
    + rewrite andb_false_r. simpl. split; [done|].
      intros q. rewrite E. intros [= <-].
      destruct (Hp p eq_refl) as [H1 H2].
      unfold date_leb. by rewrite H1, H2.
    + repeat case_match; simpl; split; done.
Qed.

Lemma clean_then_save_witness :
  clean Samples.hoje
        (Samples.lancamento despesa previsto 12000 (Date 2026 1 5)
                            (Some (Date 2026 1 8)) Samples.operacional)
  = None
  /\ status (save Samples.hoje
               (Samples.lancamento despesa previsto 12000 (Date 2026 1 5)
                                   (Some (Date 2026 1 8))
                                   Samples.operacional)) = realizado.
Proof.
  split; [reflexivity|].
  destruct (clean_then_save Samples.hoje
              (Samples.lancamento despesa previsto 12000 (Date 2026 1 5)
                                  (Some (Date 2026 1 8))
                                  Samples.operacional) eq_refl)
    as [_ H].
  exact (proj2 (proj2 (H (Date 2026 1 8) eq_refl))).
Defined.

End BalanceFacts.

(* ===================================================================== *)
(** ** Billing a closed work order *)
(* ===================================================================== *)

Module BillingFacts.
Import Calendar Ledger Views Endpoints Accounts Consistency.
Import BillingRequests.
Import SplitFacts LedgerFacts BalanceFacts.

Lemma created_fields today u g order total acc cat form txs t :
  generate_installments today u g order total acc cat form = Some txs ->
  t ∈ txs ->
  of_order order t = true /\ is_installment t = true
  /\ status t = previsto /\ installment_group_id t = Some g
  /\ is_projection t = true /\ data_pagamento t = None
  /\ tipo t = receita /\ account t = acc.
Proof.
  unfold generate_installments. intros Hgen Hin.
  apply mapM_Some_1 in Hgen.
  apply list_elem_of_lookup in Hin as [i Hi].
  destruct (Forall2_lookup_r _ _ _ _ _ Hgen Hi) as (idx & _ & Hidx).
  apply bind_Some in Hidx as (due & _ & [= <-]).
  unfold of_order, create, save; simpl.
  rewrite bool_decide_eq_true_2 by done. auto 10.
Qed.

Lemma existsb_false {A} (f : A -> bool) (l : list A) (x : A) :
  existsb f l = false -> x ∈ l -> f x = false.
Proof.
  induction l as [|y l IH]; simpl; intros H Hin.
  - by apply elem_of_nil in Hin.
  - apply orb_false_iff in H as [Hy Hl].
    apply elem_of_cons in Hin as [->|Hin]; auto.
Qed.

Lemma existsb_true {A} (f : A -> bool) (l : list A) (x : A) :
  x ∈ l -> f x = true -> existsb f l = true.
Proof.
  induction l as [|y l IH]; simpl; intros Hin Hx.
  - by apply elem_of_nil in Hin.
  - apply elem_of_cons in Hin as [->|Hin].
    + by rewrite Hx.
    + rewrite (IH Hin Hx). by rewrite orb_true_r.
Qed.

(** What the two guards at the head of [post] have established when the
    request is accepted. *)
Lemma post_accepted_guards today u g db order acc cat form db' :
  WorkOrderPaymentView_post today u g db order acc cat form = inr db' ->
  (forall t, t ∈ db -> of_order order t = true ->
             is_installment t = true -> status t = cancelado)
  /\ (forall t, t ∈ db -> of_order order t = true ->
                status t <> realizado).
Proof.
  unfold WorkOrderPaymentView_post.
  destruct (existsb _ db) eqn:E1; [done|].
  destruct (existsb _ db) eqn:E2 in |- *; [done|].
  intros _. split.
  - intros t Hin Ho Hi.
    pose proof (existsb_false _ _ _ E1 Hin) as H. simpl in H.
    rewrite Ho, Hi in H. simpl in H.
    apply negb_false_iff, bool_decide_eq_true in H. done.
  - intros t Hin Ho Hr.
    pose proof (existsb_false _ _ _ E2 Hin) as H. simpl in H.
    rewrite Ho in H. simpl in H.
    by apply bool_decide_eq_false in H.
Qed.

Lemma supersede_fields order t :
  of_order order (supersede order t) = of_order order t
  /\ is_installment (supersede order t) = is_installment t
  /\ (is_installment t = true -> supersede order t = t)
  /\ (of_order order t = false -> supersede order t = t).
Proof.
  unfold supersede.
  destruct (of_order order t) eqn:Ho, (is_installment t) eqn:Hi; simpl;
    repeat case_match; simpl; rewrite ?Ho, ?Hi;
    repeat split; try done; intros; done.
Qed.

Lemma supersede_contribution a order t :
  contribution a (supersede order t) = contribution a t.
Proof.
  unfold supersede. case_match eqn:E; [|done].
  apply andb_true_iff in E as [_ Hr].
  apply negb_true_iff, bool_decide_eq_false in Hr.
  rewrite (contribution_unrealized a t Hr).
  by apply contribution_unrealized.
Qed.

Lemma sum_app (l1 l2 : list Z) :
  Money.sum (l1 ++ l2) = Money.sum l1 + Money.sum l2.
Proof. induction l1 as [|x l1 IH]; simpl; lia. Qed.

Lemma sum_zero {A} (f : A -> Z) (l : list A) :
  (forall x, x ∈ l -> f x = 0) -> Money.sum (map f l) = 0.
Proof.
  induction l as [|x l IH]; intros H; simpl; [done|].
  rewrite H by apply list_elem_of_here.
  rewrite IH; [done|]. intros y Hy. apply H. by apply list_elem_of_further.
Qed.

(** X13.  When [WorkOrderPaymentView.post] accepts a request it stores N
    new installments of the order, all pending, in one group, whose
    amounts sum to the order's labor cost; afterwards every transaction
    of the order that is not an installment is canceled, the new
    installments are the order's only installments that are not
    canceled, and the transactions of other orders are as they were. *)
Theorem billing_post_accepted today u g db order acc cat form db' :
  WorkOrderPaymentView_post today u g db order acc cat form = inr db' ->
  exists created,
    db' = map (supersede order) db ++ created
    /\ Z.of_nat (length created) = installments form
    /\ 1 <= installments form <= 24
    /\ Money.sum (map valor created) = default 0 (labor_cost order)
    /\ (forall t, t ∈ created ->
          of_order order t = true /\ is_installment t = true
          /\ status t = previsto /\ installment_group_id t = Some g)
    /\ (forall t, t ∈ db' -> of_order order t = true ->
          is_installment t = false -> status t = cancelado)
    /\ (forall t, t ∈ db' -> of_order order t = true ->
          is_installment t = true -> status t <> cancelado ->
          t ∈ created)
    /\ (forall i t, db !! i = Some t -> of_order order t = false ->
          db' !! i = Some t).
Proof.
  intros Hpost.
  destruct (post_accepted_guards _ _ _ _ _ _ _ _ _ Hpost) as [Hinst Hreal].
  destruct (post_stores_generated _ _ _ _ _ _ _ _ _ Hpost)
    as (a & c & created & -> & -> & Hn & HT & Hgen & ->).
  exists created. split; [done|].
  assert (map valor created
          = map (fun idx =>
                   if idx =? installments form - 1
                   then Money.quantize_div (default 0 (labor_cost order))
                                           (installments form)
                        + (default 0 (labor_cost order)
                           - Money.quantize_div
                               (default 0 (labor_cost order))
                               (installments form)
                             * installments form)
                   else Money.quantize_div (default 0 (labor_cost order))
                                           (installments form))
                (seqZ 0 (installments form))) as Hval.
  { unfold generate_installments in Hgen.
    eapply mapM_values; [|exact Hgen].
    intros idx t Ht. simpl in Ht.
    apply bind_Some in Ht as (due & _ & [= <-]).
    by rewrite valor_create. }
  split.
  { rewrite <- (length_map valor), Hval, length_map, length_seqZ. lia. }
  split; [done|]. split.
  { rewrite Hval, values_shape by lia.
    rewrite sum_replicate_last, Z2Nat.id by lia. ring. }
  split.
  { intros t Ht.
    destruct (created_fields _ _ _ _ _ _ _ _ _ _ Hgen Ht)
      as (H1 & H2 & H3 & H4 & _). auto. }
  split.
  { intros t Hin Ho Hi. apply elem_of_app in Hin as [Hin|Hin].
    - apply list_elem_of_fmap in Hin as (t0 & -> & Hin0).
      destruct (supersede_fields order t0) as (Ho' & Hi' & _ & _).
      rewrite Ho' in Ho. rewrite Hi' in Hi.
      unfold supersede. rewrite Ho, Hi. simpl.
      case_bool_decide as Hc; simpl; [done|].
      rewrite bool_decide_eq_false_2 by (by apply Hreal). done.
    - destruct (created_fields _ _ _ _ _ _ _ _ _ _ Hgen Hin)
        as (_ & H2 & _). congruence. }
  split.
  { intros t Hin Ho Hi Hc. apply elem_of_app in Hin as [Hin|Hin]; [|done].
    exfalso. apply list_elem_of_fmap in Hin as (t0 & -> & Hin0).
    destruct (supersede_fields order t0) as (Ho' & Hi' & Hsame & _).
    rewrite Ho' in Ho. rewrite Hi' in Hi.
    rewrite (Hsame Hi) in Hc. apply Hc. by apply Hinst. }
  { intros i t Hi Ho. rewrite lookup_app_l.
    - rewrite SplitFacts.lookup_map, Hi. simpl.
      destruct (supersede_fields order t) as (_ & _ & _ & Hsame).
      by rewrite Hsame.
    - rewrite length_map. by eapply lookup_lt_Some. }
Qed.

Lemma billing_post_accepted_witness :
  WorkOrderPaymentView_post Samples.hoje 7 1
    [Samples.lancamento receita previsto 20000 (Date 2026 1 5) None
                        Samples.servicos]
    Samples.ordem (Some Samples.conta) (Some Samples.servicos)
    (Samples.payment_form 3 (Date 2025 11 30))
  = inr ([Samples.lancamento receita previsto 20000 (Date 2026 1 5) None
                             Samples.servicos] ++ Samples.parcelas)
  /\ exists created,
       [Samples.lancamento receita previsto 20000 (Date 2026 1 5) None
                           Samples.servicos] ++ Samples.parcelas
       = map (supersede Samples.ordem)
             [Samples.lancamento receita previsto 20000 (Date 2026 1 5)
                                 None Samples.servicos] ++ created
       /\ Z.of_nat (length created) = 3.
Proof.
  assert (WorkOrderPaymentView_post Samples.hoje 7 1
            [Samples.lancamento receita previsto 20000 (Date 2026 1 5)
                                None Samples.servicos]
            Samples.ordem (Some Samples.conta) (Some Samples.servicos)
            (Samples.payment_form 3 (Date 2025 11 30))
          = inr ([Samples.lancamento receita previsto 20000
                                     (Date 2026 1 5) None
                                     Samples.servicos]
                   ++ Samples.parcelas)) as Hpost by reflexivity.
  split; [exact Hpost|].
  destruct (billing_post_accepted _ _ _ _ _ _ _ _ _ Hpost)
    as (created & H1 & H2 & _).
  exists created. split; [exact H1|exact H2].
Defined.

Lemma save_active order today t :
  active_installment order t = true ->
  active_installment order (save today t) = true.
Proof.
  unfold active_installment, of_order, save.
  intros H. apply andb_true_iff in H as [H Hc].
  apply andb_true_iff in H as [H1 H2].
  apply negb_true_iff, bool_decide_eq_false in Hc.
  rewrite !(bool_decide_eq_false_2 (status t = cancelado)) by done.
  destruct (is_projection t && negb (truthy (data_pagamento t)));
    [simpl; by rewrite H1, H2|].
  destruct (data_pagamento t); [simpl; by rewrite H1, H2|].
  destruct (date_ltb (data_vencimento t) today); simpl;
    by rewrite H1, H2.
Qed.

Lemma active_same order t t' :
  work_order t' = work_order t -> is_installment t' = is_installment t ->
  status t' <> cancelado ->
  active_installment order t = true ->
  active_installment order t' = true.
Proof.
  unfold active_installment, of_order. intros -> -> Hs H.
  apply andb_true_iff in H as [-> _].
  by rewrite bool_decide_eq_false_2.
Qed.

Lemma active_status order t :
  active_installment order t = true -> status t <> cancelado.
Proof.
  unfold active_installment. intros H.
  apply andb_true_iff in H as [_ H].
  by apply negb_true_iff, bool_decide_eq_false in H.
Qed.

(** Of the requests on one row only a cancellation takes an installment
    of the order out of the active ones. *)
Lemma handle_active order r t :
  active_installment order t = true -> is_cancel r = false ->
  active_installment order (handle r t) = true.
Proof.
  intros Ha Hr. pose proof (active_status _ _ Ha) as Hs.
  destruct r as [d|d u f|u|d u|d f]; simpl; [| | |done|].
  - by apply save_active.
  - unfold TransactionMarkAsCompletedView_post, marcar_como_realizado.
    repeat case_match; simpl; try done.
    apply save_active. by apply (active_same order t).
  - unfold TransactionMarkAsPendingView_post. by repeat case_match.
  - unfold InstallmentInvoiceView_post.
    repeat case_match; simpl; try done.
    all: apply save_active; by apply (active_same order t).
Qed.

Lemma run_active order rs t :
  active_installment order t = true ->
  forallb (fun r => negb (is_cancel r)) rs = true ->
  active_installment order (run rs t) = true.
Proof.
  unfold run. revert t. induction rs as [|r rs IH]; intros t Ha Hrs;
    simpl in *; [done|].
  apply andb_true_iff in Hrs as [Hr Hrs]. apply negb_true_iff in Hr.
  apply IH; [|done]. by apply handle_active.
Qed.

(** X14.  Double billing is refused while an installment remains: an
    accepted request leaves installments of the order that are not
    canceled, and as long as one of them is stored - after whatever
    saves and mark-realized, mark-pending and invoice requests it went
    through, in whatever table - no further request for the order
    generates anything, whatever the form, the user or the day: it ends
    in the 404 of an order that is no longer closed, in the refusal of a
    missing end date, or else in the refusal that the order already has
    installments. *)
Theorem billing_refused_while_installments_remain
        today u g db order acc cat form db' :
  WorkOrderPaymentView_post today u g db order acc cat form = inr db' ->
  (exists t, t ∈ db' /\ active_installment order t = true)
  /\ forall t rs db2,
       t ∈ db' -> active_installment order t = true ->
       forallb (fun r => negb (is_cancel r)) rs = true ->
       run rs t ∈ db2 ->
       forall today2 u2 g2 is_closed closed_on finished_at acc2 cat2 form2,
         WorkOrderPaymentView_request today2 u2 g2 db2 is_closed
           closed_on finished_at order acc2 cat2 form2
         = if negb is_closed then OrderNotFound
           else if negb (truthy (_get_end_date closed_on finished_at))
                then MissingEndDate
                else Refused AlreadyHasInstallments.
Proof.
  intros Hpost. split.
  - destruct (post_stores_generated _ _ _ _ _ _ _ _ _ Hpost)
      as (a & c & created & -> & -> & Hn & HT & Hgen & ->).
    assert (exists t, t ∈ created) as [t Ht].
    { destruct created as [|t rest]; [|exists t; apply list_elem_of_here].
      exfalso. unfold generate_installments in Hgen.
      apply mapM_Some_1, Forall2_length in Hgen.
      rewrite length_seqZ in Hgen. simpl in Hgen. lia. }
    destruct (created_fields _ _ _ _ _ _ _ _ _ _ Hgen Ht)
      as (H1 & H2 & H3 & _).
    exists t. split; [apply elem_of_app; by right|].
    unfold active_installment. by rewrite H1, H2, H3.
  - intros t rs db2 Ht Ha Hrs Hin today2 u2 g2 is_closed closed_on
           finished_at acc2 cat2 form2.
    unfold WorkOrderPaymentView_request.
    destruct (negb is_closed); [done|].
    destruct (negb (truthy (_get_end_date closed_on finished_at)));
      [done|].
    unfold WorkOrderPaymentView_post.
    rewrite (existsb_true _ _ (run rs t)); [done|done|].
    apply (run_active order rs t Ha Hrs).
Qed.

Lemma billing_refused_while_installments_remain_witness :
  WorkOrderPaymentView_post Samples.hoje 7 1 [] Samples.ordem
    (Some Samples.conta) (Some Samples.servicos)
    (Samples.payment_form 3 (Date 2025 11 30))
  = inr Samples.parcelas
  /\ Samples.primeira ∈ Samples.parcelas
  /\ active_installment Samples.ordem Samples.primeira = true
  /\ WorkOrderPaymentView_request (Date 2026 3 5) 7 2
       [run Samples.pedidos Samples.primeira] true
       (Some (Date 2025 11 20)) None Samples.ordem
       (Some Samples.conta) (Some Samples.servicos)
       (Samples.payment_form 2 (Date 2026 4 1))
     = Refused AlreadyHasInstallments.
Proof.
  assert (WorkOrderPaymentView_post Samples.hoje 7 1 [] Samples.ordem
            (Some Samples.conta) (Some Samples.servicos)
            (Samples.payment_form 3 (Date 2025 11 30))
          = inr Samples.parcelas) as Hpost by reflexivity.
  assert (Samples.primeira ∈ Samples.parcelas) as Hin
    by (apply list_elem_of_In; vm_compute; left; reflexivity).
  assert (active_installment Samples.ordem Samples.primeira = true)
    as Hact by reflexivity.
  assert (forallb (fun r => negb (is_cancel r)) Samples.pedidos = true)
    as Hrs by reflexivity.
  split; [exact Hpost|]. split; [exact Hin|]. split; [exact Hact|].
  destruct (billing_refused_while_installments_remain _ _ _ _ _ _ _ _ _
              Hpost) as [_ H].
  exact (H Samples.primeira Samples.pedidos
           [run Samples.pedidos Samples.primeira] Hin Hact Hrs
           (list_elem_of_here _ _) (Date 2026 3 5) 7%nat 2%nat true
           (Some (Date 2025 11 20)) None (Some Samples.conta)
           (Some Samples.servicos)
           (Samples.payment_form 2 (Date 2026 4 1))).
Defined.

(** X15.  Billing a work order never changes the balance of any account:
    the rows it supersedes were not realized and the installments it
    creates are pending. *)
Theorem billing_keeps_balances today u g db order acc cat form db' :
  WorkOrderPaymentView_post today u g db order acc cat form = inr db' ->
  forall a, saldo_atual a db' = saldo_atual a db.
Proof.
  intros Hpost a.
  destruct (post_stores_generated _ _ _ _ _ _ _ _ _ Hpost)
    as (a0 & c & created & -> & -> & Hn & HT & Hgen & ->).
  rewrite !saldo_atual_contributions, map_app, sum_app, map_map.
  rewrite (map_ext _ (contribution a))
    by (intros t; apply supersede_contribution).
  rewrite (sum_zero (contribution a) created); [lia|].
  intros t Ht.
  destruct (created_fields _ _ _ _ _ _ _ _ _ _ Hgen Ht)
    as (_ & _ & H3 & _).
  apply contribution_unrealized. by rewrite H3.
Qed.

Lemma billing_keeps_balances_witness :
  WorkOrderPaymentView_post Samples.hoje 7 1 [] Samples.ordem
    (Some Samples.conta) (Some Samples.servicos)
    (Samples.payment_form 3 (Date 2025 11 30))
  = inr Samples.parcelas
  /\ saldo_atual Samples.conta Samples.parcelas
     = saldo_atual Samples.conta [].
Proof.
  assert (WorkOrderPaymentView_post Samples.hoje 7 1 [] Samples.ordem
            (Some Samples.conta) (Some Samples.servicos)
            (Samples.payment_form 3 (Date 2025 11 30))
          = inr Samples.parcelas) as Hpost by reflexivity.
  split; [exact Hpost|].
  exact (billing_keeps_balances _ _ _ _ _ _ _ _ _ Hpost Samples.conta).
Defined.

End BillingFacts.

(* ===================================================================== *)
(** ** Keywords of the classification *)
(* ===================================================================== *)

Module KeywordFacts.
Import Ledger Services.

Lemma prefix_app (k s : string) :
  String.prefix k s = true <-> exists post, s = (k ++ post)%string.
Proof.
  revert s. induction k as [|c k IH]; intros s.
  - split; [intros _; by exists s|by destruct s].
  - destruct s as [|c' s]; simpl.
    + split; [done|]. intros [post Hp]. discriminate.
    + destruct (Ascii.ascii_dec c c') as [->|Hne].
      * rewrite IH. split; intros [post Hp]; exists post.
        -- by rewrite Hp.
        -- by injection Hp.
      * split; [done|]. intros [post Hp]. injection Hp as Hc _.
        by destruct Hne.
Qed.

Lemma contains_eq (k s : string) :
  contains k s
  = String.prefix k s
    || match s with
       | EmptyString => false
       | String _ rest => contains k rest
       end.
Proof. by destruct s. Qed.

Lemma contains_app (k s : string) :
  contains k s = true
  <-> exists pre post, s = (pre ++ k ++ post)%string.
Proof.
  split.
  - induction s as [|c s IH]; rewrite contains_eq; intros H.
    + rewrite orb_false_r in H. apply prefix_app in H as [post Hp].
      by exists EmptyString, post.
    + apply orb_true_iff in H as [H|H].
      * apply prefix_app in H as [post Hp]. by exists EmptyString, post.
      * destruct (IH H) as (pre & post & ->).
        by exists (String c pre), post.
  - intros (pre & post & ->).
    induction pre as [|c pre IH].
    + rewrite contains_eq.
      assert (String.prefix k (k ++ post) = true) as Hp
        by (apply prefix_app; by exists post).
      change (EmptyString ++ k ++ post)%string with (k ++ post)%string.
      by rewrite Hp.
    + change (contains k (String c pre ++ k ++ post))
        with (String.prefix k (String c (pre ++ k ++ post))
              || contains k (pre ++ k ++ post)).
      rewrite IH. apply orb_true_r.
Qed.

Lemma string_app_assoc (a b c : string) :
  ((a ++ b) ++ c = a ++ (b ++ c))%string.
Proof.
  induction a as [|x a IH]; [done|].
  change (String x (a ++ b) ++ c = String x (a ++ b ++ c))%string.
  change (String x ((a ++ b) ++ c) = String x (a ++ b ++ c))%string.
  by rewrite IH.
Qed.

(** A word that occurs inside a keyword occurs wherever the keyword
    does. *)
Lemma contains_trans (a b s : string) :
  contains a b = true -> contains b s = true -> contains a s = true.
Proof.
  intros (p1 & q1 & ->)%contains_app (p2 & q2 & ->)%contains_app.
  apply contains_app. exists (p2 ++ p1)%string, (q1 ++ q2)%string.
  by rewrite !string_app_assoc.
Qed.

(** X16.  The keyword 'comissao' of the selling-expenses group never
    decides: it contains 'iss', a keyword of the sales-tax group, which is
    tried first; so every expense category whose lower-cased name contains
    'comissao' is classified as sales tax, whatever its explicit group. *)
Theorem comissao_is_classified_as_tax (lower : string -> string)
        (name : string) (dre : option DreGroup) :
  name <> EmptyString ->
  contains "comissao" (lower name) = true ->
  classify lower despesa name dre = impostos_venda.
Proof.
  intros Hne Hc.
  assert (match_category lower name (kw_impostos_venda) = true) as Hm.
  { unfold match_category. destruct name as [|c rest]; [done|].
    unfold kw_impostos_venda. simpl existsb.
    rewrite (contains_trans "iss" "comissao" _ eq_refl Hc).
    by rewrite !orb_true_r. }
  unfold classify. rewrite Hm. by rewrite orb_true_r.
Qed.

Lemma comissao_is_classified_as_tax_witness :
  classify ascii_lower despesa "Comissao de Vendas" (Some despesas_venda)
  = impostos_venda.
Proof.
  apply comissao_is_classified_as_tax; [done|reflexivity].
Defined.

End KeywordFacts.

(* ===================================================================== *)
(** ** The running balance of the cash-flow page *)
(* ===================================================================== *)

Module RunningBalance.
Import Ledger Services.

Lemma running_loop (values : list Z) (start : Z) (done_ : list Z) :
  (foldl (fun st value =>
            let running_saldo := st.1 + value in
            (running_saldo, st.2 ++ [running_saldo]))
         (start, done_) values).2
  = done_ ++ imap (fun i _ => start + Money.sum (take (S i) values))
                  values.
Proof.
  revert start done_. induction values as [|v values IH];
    intros start done_; simpl.
  - by rewrite app_nil_r.
  - rewrite IH, <- app_assoc. simpl. f_equal. f_equal.
    + f_equal. lia.
    + apply imap_ext. intros i x _. simpl. lia.
Qed.

(** X17.  The loop of [CashflowView] accumulates: it yields one closing
    balance per month, the i-th being the opening total plus the results
    of months 0..i; consecutive balances differ by the month's result. *)
Theorem running_balance_is_prefix_sum (ctx : CashflowContext) :
  length (saldo_final_values ctx) = length (totals_saldo_list ctx)
  /\ (forall i v, totals_saldo_list ctx !! i = Some v ->
        saldo_final_values ctx !! i
        = Some (saldo_inicial_total ctx
                + Money.sum (take (S i) (totals_saldo_list ctx))))
  /\ (forall i v b, totals_saldo_list ctx !! (S i) = Some v ->
        saldo_final_values ctx !! i = Some b ->
        saldo_final_values ctx !! (S i) = Some (b + v)).
Proof.
  unfold saldo_final_values. rewrite running_loop. simpl.
  assert (forall i v, totals_saldo_list ctx !! i = Some v ->
            imap (fun i _ => saldo_inicial_total ctx
                             + Money.sum (take (S i)
                                            (totals_saldo_list ctx)))
                 (totals_saldo_list ctx) !! i
            = Some (saldo_inicial_total ctx
                    + Money.sum (take (S i) (totals_saldo_list ctx))))
    as Hlook.
  { intros i v Hv. rewrite list_lookup_imap, Hv. done. }
  split; [by rewrite length_imap|]. split; [exact Hlook|].
  intros i v b Hv Hb.
  assert (is_Some (totals_saldo_list ctx !! i)) as [w Hw].
  { apply lookup_lt_is_Some. apply lookup_lt_Some in Hv. lia. }
  rewrite (Hlook _ _ Hw) in Hb. injection Hb as <-.
  rewrite (Hlook _ _ Hv). f_equal.
  rewrite (take_S_r _ (S i) v Hv).
  assert (forall l1 l2, Money.sum (l1 ++ l2)
                        = Money.sum l1 + Money.sum l2) as Happ.
  { intros l1 l2. induction l1 as [|x l1 IH]; simpl; lia. }
  rewrite Happ. simpl. lia.
Qed.

End RunningBalance.

(* ===================================================================== *)
(** ** Deleting and finalizing *)
(* ===================================================================== *)

Module DeletionFacts.
Import Calendar Ledger Accounts Consistency Deletion WorkOrderViews.
Import LedgerFacts BalanceFacts.

Lemma sum_perm (l1 l2 : list Z) :
  l1 ≡ₚ l2 -> Money.sum l1 = Money.sum l2.
Proof. induction 1; simpl; lia. Qed.

Lemma visible_row role u db pk t :
  get_queryset role u db !! pk = Some t ->
  db !! pk = Some t /\ (role = role_other -> user t = u).
Proof.
  destruct role; simpl.
  - by split.
  - intros [H1 H2]%map_lookup_filter_Some. by split.
Qed.

(** X18.  [TransactionDeleteView.post] removes at most the requested row
    and only when it is visible to the user, not an installment and not a
    realized row with a payment date: installments and paid rows are
    never deleted, a non-financial user never deletes another user's row,
    and when every realized row has its payment date no deletion changes
    the balance of any account. *)
Theorem delete_postcondition role u pk db db' outcome :
  TransactionDeleteView_post role u pk db = (db', outcome) ->
  (forall k, k <> pk -> db' !! k = db !! k)
  /\ (outcome <> Deleted -> db' = db)
  /\ (outcome = Deleted ->
        exists t, db !! pk = Some t /\ db' = delete pk db
                  /\ is_installment t = false
                  /\ ~ (status t = realizado
                        /\ is_Some (data_pagamento t))
                  /\ (role = role_other -> user t = u))
  /\ (forall k t, db !! k = Some t ->
        is_installment t = true
        \/ (status t = realizado /\ is_Some (data_pagamento t))
        \/ (role = role_other /\ user t <> u) ->
        db' !! k = Some t)
  /\ ((forall k t, db !! k = Some t -> consistent t) ->
      forall a, saldo_atual a (rows db') = saldo_atual a (rows db)).
Proof.
  unfold TransactionDeleteView_post.
  destruct (get_queryset role u db !! pk) as [t|] eqn:Hq.
  2:{ intros [= <- <-]. repeat split; first [done | by intros]. }
  destruct (visible_row _ _ _ _ _ Hq) as [Hpk Hu].
  destruct (is_installment t) eqn:Hi.
  { intros [= <- <-]. repeat split; first [done | by intros]. }
  destruct (bool_decide (status t = realizado)
            && truthy (data_pagamento t)) eqn:Hr.
  { intros [= <- <-]. repeat split; first [done | by intros]. }
  assert (~ (status t = realizado /\ is_Some (data_pagamento t))) as Hnr.
  { intros [Hs [p Hp]]. rewrite Hp in Hr.
    rewrite bool_decide_eq_true_2 in Hr by done. done. }
  intros [= <- <-]. split.
  { intros k Hk. by rewrite lookup_delete_ne. }
  split; [done|]. split.
  { intros _. exists t. auto 6. }
  split.
  { intros k t' Hk Hkeep.
    destruct (decide (k = pk)) as [->|Hne].
    - rewrite Hpk in Hk. injection Hk as <-.
      destruct Hkeep as [H|[H|[Hro H]]].
      + congruence.
      + by destruct Hnr.
      + by destruct H; apply Hu.
    - by rewrite lookup_delete_ne. }
  intros Hcons a.
  rewrite !saldo_atual_contributions. f_equal.
  assert (rows db ≡ₚ t :: rows (delete pk db)) as Hperm.
  { unfold rows.
    rewrite <- (insert_delete_id db pk t Hpk) at 1.
    rewrite map_to_list_insert by apply lookup_delete_eq.
    done. }
  rewrite (sum_perm (map (contribution a) (rows db))
                    (map (contribution a) (t :: rows (delete pk db)))).
  2:{ by apply Permutation_map. }
  simpl. rewrite (contribution_unrealized a t); [lia|].
  intros Hs. apply Hnr. split; [done|]. by apply (Hcons pk t Hpk).
Qed.

Lemma delete_postcondition_witness :
  saldo_atual Samples.conta
    (rows (delete 1%nat
             (<[1%nat := Samples.lancamento despesa previsto 5000
                           (Date 2026 1 20) None Samples.operacional]>
                (∅ : gmap nat Transaction))))
  = saldo_atual Samples.conta
      (rows (<[1%nat := Samples.lancamento despesa previsto 5000
                          (Date 2026 1 20) None Samples.operacional]>
               (∅ : gmap nat Transaction))).
Proof.
  assert (TransactionDeleteView_post role_other 7 1
            (<[1%nat := Samples.lancamento despesa previsto 5000
                          (Date 2026 1 20) None Samples.operacional]>
               (∅ : gmap nat Transaction))
          = (delete 1%nat
               (<[1%nat := Samples.lancamento despesa previsto 5000
                             (Date 2026 1 20) None Samples.operacional]>
                  (∅ : gmap nat Transaction)), Deleted)) as Hpost
    by reflexivity.
  destruct (delete_postcondition _ _ _ _ _ _ Hpost)
    as (_ & _ & _ & _ & Hbal).
  apply Hbal. intros k t Hk.
  destruct (decide (k = 1%nat)) as [->|Hne].
  - rewrite lookup_insert_eq in Hk. injection Hk as <-.
    split; [done|]. intros [p Hp]. done.
  - rewrite lookup_insert_ne, lookup_empty in Hk by done. done.
Defined.

Lemma minus_one_day_before d d' :
  valid_date d -> minus_one_day d = Some d' ->
  valid_date d' /\ date_ltb d' d = true.
Proof.
  unfold valid_date, valid_dateb, minus_one_day, date_ltb, MINYEAR,
    MAXYEAR.
  destruct d as [y m dd]; simpl. intros Hv.
  repeat (apply andb_true_iff in Hv as [Hv ?]).
  destruct (Z.ltb_spec 1 dd).
  { intros [= <-]; simpl. split.
    - repeat (apply andb_true_iff; split); try done; lia.
    - apply orb_true_iff; right. rewrite Z.eqb_refl. simpl.
      apply orb_true_iff; right. rewrite Z.eqb_refl. simpl. lia. }
  destruct (Z.ltb_spec 1 m).
  { intros [= <-]; simpl. split.
    - repeat (apply andb_true_iff; split); try done; try lia.
      pose proof (CalendarFacts.days_in_month_bounds y (m - 1)). lia.
    - apply orb_true_iff; right. rewrite Z.eqb_refl. simpl.
      apply orb_true_iff; left. lia. }
  destruct (Z.ltb_spec 1 y); [|done].
  intros [= <-]; simpl. split.
  - repeat (apply andb_true_iff; split); try done; lia.
  - apply orb_true_iff; left. lia.
Qed.

(** X19.  Finalizing a work order sends its receivable to collection: for
    every local date after 0001-01-01 the row is stored with its due date
    on the day before the local date and without payment date; if the
    local date is not after the date [save] reads, a row that is neither
    canceled nor a projection becomes overdue - also when it had been
    realized, in which case the balance of its account loses the
    amount. *)
Theorem finalize_sends_to_collection local_today today t :
  valid_date local_today ->
  local_today <> Date 1 1 1 ->
  date_leb local_today today = true ->
  status t <> cancelado ->
  is_projection t = false ->
  exists due t',
    finalize_finance_tx local_today today t = Some t'
    /\ minus_one_day local_today = Some due
    /\ data_vencimento t' = due
    /\ date_ltb due local_today = true
    /\ data_pagamento t' = None
    /\ status t' = atrasado
    /\ valor t' = valor t /\ account t' = account t /\ tipo t' = tipo t
    /\ forall a, contribution a t' = 0.
Proof.
  intros Hv Hmin Hle Hc Hp.
  assert (exists due, minus_one_day local_today = Some due) as [due Hdue].
  { unfold minus_one_day, MINYEAR.
    unfold valid_date, valid_dateb, MINYEAR in Hv.
    destruct local_today as [y m d]; simpl in *.
    repeat (apply andb_true_iff in Hv as [Hv ?]).
    destruct (Z.ltb_spec 1 d); [eauto|].
    destruct (Z.ltb_spec 1 m); [eauto|].
    destruct (Z.ltb_spec 1 y); [eauto|].
    exfalso. apply Hmin. f_equal; lia. }
  destruct (minus_one_day_before _ _ Hv Hdue) as [Hvd Hlt].
  assert (date_ltb due today = true) as Hpast
    by (eapply Lifecycle.date_ltb_leb_trans; eauto).
  exists due. eexists. unfold finalize_finance_tx. rewrite Hdue. simpl.
  split; [reflexivity|]. split; [done|].
  unfold save; simpl.
  rewrite bool_decide_eq_false_2 by done. rewrite Hp. simpl.
  rewrite Hpast. simpl. repeat split; try done.
  intros a. by apply contribution_unrealized.
Qed.

Lemma finalize_sends_to_collection_witness :
  exists due t',
    finalize_finance_tx Samples.hoje Samples.hoje
      (Samples.lancamento receita realizado 20000 (Date 2026 1 5)
                          (Some (Date 2026 1 6)) Samples.servicos)
    = Some t'
    /\ minus_one_day Samples.hoje = Some due
    /\ data_vencimento t' = due
    /\ date_ltb due Samples.hoje = true
    /\ data_pagamento t' = None
    /\ status t' = atrasado.
Proof.
  assert (valid_date Samples.hoje) as H1 by reflexivity.
  assert (Samples.hoje <> Date 1 1 1) as H2 by done.
  assert (date_leb Samples.hoje Samples.hoje = true) as H3 by reflexivity.
  assert (status (Samples.lancamento receita realizado 20000
                    (Date 2026 1 5) (Some (Date 2026 1 6))
                    Samples.servicos) <> cancelado) as H4 by done.
  assert (is_projection (Samples.lancamento receita realizado 20000
                           (Date 2026 1 5) (Some (Date 2026 1 6))
                           Samples.servicos) = false) as H5
    by reflexivity.
  destruct (finalize_sends_to_collection _ _ _ H1 H2 H3 H4 H5)
    as (due & t' & Ha & Hb & Hc & Hd & He & Hf & _).
  exists due, t'. auto 7.
Defined.

End DeletionFacts.

(* ===================================================================== *)
(** ** Invoices and the billing tabs *)
(* ===================================================================== *)

Module InvoiceFacts.
Import Calendar Ledger Views Consistency Invoicing.
Import LedgerFacts BalanceFacts BillingFacts.

(** What a valid form has passed. *)
Lemma clean_valid local_today others c :
  inv_is_valid (InstallmentInvoiceForm_clean local_today others c) = true ->
  field_errors c = false
  /\ (c_generate_nf c = true \/ c_generate_boleto c = true)
  /\ (c_generate_boleto c = true -> origin_given c = true ->
      c_payment_origin c = Some "boleto"%string)
  /\ (c_generate_nf c = true ->
      c_invoice_number c <> EmptyString
      /\ (exists d, c_invoice_issued_at c = Some d
                    /\ date_leb local_today d = true)
      /\ forall o, o ∈ others ->
           invoice_number o <> Some (c_invoice_number c)).
Proof.
  unfold InstallmentInvoiceForm_clean; simpl. intros H.
  apply negb_true_iff in H.
  repeat (apply orb_false_iff in H as [H ?]).
  split; [done|]. split.
  { destruct (c_generate_nf c), (c_generate_boleto c); auto. }
  split.
  { intros Hb Ho. rewrite Hb, Ho in *. simpl in *.
    rewrite andb_true_r in *.
    match goal with
    | Hx : negb (bool_decide _) = false |- _ =>
        by apply negb_false_iff, bool_decide_eq_true in Hx
    end. }
  intros Hnf. rewrite Hnf in *. simpl in *.
  assert (nonempty (c_invoice_number c) = true) as Hne
    by (by destruct (nonempty (c_invoice_number c))).
  split; [by destruct (c_invoice_number c)|]. split.
  - destruct (c_invoice_issued_at c) as [d|]; [|done].
    exists d. split; [done|]. unfold date_leb.
    match goal with Hx : date_ltb d local_today = false |- _ =>
      by rewrite Hx end.
  - intros o Ho Heq. rewrite Hne in *. simpl in *.
    match goal with Hx : existsb _ others = false |- _ =>
      pose proof (existsb_false _ _ _ Hx Ho) as Hf end.
    simpl in Hf. by apply bool_decide_eq_false in Hf.
Qed.

(** X20.  An invoice request is accepted only for an income installment
    that is neither realized nor canceled and only with NF or boleto
    selected.  With NF the stored row carries the form's invoice number -
    not blank and on no other row -, an issue date not before the local
    date, is no longer a projection and moves to the open tab; without NF
    the invoice number is cleared, the projection flag is kept and the
    row is in the awaiting tab.  Amount, due date and payment date are
    untouched. *)
Theorem invoice_accepted today local_today others c t t' :
  consistent t ->
  InstallmentInvoiceView_post today
    (InstallmentInvoiceForm_clean local_today others c) t
  = (t', Success) ->
  is_installment t = true /\ tipo t = receita
  /\ status t <> realizado /\ status t <> cancelado
  /\ (c_generate_nf c = true \/ c_generate_boleto c = true)
  /\ (c_generate_nf c = true ->
        invoice_number t' = Some (c_invoice_number c)
        /\ c_invoice_number c <> EmptyString
        /\ (exists d, invoice_issued_at t' = Some d
                      /\ date_leb local_today d = true)
        /\ (forall o, o ∈ others ->
              invoice_number o <> Some (c_invoice_number c))
        /\ is_projection t' = false
        /\ open_nf t' = true)
  /\ (c_generate_nf c = false ->
        invoice_number t' = None
        /\ is_projection t' = is_projection t
        /\ boleto_number t' = Some (c_boleto_number c)
        /\ awaiting_nf t' = true)
  /\ (status t' = previsto \/ status t' = atrasado)
  /\ valor t' = valor t /\ data_vencimento t' = data_vencimento t
  /\ data_pagamento t' = None /\ account t' = account t.
Proof.
  intros Hc.
  pose proof (clean_valid local_today others c) as Hvalid.
  set (form := InstallmentInvoiceForm_clean local_today others c) in *.
  assert (generate_nf form = c_generate_nf c) as Eg by reflexivity.
  assert (inv_invoice_number form = Some (c_invoice_number c)) as En
    by reflexivity.
  assert (inv_invoice_issued_at form = c_invoice_issued_at c) as Ed
    by reflexivity.
  assert (inv_boleto_number form = Some (c_boleto_number c)) as Eb
    by reflexivity.
  assert (generate_boleto form
          = if origin_given c
               && negb (bool_decide
                          (c_payment_origin c = Some "boleto"%string))
            then false else c_generate_boleto c) as Egb by reflexivity.
  clearbody form.
  unfold InstallmentInvoiceView_post.
  destruct (is_installment t) eqn:Hi; [|done].
  destruct (bool_decide_reflect (tipo t = receita)) as [Hk|Hk];
    simpl; [|done].
  destruct (bool_decide_reflect (status t = realizado)) as [Hr|Hr];
    simpl; [done|].
  destruct (bool_decide_reflect (status t = cancelado)) as [Hcan|Hcan];
    simpl; [done|].
  destruct (inv_is_valid form) eqn:Hv; simpl; [|done].
  destruct (Hvalid eq_refl) as (_ & Hsel & Hbol & Hnf).
  assert (data_pagamento t = None) as Hp.
  { destruct (data_pagamento t) eqn:E; [|done].
    destruct Hr. apply Hc. by rewrite E. }
  intros [= <-].
  set (row := {| user := user t |}).
  assert (status (save today row) = previsto
          \/ status (save today row) = atrasado) as Hst.
  { unfold save. subst row; simpl.
    rewrite bool_decide_eq_false_2 by done. rewrite Hp.
    repeat case_match; simpl; auto. }
  assert (invoice_number (save today row) = invoice_number row
          /\ invoice_issued_at (save today row) = invoice_issued_at row
          /\ is_projection (save today row) = is_projection row
          /\ boleto_number (save today row) = boleto_number row
          /\ valor (save today row) = valor row
          /\ data_vencimento (save today row) = data_vencimento row
          /\ account (save today row) = account row
          /\ data_pagamento (save today row) = None) as Hsame.
  { unfold save. subst row; simpl. rewrite Hp.
    repeat case_match; simpl; auto 10. }
  destruct Hsame as (E1 & E2 & E3 & E4 & E5 & E6 & E7 & E8).
  assert (bool_decide (status (save today row) = cancelado) = false)
    as Hb1 by (destruct Hst as [Hs|Hs]; by rewrite Hs).
  assert (bool_decide (status (save today row) = realizado) = false)
    as Hb2 by (destruct Hst as [Hs|Hs]; by rewrite Hs).
  split; [done|]. split; [done|]. split; [done|]. split; [done|].
  split; [done|]. split.
  { intros Hg. destruct (Hnf Hg) as (Hne & (d & Hd & Hle) & Hoth).
    unfold open_nf. rewrite E1, E2, E3, Hb1, Hb2.
    subst row; simpl. rewrite Eg, En, Ed, Hg. simpl.
    split; [done|]. split; [done|].
    split; [by exists d|]. done. }
  split.
  { intros Hg. unfold awaiting_nf. rewrite E1, E3, E4, Hb1.
    subst row; simpl. rewrite Eg, Eb, Egb, Hg. simpl.
    assert (c_generate_boleto c = true) as Hb
      by (destruct Hsel; congruence).
    rewrite Hb. split; [done|]. split; [done|]. split; [|done].
    destruct (origin_given c) eqn:Ho; simpl; [|done].
    rewrite (Hbol Hb eq_refl). done. }
  split; [done|]. rewrite E5, E6, E7, E8. done.
Qed.

Lemma invoice_accepted_witness :
  exists t',
    InstallmentInvoiceView_post Samples.hoje
      (InstallmentInvoiceForm_clean Samples.hoje []
         {| field_errors := false; c_payment_origin := Some "pix"%string;
            c_generate_nf := true; c_invoice_number := "NF-1"%string;
            c_invoice_issued_at := Some Samples.hoje;
            c_generate_boleto := false; c_boleto_number := EmptyString;
            c_boleto_issued_at := None |})
      Samples.primeira
    = (t', Success)
    /\ invoice_number t' = Some "NF-1"%string
    /\ is_projection t' = false /\ open_nf t' = true.
Proof.
  eexists. split; [reflexivity|].
  assert (consistent Samples.primeira) as Hc.
  { split; [done|]. intros [p Hp]. done. }
  destruct (invoice_accepted Samples.hoje Samples.hoje []
              {| field_errors := false;
                 c_payment_origin := Some "pix"%string;
                 c_generate_nf := true; c_invoice_number := "NF-1"%string;
                 c_invoice_issued_at := Some Samples.hoje;
                 c_generate_boleto := false;
                 c_boleto_number := EmptyString;
                 c_boleto_issued_at := None |}
              Samples.primeira _ Hc eq_refl)
    as (_ & _ & _ & _ & _ & Hnf & _).
  destruct (Hnf eq_refl) as (H1 & _ & _ & _ & H2 & H3). auto.
Defined.




Lemma filter_length_add {A} (f g h : A -> bool) (l : list A) :
  (forall x, Nat.b2n (f x) + Nat.b2n (g x) = Nat.b2n (h x))%nat ->
  (length (List.filter f l) + length (List.filter g l)
   = length (List.filter h l))%nat.
Proof.
  intros H. induction l as [|x l IH]; simpl; [done|].
  specialize (H x).
  destruct (f x), (g x), (h x); simpl in *; lia.
Qed.

(** X22.  The three billing tabs partition the installments that are not
    canceled: every such installment is listed in exactly one of
    awaiting, open and closed, a canceled one in none, and the three
    counters of [_billing_counts] add up to the number of installments
    that are not canceled. *)
Theorem billing_tabs_partition (installments_qs : list Transaction) :
  (forall t,
     (status t <> cancelado ->
      (awaiting_nf t = true /\ open_nf t = false /\ closed_nf t = false)
      \/ (awaiting_nf t = false /\ open_nf t = true
          /\ closed_nf t = false)
      \/ (awaiting_nf t = false /\ open_nf t = false
          /\ closed_nf t = true))
     /\ (status t = cancelado ->
         awaiting_nf t = false /\ open_nf t = false
         /\ closed_nf t = false))
  /\ (awaiting_count (_billing_counts installments_qs)
      + open_count (_billing_counts installments_qs)
      + closed_count (_billing_counts installments_qs)
      = length (List.filter
                  (fun t => negb (bool_decide (status t = cancelado)))
                  installments_qs))%nat.
Proof.
  split.
  - intros t. unfold awaiting_nf, open_nf, closed_nf.
    destruct (invoice_number t), (status t); simpl; split; intros H;
      try done; auto 6.
  - unfold _billing_counts; simpl.
    rewrite (filter_length_add awaiting_nf open_nf
               (fun t => awaiting_nf t || open_nf t)).
    + apply filter_length_add. intros t.
      unfold awaiting_nf, open_nf, closed_nf.
      by destruct (invoice_number t), (status t).
    + intros t. unfold awaiting_nf, open_nf.
      by destruct (invoice_number t), (status t).
Qed.

End InvoiceFacts.

(* ===================================================================== *)
(** ** The DRE counts every reported row once *)
(* ===================================================================== *)

Module DreFacts.
Import Calendar CalendarHelpers Ledger Services ReportTotals.
Import CalendarFacts Months BillingFacts.

Lemma alter_sum (v : Z) (idx : nat) (l : list Z) :
  (idx < length l)%nat ->
  Money.sum (alter (Z.add v) idx l) = Money.sum l + v.
Proof.
  revert idx. induction l as [|x l IH]; intros [|idx] H; simpl in *;
    try lia.
  change (list_alter (Z.add v) idx l) with (alter (Z.add v) idx l).
  rewrite IH by lia. lia.
Qed.

Lemma month_index_snoc (l : list date) (d : date) :
  month_index_of (l ++ [d])
  = <[month_key d := length l]> (month_index_of l).
Proof.
  unfold month_index_of. rewrite imap_app, foldl_app. simpl.
  by rewrite Nat.add_0_r.
Qed.

Lemma month_index_bound (months : list date) k idx :
  month_index_of months !! k = Some idx -> (idx < length months)%nat.
Proof.
  revert idx. induction months as [|d l IH] using rev_ind; intros idx.
  - unfold month_index_of; simpl. by rewrite lookup_empty.
  - rewrite month_index_snoc, length_app. simpl.
    intros [[_ <-]|[_ H]]%lookup_insert_Some; [lia|].
    specialize (IH _ H). lia.
Qed.

Lemma month_index_dom (months : list date) (d : date) :
  d ∈ months -> is_Some (month_index_of months !! month_key d).
Proof.
  induction months as [|x l IH] using rev_ind; intros Hin.
  - by apply elem_of_nil in Hin.
  - rewrite month_index_snoc.
    destruct (decide (month_key x = month_key d)) as [E|E].
    + rewrite E, lookup_insert_eq. by eexists.
    + rewrite lookup_insert_ne by done. apply IH.
      apply elem_of_app in Hin as [Hin|Hin]; [done|].
      apply list_elem_of_singleton in Hin. by subst.
Qed.

Lemma date_leb_months (a b : date) :
  1 <= month a <= 12 -> 1 <= month b <= 12 ->
  date_leb a b = true -> month_number a <= month_number b.
Proof.
  unfold date_leb, date_ltb, month_number. intros Ha Hb H.
  apply negb_true_iff in H.
  apply orb_false_iff in H as [H1 H2].
  apply Z.ltb_ge in H1.
  destruct (Z.eqb_spec (year b) (year a)) as [E|E]; [|lia].
  simpl in H2. apply orb_false_iff in H2 as [H2 _].
  apply Z.ltb_ge in H2. lia.
Qed.

(** Every due date inside the range falls in a month of the list. *)
Lemma month_in_list (start_date end_date due : date) months :
  valid_date start_date -> valid_date end_date -> valid_date due ->
  _month_list start_date end_date = Some months ->
  date_leb start_date due = true -> date_leb due end_date = true ->
  replace_day1 due ∈ months.
Proof.
  intros Hs He Hd Hl H1 H2.
  apply valid_dateb_spec in Hs as (Hsy & Hsm & _).
  apply valid_dateb_spec in He as (Hey & Hem & _).
  apply valid_dateb_spec in Hd as (Hdy & Hdm & _).
  pose proof (date_leb_months _ _ Hsm Hdm H1) as Hlo.
  pose proof (date_leb_months _ _ Hdm Hem H2) as Hhi.
  unfold month_number in *.
  assert (1 <= month_span start_date end_date) as Hspan
    by (unfold month_span; lia).
  destruct (decide (year end_date = MAXYEAR /\ month end_date = 12))
    as [[Hy Hm]|Hlast].
  { unfold _month_list in Hl.
    rewrite month_list_loop_raises in Hl; simpl; try done; try lia;
      unfold month_span in *; simpl; lia. }
  destruct (month_list_loop_spec
              (Z.to_nat (month_span start_date end_date))
              (replace_day1 start_date) (replace_day1 end_date))
    as (l & Hl' & Hlen & Hnth); simpl; try done; try lia.
  { unfold month_span in *; simpl. lia. }
  unfold _month_list in Hl. rewrite Hl' in Hl. injection Hl as ->.
  set (i := 12 * (year due - year start_date)
            + (month due - month start_date)).
  apply list_elem_of_lookup. exists (Z.to_nat i).
  rewrite Hnth by (unfold month_span in *; lia).
  rewrite Z2Nat.id by lia. f_equal.
  unfold nth_month, replace_day1; simpl.
  replace (month start_date - 1 + i)
    with ((month due - 1) + (year due - year start_date) * 12) by lia.
  rewrite Z.div_add, Z_mod_plus_full, Z.div_small, Z.mod_small by lia.
  f_equal; lia.
Qed.

Lemma add_dre_item_total k x acc :
  items_total k (add_dre_item x acc)
  = items_total k acc
    + (if bool_decide (it_tipo x = k) then it_total x else 0).
Proof.
  unfold items_total.
  induction acc as [|y acc IH]; simpl; [lia|].
  destruct (same_dre_key x y) eqn:E; simpl.
  - apply bool_decide_eq_true in E as (E & _). rewrite E.
    destruct (bool_decide (it_tipo y = k)); lia.
  - rewrite IH. lia.
Qed.

Lemma add_dre_item_months (Q : option date -> Prop) x acc :
  Q (it_month x) -> Forall (fun i => Q (it_month i)) acc ->
  Forall (fun i => Q (it_month i)) (add_dre_item x acc).
Proof.
  intros Hx. induction 1 as [|y acc Hy Hacc IH]; simpl.
  - by repeat constructor.
  - destruct (same_dre_key x y); constructor; auto.
Qed.

Lemma dre_aggregates_spec (Q : option date -> Prop) k qs f :
  (forall t, t ∈ qs -> Q (TruncMonth f t)) ->
  Forall (fun i => Q (it_month i)) (dre_aggregates qs f)
  /\ items_total k (dre_aggregates qs f) = rows_total k qs.
Proof.
  unfold dre_aggregates.
  assert (forall acc,
            (forall t, t ∈ qs -> Q (TruncMonth f t)) ->
            Forall (fun i => Q (it_month i)) acc ->
            Forall (fun i => Q (it_month i))
              (foldl (fun acc t =>
                        add_dre_item
                          {| it_tipo := tipo t;
                             it_nome := nome (category t);
                             it_dre_group := dre_group (category t);
                             it_month := TruncMonth f t;
                             it_total := valor t |} acc) acc qs)
            /\ items_total k
                 (foldl (fun acc t =>
                           add_dre_item
                             {| it_tipo := tipo t;
                                it_nome := nome (category t);
                                it_dre_group := dre_group (category t);
                                it_month := TruncMonth f t;
                                it_total := valor t |} acc) acc qs)
               = items_total k acc + rows_total k qs) as Hgen.
  { induction qs as [|t qs IH]; intros acc HQ Hacc; simpl.
    - unfold rows_total; simpl. split; [done|lia].
    - destruct (IH (add_dre_item
                      {| it_tipo := tipo t; it_nome := nome (category t);
                         it_dre_group := dre_group (category t);
                         it_month := TruncMonth f t;
                         it_total := valor t |} acc)) as [H1 H2].
      + intros t' Ht'. apply HQ. by apply list_elem_of_further.
      + apply add_dre_item_months; [|done].
        simpl. apply HQ. apply list_elem_of_here.
      + split; [done|]. rewrite H2, add_dre_item_total.
        unfold rows_total; simpl. lia. }
  intros HQ. destruct (Hgen [] HQ (List.Forall_nil _)) as [H1 H2].
  split; [done|]. rewrite H2. unfold items_total; simpl. lia.
Qed.

Lemma classify_kind lower k name dre :
  kind_of_group (classify lower k name dre) = k.
Proof. unfold classify. destruct k; repeat case_match; done. Qed.

Lemma add_to_group_total k g idx v (gs : Groups) :
  (idx < length (gs g))%nat ->
  groups_total k (add_to_group g idx v gs)
  = groups_total k gs
    + (if bool_decide (kind_of_group g = k) then v else 0).
Proof.
  intros H. unfold groups_total, add_to_group.
  destruct k, g; simpl; rewrite ?alter_sum by done; lia.
Qed.

Lemma add_to_group_length g idx v (gs : Groups) g' :
  length (add_to_group g idx v gs g') = length (gs g').
Proof.
  unfold add_to_group. case_bool_decide; [|done].
  by rewrite length_alter.
Qed.

Lemma dre_fold lower mi len items :
  (forall key idx, mi !! key = Some idx -> (idx < len)%nat) ->
  Forall (fun i => exists m, it_month i = Some m
                             /\ is_Some (mi !! month_key m)) items ->
  forall gs : Groups,
    (forall g, length (gs g) = len) ->
    exists gs' : Groups,
      foldl (dre_step lower mi) (Some gs) items = Some gs'
      /\ (forall g, length (gs' g) = len)
      /\ forall k, groups_total k gs'
                   = groups_total k gs + items_total k items.
Proof.
  intros Hmi. induction 1 as [|x items Hx Hitems IH]; intros gs Hlen.
  - exists gs. split; [done|]. split; [done|].
    intros k. unfold items_total; simpl. lia.
  - destruct Hx as (m & Hm & [idx Hidx]).
    simpl. rewrite Hm. simpl. rewrite Hidx.
    destruct (IH (add_to_group
                    (classify lower (it_tipo x) (it_nome x)
                              (it_dre_group x))
                    idx (it_total x) gs)) as (gs' & Hf & Hl & Ht).
    { intros g. by rewrite add_to_group_length. }
    exists gs'. split; [done|]. split; [done|].
    intros k. rewrite Ht, add_to_group_total.
    + rewrite classify_kind. unfold items_total; simpl. lia.
    + rewrite Hlen. by eapply Hmi.
Qed.

Lemma sum_zip_sub (a b : list Z) :
  length a = length b ->
  Money.sum (zip_with Z.sub a b) = Money.sum a - Money.sum b
  /\ length (zip_with Z.sub a b) = length a.
Proof.
  revert b. induction a as [|x a IH]; intros [|y b] H; simpl in *;
    try done.
  destruct (IH b) as [H1 H2]; [lia|]. rewrite H1, H2. split; lia.
Qed.

Lemma sum_zip_add (a b : list Z) :
  length a = length b ->
  Money.sum (zip_with Z.add a b) = Money.sum a + Money.sum b
  /\ length (zip_with Z.add a b) = length a.
Proof.
  revert b. induction a as [|x a IH]; intros [|y b] H; simpl in *;
    try done.
  destruct (IH b) as [H1 H2]; [lia|]. rewrite H1, H2. split; lia.
Qed.

(** X23.  The DRE counts every reported row exactly once: for valid
    range bounds and stored due dates, whenever [build_dre_context]
    returns, each of its rows has one value per month, the income groups
    add up to the income of the rows selected by the phase filter, the
    expense groups to their expenses, and the net profit row adds up to
    income minus expenses. *)
Theorem dre_counts_every_row_once lower db start_date end_date phase
        account_id category_id user_f ctx :
  valid_date start_date -> valid_date end_date ->
  Forall (fun t => valid_date (data_vencimento t)) (transactions db) ->
  build_dre_context lower db start_date end_date phase
                    account_id category_id user_f = Some ctx ->
  (forall g, length (dre_groups ctx g) = length (dre_months ctx))
  /\ length (lucro_liquido ctx) = length (dre_months ctx)
  /\ (forall k,
        groups_total k (dre_groups ctx)
        = rows_total k
            (apply_phase_filter
               (get_finance_queryset db user_f account_id category_id)
               phase start_date end_date).1)
  /\ Money.sum (receita_liquida ctx)
     = Money.sum (dre_groups ctx receita_operacional)
       - Money.sum (dre_groups ctx impostos_venda)
  /\ Money.sum (lucro_liquido ctx)
     = groups_total receita (dre_groups ctx)
       - groups_total despesa (dre_groups ctx).
Proof.
  intros Hs He Hdb. unfold build_dre_context.
  set (qs0 := get_finance_queryset db user_f account_id category_id).
  assert (forall t, t ∈ qs0 -> valid_date (data_vencimento t)) as Hqs0.
  { intros t Ht. rewrite Forall_forall in Hdb. apply Hdb.
    subst qs0. unfold get_finance_queryset in Ht.
    repeat case_match; repeat (apply list_elem_of_filter in Ht as [_ Ht]);
      done. }
  unfold apply_phase_filter. cbv zeta. cbn [fst].
  set (qs := match phase with
             | futuro => filter _ _
             | consolidado => filter _ _
             end).
  assert (forall t, t ∈ qs ->
            valid_date (data_vencimento t)
            /\ date_leb start_date (data_vencimento t) = true
            /\ date_leb (data_vencimento t) end_date = true) as Hqs.
  { intros t Ht. subst qs.
    assert (t ∈ filter (fun t =>
                          date_leb start_date (data_vencimento t) = true
                          /\ date_leb (data_vencimento t) end_date = true)
                  (filter (fun t => status t <> cancelado) qs0)) as Hin
      by (destruct phase; by apply list_elem_of_filter in Ht as [_ Ht]).
    apply list_elem_of_filter in Hin as [[H1 H2] Hin].
    apply list_elem_of_filter in Hin as [_ Hin]. auto. }
  destruct (_month_list start_date end_date) as [months|] eqn:Hm;
    [|done]. simpl.
  destruct (dre_aggregates_spec
              (fun o => exists m, o = Some m
                                  /\ is_Some (month_index_of months
                                                !! month_key m))
              receita qs data_vencimento_field) as [Hmonths _].
  { intros t Ht. destruct (Hqs t Ht) as (Hv & H1 & H2).
    exists (replace_day1 (data_vencimento t)). split; [done|].
    apply month_index_dom.
    by apply (month_in_list start_date end_date). }
  destruct (dre_fold lower (month_index_of months) (length months)
              (dre_aggregates qs data_vencimento_field)
              (month_index_bound months) Hmonths
              (fun _ => map (fun _ => 0) months))
    as (gs & Hfold & Hlen & Htot).
  { intros g. by rewrite length_map. }
  rewrite Hfold. simpl. intros [= <-]. simpl.
  assert (forall k, groups_total k gs = rows_total k qs) as Hk.
  { intros k. rewrite Htot.
    destruct (dre_aggregates_spec (fun _ => True) k qs
                data_vencimento_field) as [_ ->]; [done|].
    assert (Money.sum (map (fun _ : date => 0) months) = 0) as Hz
      by (by apply sum_zero).
    destruct k; unfold groups_total; rewrite !Hz; lia. }
  destruct (sum_zip_sub (gs receita_operacional) (gs impostos_venda))
    as [S1 L1]; [by rewrite !Hlen|].
  destruct (sum_zip_sub (zip_with Z.sub (gs receita_operacional)
                                  (gs impostos_venda)) (gs cmv))
    as [S2 L2]; [by rewrite L1, !Hlen|].
  destruct (sum_zip_add (gs despesas_venda) (gs despesas_gerais_adm))
    as [S3 L3]; [by rewrite !Hlen|].
  destruct (sum_zip_sub
              (zip_with Z.sub (zip_with Z.sub (gs receita_operacional)
                                        (gs impostos_venda)) (gs cmv))
              (zip_with Z.add (gs despesas_venda)
                        (gs despesas_gerais_adm)))
    as [S4 L4]; [by rewrite L2, L1, L3, !Hlen|].
  destruct (sum_zip_sub
              (zip_with Z.sub
                 (zip_with Z.sub (zip_with Z.sub (gs receita_operacional)
                                           (gs impostos_venda)) (gs cmv))
                 (zip_with Z.add (gs despesas_venda)
                           (gs despesas_gerais_adm)))
              (gs despesas_financeiras))
    as [S5 L5]; [by rewrite L4, L2, L1, !Hlen|].
  destruct (sum_zip_add
              (zip_with Z.sub
                 (zip_with Z.sub
                    (zip_with Z.sub (zip_with Z.sub
                                       (gs receita_operacional)
                                       (gs impostos_venda)) (gs cmv))
                    (zip_with Z.add (gs despesas_venda)
                              (gs despesas_gerais_adm)))
                 (gs despesas_financeiras))
              (gs receita_financeira))
    as [S6 L6]; [by rewrite L5, L4, L2, L1, !Hlen|].
  split; [done|]. split; [by rewrite L6, L5, L4, L2, L1, Hlen|].
  split; [done|]. split; [done|].
  rewrite S6, S5, S4, S3, S2, S1. unfold groups_total. lia.
Qed.

Lemma dre_counts_every_row_once_witness :
  exists ctx,
    build_dre_context ascii_lower Samples.db_dre (Date 2026 1 1)
                      (Date 2026 2 28) consolidado None None None
    = Some ctx
    /\ Money.sum (lucro_liquido ctx)
       = groups_total receita (dre_groups ctx)
         - groups_total despesa (dre_groups ctx).
Proof.
  assert (valid_date (Date 2026 1 1)) as H1 by reflexivity.
  assert (valid_date (Date 2026 2 28)) as H2 by reflexivity.
  assert (Forall (fun t => valid_date (data_vencimento t))
                 (transactions Samples.db_dre)) as H3
    by (repeat constructor).
  destruct (build_dre_context ascii_lower Samples.db_dre (Date 2026 1 1)
              (Date 2026 2 28) consolidado None None None)
    as [ctx|] eqn:Hctx; [|vm_compute in Hctx; discriminate Hctx].
  exists ctx. split; [reflexivity|].
  destruct (dre_counts_every_row_once ascii_lower Samples.db_dre
              (Date 2026 1 1) (Date 2026 2 28) consolidado None None None
              ctx H1 H2 H3 Hctx) as (_ & _ & _ & _ & H).
  exact H.
Defined.

End DreFacts.

(* ===================================================================== *)
(** ** The order of dates *)
(* ===================================================================== *)

Module DateOrder.
Import Calendar Aging.

Lemma date_ltb_spec (a b : date) :
  date_ltb a b = true
  <-> year a < year b
      \/ (year a = year b
          /\ (month a < month b
              \/ (month a = month b /\ day a < day b))).
Proof.
  unfold date_ltb.
  rewrite orb_true_iff, andb_true_iff, orb_true_iff, andb_true_iff,
    !Z.ltb_lt, !Z.eqb_eq. done.
Qed.

Lemma date_ltb_false (a b : date) :
  date_ltb a b = false
  <-> ~ (year a < year b
         \/ (year a = year b
             /\ (month a < month b
                 \/ (month a = month b /\ day a < day b)))).
Proof.
  rewrite <- date_ltb_spec. by destruct (date_ltb a b).
Qed.

Lemma date_ltb_irrefl (a : date) : date_ltb a a = false.
Proof. apply date_ltb_false. lia. Qed.

Lemma date_ltb_trans (a b c : date) :
  date_ltb a b = true -> date_ltb b c = true -> date_ltb a c = true.
Proof. rewrite !date_ltb_spec. lia. Qed.

Lemma date_ltb_asym (a b : date) :
  date_ltb a b = true -> date_ltb b a = false.
Proof. rewrite date_ltb_spec, date_ltb_false. lia. Qed.

Lemma date_trichotomy (a b : date) :
  date_ltb a b = true \/ a = b \/ date_ltb b a = true.
Proof.
  rewrite !date_ltb_spec. destruct a as [y m d], b as [y' m' d']; simpl.
  destruct (Z.lt_trichotomy y y') as [?|[->|?]]; [lia| |lia].
  destruct (Z.lt_trichotomy m m') as [?|[->|?]]; [lia| |lia].
  destruct (Z.lt_trichotomy d d') as [?|[->|?]]; [lia| |lia].
  auto.
Qed.

Lemma plus_one_day_after (d d' : date) :
  valid_date d -> plus_one_day d = Some d' ->
  valid_date d' /\ date_ltb d d' = true.
Proof.
  intros Hv. pose proof Hv as Hb.
  apply CalendarFacts.valid_dateb_spec in Hb as (Hy & Hm & Hd).
  unfold plus_one_day.
  destruct (Z.ltb_spec (day d) (days_in_month (year d) (month d))).
  { intros [= <-]. split.
    - apply CalendarFacts.valid_dateb_spec; simpl. lia.
    - apply date_ltb_spec; simpl. lia. }
  destruct (Z.ltb_spec (month d) 12).
  { intros [= <-]. split.
    - apply CalendarFacts.valid_dateb_spec; simpl.
      pose proof (CalendarFacts.days_in_month_bounds (year d)
                    (month d + 1)). lia.
    - apply date_ltb_spec; simpl. lia. }
  unfold py_date. destruct (valid_dateb _) eqn:E; [|done].
  intros [= <-]. split; [done|]. apply date_ltb_spec; simpl. lia.
Qed.

Lemma plus_days_after (n : nat) (d d' : date) :
  valid_date d -> plus_days d n = Some d' ->
  valid_date d' /\ (0 < n -> date_ltb d d' = true)%nat.
Proof.
  revert d. induction n as [|n IH]; intros d Hv; simpl.
  - intros [= <-]. split; [done|lia].
  - destruct (plus_one_day d) as [next|] eqn:E; [|done]. simpl.
    destruct (plus_one_day_after _ _ Hv E) as [Hv' Hlt].
    intros Hn. destruct (IH _ Hv' Hn) as [Hv'' Hlt'].
    split; [done|]. intros _. destruct n as [|n].
    + simpl in Hn. by injection Hn as <-.
    + eapply date_ltb_trans; [exact Hlt|]. apply Hlt'. lia.
Qed.

Lemma plus_days_add (a b : nat) (d : date) :
  plus_days d (a + b) = plus_days d a ≫= fun d' => plus_days d' b.
Proof.
  revert d. induction a as [|a IH]; intros d; simpl; [done|].
  destruct (plus_one_day d); simpl; [apply IH|done].
Qed.

End DateOrder.

(* ===================================================================== *)
(** ** The aging reports and the list statistics *)
(* ===================================================================== *)

Module AgingFacts.
Import Calendar Ledger Aging ListStatistics DateOrder.

Lemma filter_split {A} (f g h : A -> bool) (l : list A) :
  (forall x, h x = f x || g x) ->
  (forall x, f x && g x = false) ->
  List.filter f l ++ List.filter g l ≡ₚ List.filter h l.
Proof.
  intros Hh Hfg. induction l as [|x l IH]; simpl; [done|].
  specialize (Hh x). specialize (Hfg x).
  destruct (f x), (g x); simpl in *; rewrite Hh; try done.
  - by constructor.
  - by rewrite <- Permutation_middle, IH.
Qed.

Lemma filter_all {A} (h : A -> bool) (l : list A) :
  (forall x, h x = true) -> List.filter h l = l.
Proof.
  intros H. induction l as [|x l IH]; simpl; [done|].
  by rewrite H, IH.
Qed.

(** The period a due date falls in, given the two cut-off dates. *)
Lemma period_of_due (today week_end month_end due : date) :
  date_ltb today week_end = true ->
  date_ltb week_end month_end = true ->
  let f1 := date_ltb due today in
  let f2 := bool_decide (due = today) in
  let f3 := date_ltb today due && date_leb due week_end in
  let f4 := date_ltb week_end due && date_leb due month_end in
  let f5 := date_ltb month_end due in
  (f1, f2, f3, f4, f5) = (true, false, false, false, false)
  \/ (f1, f2, f3, f4, f5) = (false, true, false, false, false)
  \/ (f1, f2, f3, f4, f5) = (false, false, true, false, false)
  \/ (f1, f2, f3, f4, f5) = (false, false, false, true, false)
  \/ (f1, f2, f3, f4, f5) = (false, false, false, false, true).
Proof.
  intros Htw Hwm. cbv zeta. unfold date_leb.
  pose proof (date_ltb_trans _ _ _ Htw Hwm) as Htm.
  destruct (date_trichotomy due today) as [H|[->|H]].
  - left.
    assert (date_ltb due week_end = true) as Hdw
      by (eapply date_ltb_trans; eauto).
    assert (date_ltb due month_end = true) as Hdm
      by (eapply date_ltb_trans; eauto).
    rewrite H, (date_ltb_asym _ _ H), (date_ltb_asym _ _ Hdw),
      (date_ltb_asym _ _ Hdm).
    rewrite bool_decide_eq_false_2; [done|].
    intros ->. by rewrite date_ltb_irrefl in H.
  - right; left.
    rewrite date_ltb_irrefl, (date_ltb_asym _ _ Htw),
      (date_ltb_asym _ _ Htm).
    by rewrite bool_decide_eq_true_2.
  - right; right.
    rewrite H, (date_ltb_asym _ _ H).
    rewrite bool_decide_eq_false_2
      by (intros ->; by rewrite date_ltb_irrefl in H).
    destruct (date_trichotomy due week_end) as [H'|[->|H']].
    + left.
      assert (date_ltb due month_end = true) as Hdm
        by (eapply date_ltb_trans; eauto).
      by rewrite (date_ltb_asym _ _ H'), (date_ltb_asym _ _ Hdm).
    + left. by rewrite date_ltb_irrefl, (date_ltb_asym _ _ Hwm).
    + right. rewrite H'. simpl.
      destruct (date_trichotomy due month_end) as [H''|[->|H'']].
      * left. by rewrite (date_ltb_asym _ _ H'').
      * left. by rewrite date_ltb_irrefl.
      * right. by rewrite H''.
Qed.

(** X24.  The five periods of the payable and receivable reports
    partition the rows: for a valid date [today], whenever the report is
    built, the periods taken together are a rearrangement of the
    queryset, so every row is listed in exactly one period, and the five
    counts and the five totals add up to the grand count and the grand
    total. *)
Theorem aging_periods_partition today queryset r :
  valid_date today ->
  aging_report today queryset = Some r ->
  overdue r ++ due_today r ++ due_this_week r ++ due_this_month r
    ++ due_later r ≡ₚ queryset
  /\ (overdue_count r + today_count r + week_count r + month_count r
      + later_count r = grand_count r)%nat
  /\ overdue_total r + today_total r + week_total r + month_total r
     + later_total r = grand_total r.
Proof.
  intros Hv. unfold aging_report.
  destruct (plus_days today 7) as [week_end|] eqn:Hw; [|done].
  destruct (plus_days today 30) as [month_end|] eqn:Hm; [|done].
  simpl. intros [= <-]. simpl.
  destruct (plus_days_after 7 _ _ Hv Hw) as [Hvw Htw].
  specialize (Htw ltac:(lia)).
  assert (date_ltb week_end month_end = true) as Hwm.
  { change 30%nat with (7 + 23)%nat in Hm.
    rewrite plus_days_add, Hw in Hm. simpl in Hm.
    destruct (plus_days_after 23 _ _ Hvw Hm) as [_ H]. apply H. lia. }
  set (f1 := fun t : Transaction => date_ltb (data_vencimento t) today).
  set (f2 := fun t : Transaction =>
               bool_decide (data_vencimento t = today)).
  set (f3 := fun t : Transaction =>
               date_ltb today (data_vencimento t)
               && date_leb (data_vencimento t) week_end).
  set (f4 := fun t : Transaction =>
               date_ltb week_end (data_vencimento t)
               && date_leb (data_vencimento t) month_end).
  set (f5 := fun t : Transaction =>
               date_ltb month_end (data_vencimento t)).
  assert (forall t,
            (f1 t, f2 t, f3 t, f4 t, f5 t)
            = (true, false, false, false, false)
            \/ (f1 t, f2 t, f3 t, f4 t, f5 t)
               = (false, true, false, false, false)
            \/ (f1 t, f2 t, f3 t, f4 t, f5 t)
               = (false, false, true, false, false)
            \/ (f1 t, f2 t, f3 t, f4 t, f5 t)
               = (false, false, false, true, false)
            \/ (f1 t, f2 t, f3 t, f4 t, f5 t)
               = (false, false, false, false, true)) as Hper
    by (intros t; by apply period_of_due).
  assert (List.filter f1 queryset
            ++ List.filter f2 queryset ++ List.filter f3 queryset
            ++ List.filter f4 queryset ++ List.filter f5 queryset
          ≡ₚ queryset) as Hperm.
  { rewrite (filter_split f4 f5 (fun t => f4 t || f5 t)); [|done|].
    2:{ intros t. destruct (Hper t) as [E|[E|[E|[E|E]]]];
          injection E as _ _ _ -> ->; done. }
    rewrite (filter_split f3 _ (fun t => f3 t || (f4 t || f5 t)));
      [|done|].
    2:{ intros t. destruct (Hper t) as [E|[E|[E|[E|E]]]];
          injection E as _ _ -> -> ->; done. }
    rewrite (filter_split f2 _
               (fun t => f2 t || (f3 t || (f4 t || f5 t)))); [|done|].
    2:{ intros t. destruct (Hper t) as [E|[E|[E|[E|E]]]];
          injection E as _ -> -> -> ->; done. }
    rewrite (filter_split f1 _
               (fun t => f1 t || (f2 t || (f3 t || (f4 t || f5 t)))));
      [|done|].
    2:{ intros t. destruct (Hper t) as [E|[E|[E|[E|E]]]];
          injection E as -> -> -> -> ->; done. }
    rewrite filter_all; [done|].
    intros t. destruct (Hper t) as [E|[E|[E|[E|E]]]];
      injection E as -> -> -> -> ->; done. }
  split; [exact Hperm|]. split.
  - rewrite <- (Permutation_length Hperm), !length_app. lia.
  - unfold total_of.
    rewrite <- (DeletionFacts.sum_perm _ _ (Permutation_map valor Hperm)).
    rewrite !map_app, !BillingFacts.sum_app. lia.
Qed.

Lemma aging_periods_partition_witness :
  exists r,
    aging_report Samples.hoje Samples.parcelas = Some r
    /\ (overdue_count r + today_count r + week_count r + month_count r
        + later_count r = grand_count r)%nat
    /\ overdue_total r + today_total r + week_total r + month_total r
       + later_total r = grand_total r.
Proof.
  assert (valid_date Samples.hoje) as Hv by reflexivity.
  destruct (aging_report Samples.hoje Samples.parcelas) as [r|] eqn:Hr;
    [|vm_compute in Hr; discriminate Hr].
  exists r. split; [reflexivity|].
  destruct (aging_periods_partition _ _ _ Hv Hr) as (_ & H1 & H2).
  split; [exact H1|exact H2].
Defined.

Lemma sum_where_split (f g h : Transaction -> bool) qs :
  (forall x, h x = f x || g x) ->
  (forall x, f x && g x = false) ->
  sum_where h qs = sum_where f qs + sum_where g qs.
Proof.
  intros Hh Hfg. unfold sum_where.
  rewrite <- (DeletionFacts.sum_perm _ _
                (Permutation_map valor (filter_split f g h qs Hh Hfg))).
  by rewrite map_app, BillingFacts.sum_app.
Qed.

Lemma filter_filter_and {A} (f g : A -> bool) (l : list A) :
  List.filter f (List.filter g l) = List.filter (fun x => g x && f x) l.
Proof.
  induction l as [|x l IH]; simpl; [done|].
  destruct (g x); simpl; [|done]. destruct (f x); by rewrite IH.
Qed.

(** X25.  In the statistics of the transaction list the projected
    balance is the income minus the expenses of all rows of the page that
    are not canceled; [total_despesas] counts every such expense, while
    [total_receitas] counts realized income only, so that
    saldo_projetado = total_receitas + receitas_a_receber
    - total_despesas. *)
Theorem list_stats_identities (queryset : list Transaction) :
  let s := list_stats queryset in
  st_saldo_projetado s
  = st_total_receitas s + st_receitas_a_receber s - st_total_despesas s
  /\ st_saldo_projetado s
     = sum_where (fun t => negb (has_status cancelado t)
                           && is_tipo receita t) queryset
       - sum_where (fun t => negb (has_status cancelado t)
                             && is_tipo despesa t) queryset
  /\ st_saldo_atual s
     = st_total_receitas s
       - (st_total_despesas s
          - sum_where (fun t => negb (has_status cancelado t)
                                && (is_tipo despesa t && is_pending t))
                      queryset).
Proof.
  cbv zeta. unfold list_stats. simpl.
  set (qs := List.filter (fun t => negb (has_status cancelado t))
                         queryset).
  assert (forall k,
            sum_where (is_tipo k) qs
            = sum_where (fun t => is_tipo k t && has_status realizado t)
                        qs
              + sum_where (fun t => is_tipo k t && is_pending t) qs)
    as Hsplit.
  { intros k. unfold sum_where, qs. rewrite !filter_filter_and.
    fold (sum_where (fun x => negb (has_status cancelado x)
                              && is_tipo k x) queryset).
    fold (sum_where (fun x => negb (has_status cancelado x)
                              && (is_tipo k x && has_status realizado x))
                    queryset).
    fold (sum_where (fun x => negb (has_status cancelado x)
                              && (is_tipo k x && is_pending x))
                    queryset).
    apply sum_where_split; intros t;
      unfold is_pending, is_tipo, has_status;
      destruct (status t), (bool_decide (tipo t = k)); reflexivity. }
  assert (forall p, sum_where p qs
                    = sum_where (fun t => negb (has_status cancelado t)
                                          && p t) queryset) as Hqs.
  { intros p. unfold sum_where, qs. by rewrite filter_filter_and. }
  pose proof (Hsplit receita) as Hr. pose proof (Hsplit despesa) as Hd.
  rewrite <- !Hqs. split; [lia|]. split; lia.
Qed.

End AgingFacts.

(* ===================================================================== *)
(** ** The daily series of the dashboard ends at the current balance *)
(* ===================================================================== *)

Module DashboardFacts.
Import Calendar Ledger Aging ListStatistics Dashboard DateOrder.
Import CalendarFacts.

Lemma sum_map_ext {A} (F G : A -> Z) (l : list A) :
  (forall x, x ∈ l -> F x = G x) ->
  Money.sum (map F l) = Money.sum (map G l).
Proof.
  induction l as [|x l IH]; intros H; simpl; [done|].
  rewrite H by apply list_elem_of_here.
  rewrite IH; [done|]. intros y Hy. apply H. by apply list_elem_of_further.
Qed.

Lemma sum_map_add {A} (F G : A -> Z) (l : list A) :
  Money.sum (map (fun x => F x + G x) l)
  = Money.sum (map F l) + Money.sum (map G l).
Proof. induction l as [|x l IH]; simpl; lia. Qed.

Lemma sum_map_sub {A} (F G : A -> Z) (l : list A) :
  Money.sum (map (fun x => F x - G x) l)
  = Money.sum (map F l) - Money.sum (map G l).
Proof. induction l as [|x l IH]; simpl; lia. Qed.

Lemma sum_map_filter {A} (q : A -> bool) (F : A -> Z) (l : list A) :
  Money.sum (map F (List.filter q l))
  = Money.sum (map (fun x => if q x then F x else 0) l).
Proof.
  induction l as [|x l IH]; simpl; [done|].
  destruct (q x); simpl; lia.
Qed.

Lemma sum_where_if (p : Transaction -> bool) rows :
  sum_where p rows = sum_if p valor rows.
Proof. unfold sum_where, sum_if. apply sum_map_filter. Qed.

(** *** The aggregated items and the daily map *)

Lemma add_daily_in d k v acc x :
  x ∈ map daily_key (add_daily d k v acc) ->
  x = (d, k) \/ x ∈ map daily_key acc.
Proof.
  induction acc as [|y acc IH]; simpl.
  - intros ->%list_elem_of_singleton. by left.
  - case_bool_decide as E; simpl.
    + intros [->|H]%elem_of_cons; [by left|].
      right. by apply list_elem_of_further.
    + intros [->|H]%elem_of_cons.
      * right. apply list_elem_of_here.
      * destruct (IH H) as [->|H']; [by left|].
        right. by apply list_elem_of_further.
Qed.

Lemma add_daily_nodup d k v acc :
  NoDup (map daily_key acc) ->
  NoDup (map daily_key (add_daily d k v acc)).
Proof.
  induction acc as [|y acc IH]; simpl; intros Hnd.
  - apply NoDup_singleton.
  - apply NoDup_cons in Hnd as [Hy Hnd].
    case_bool_decide as E; simpl.
    + apply NoDup_cons. split; [|done].
      change (daily_key (d, k, y.2 + v)) with (d, k). by rewrite <- E.
    + apply NoDup_cons. split; [|by apply IH].
      intros [H|H]%add_daily_in; done.
Qed.

Lemma add_daily_sum d0 k0 v acc d k :
  item_sum d k (add_daily d0 k0 v acc)
  = item_sum d k acc + (if bool_decide ((d0, k0) = (d, k)) then v else 0).
Proof.
  unfold item_sum.
  destruct (decide ((d0, k0) = (d, k))) as [E|E].
  - rewrite (bool_decide_eq_true_2 _ E). injection E as -> ->.
    induction acc as [|y acc IH]; simpl.
    + rewrite bool_decide_eq_true_2 by done. lia.
    + destruct (decide (daily_key y = (d, k))) as [Ey|Ey].
      * rewrite !(bool_decide_eq_true_2 _ Ey). simpl.
        rewrite ?(bool_decide_eq_true_2 _ Ey).
        rewrite bool_decide_eq_true_2 by done. lia.
      * rewrite !(bool_decide_eq_false_2 _ Ey). simpl.
        rewrite ?(bool_decide_eq_false_2 _ Ey), IH. lia.
  - rewrite (bool_decide_eq_false_2 _ E).
    induction acc as [|y acc IH]; simpl.
    + rewrite bool_decide_eq_false_2 by done. lia.
    + destruct (decide (daily_key y = (d0, k0))) as [Ey|Ey].
      * rewrite (bool_decide_eq_true_2 _ Ey). simpl.
        rewrite (bool_decide_eq_false_2 ((d0, k0) = (d, k))) by done.
        rewrite (bool_decide_eq_false_2 (daily_key y = (d, k)))
          by (by rewrite Ey).
        lia.
      * rewrite (bool_decide_eq_false_2 _ Ey). simpl.
        rewrite IH. lia.
Qed.

Lemma daily_data_spec rows :
  NoDup (map daily_key (daily_data rows))
  /\ forall d k,
       item_sum d k (daily_data rows)
       = Money.sum
           (map (fun t => if bool_decide
                               ((data_vencimento t, tipo t) = (d, k))
                          then valor t else 0) rows).
Proof.
  unfold daily_data.
  assert (forall acc,
            NoDup (map daily_key acc) ->
            NoDup (map daily_key
                     (foldl (fun acc t =>
                               add_daily (data_vencimento t) (tipo t)
                                         (valor t) acc) acc rows))
            /\ forall d k,
                 item_sum d k
                   (foldl (fun acc t =>
                             add_daily (data_vencimento t) (tipo t)
                                       (valor t) acc) acc rows)
                 = item_sum d k acc
                   + Money.sum
                       (map (fun t =>
                               if bool_decide
                                    ((data_vencimento t, tipo t) = (d, k))
                               then valor t else 0) rows)) as Hgen.
  { induction rows as [|t rows IH]; intros acc Hnd; simpl.
    - split; [done|]. intros d k. lia.
    - destruct (IH (add_daily (data_vencimento t) (tipo t) (valor t)
                              acc)) as [H1 H2].
      + by apply add_daily_nodup.
      + split; [done|]. intros d k. rewrite H2, add_daily_sum. lia. }
  destruct (Hgen [] (NoDup_nil_2)) as [H1 H2].
  split; [done|]. intros d k. rewrite H2. unfold item_sum; simpl. lia.
Qed.

Lemma item_sum_absent d k items :
  (d, k) ∉ map daily_key items -> item_sum d k items = 0.
Proof.
  unfold item_sum. induction items as [|x items IH]; simpl; [done|].
  intros H. apply not_elem_of_cons in H as [Hx H].
  rewrite bool_decide_eq_false_2 by done. rewrite IH by done. lia.
Qed.

Lemma item_sum_app d k l1 l2 :
  item_sum d k (l1 ++ l2) = item_sum d k l1 + item_sum d k l2.
Proof. unfold item_sum. by rewrite map_app, BillingFacts.sum_app. Qed.

Lemma date_key_inj (a b : date) : date_key a = date_key b -> a = b.
Proof. destruct a, b; unfold date_key; simpl. by intros [= -> -> ->]. Qed.

Lemma map_entry_step m (x : DailyItem) d k :
  map_entry (daily_map_step m x) d k
  = if bool_decide (daily_key x = (d, k)) then x.2 else map_entry m d k.
Proof.
  destruct x as [[d0 k0] v]. unfold map_entry, daily_map_step, daily_key.
  simpl.
  destruct (decide (d0 = d)) as [->|Hd].
  - rewrite lookup_insert_eq.
    destruct (decide (k0 = k)) as [->|Hk].
    + rewrite bool_decide_eq_true_2 by done. by destruct k.
    + rewrite bool_decide_eq_false_2 by congruence.
      destruct (m !! date_key d) as [[r e]|]; simpl;
        destruct k0, k; done.
  - rewrite bool_decide_eq_false_2 by congruence.
    rewrite lookup_insert_ne; [done|].
    intros H. by apply date_key_inj in H.
Qed.

Lemma map_entry_spec items d k :
  NoDup (map daily_key items) ->
  map_entry (daily_map_of items) d k = item_sum d k items.
Proof.
  unfold daily_map_of.
  induction items as [|x items IH] using rev_ind; intros Hnd.
  - unfold map_entry, item_sum; simpl. by rewrite lookup_empty.
  - rewrite foldl_app. simpl. rewrite map_entry_step, item_sum_app.
    rewrite map_app in Hnd. apply NoDup_app in Hnd as (Hnd & Hx & _).
    rewrite IH by done.
    change (item_sum d k [x])
      with ((if bool_decide (daily_key x = (d, k)) then x.2 else 0) + 0).
    case_bool_decide as E; [|lia].
    rewrite item_sum_absent; [lia|].
    intros Hin. apply (Hx _ Hin). rewrite <- E. apply list_elem_of_here.
Qed.

(** The net amount the loop reads for a day is the signed total of the
    rows due on that day. *)
Lemma daily_net rows d :
  match daily_map_of (daily_data rows) !! date_key d with
  | Some entry => entry.1 - entry.2
  | None => 0
  end
  = Money.sum (map (fun t => if bool_decide (data_vencimento t = d)
                             then signed_valor t else 0) rows).
Proof.
  destruct (daily_data_spec rows) as [Hnd Hsum].
  pose proof (map_entry_spec _ d receita Hnd) as Hr.
  pose proof (map_entry_spec _ d despesa Hnd) as He.
  rewrite Hsum in Hr, He. unfold map_entry in Hr, He.
  transitivity
    (Money.sum
       (map (fun t => if bool_decide
                           ((data_vencimento t, tipo t) = (d, receita))
                      then valor t else 0) rows)
     - Money.sum
         (map (fun t => if bool_decide
                             ((data_vencimento t, tipo t) = (d, despesa))
                        then valor t else 0) rows)).
  { rewrite <- Hr, <- He.
    by destruct (daily_map_of (daily_data rows) !! date_key d). }
  rewrite <- sum_map_sub. apply sum_map_ext. intros t _.
  unfold signed_valor.
  destruct (decide (data_vencimento t = d)) as [->|Hne].
  - rewrite (bool_decide_eq_true_2 (d = d)) by done.
    destruct (tipo t).
    + rewrite bool_decide_eq_true_2, bool_decide_eq_false_2 by done. lia.
    + rewrite bool_decide_eq_false_2, bool_decide_eq_true_2 by done. lia.
  - rewrite !bool_decide_eq_false_2 by congruence. lia.
Qed.

(** *** The loop over the days *)

Lemma valid_fields (d : date) :
  valid_date d ->
  1 <= year d <= 9999 /\ 1 <= month d <= 12
  /\ 1 <= day d <= days_in_month (year d) (month d)
  /\ days_in_month (year d) (month d) <= 31.
Proof.
  intros (Hy & Hm & Hd)%valid_dateb_spec.
  pose proof (days_in_month_bounds (year d) (month d)).
  unfold MINYEAR, MAXYEAR in *. lia.
Qed.

Lemma day_rank_leb (a b : date) :
  valid_date a -> valid_date b -> date_leb a b = true ->
  day_rank a <= day_rank b.
Proof.
  intros Ha%valid_fields Hb%valid_fields H. unfold date_leb in H.
  apply negb_true_iff, date_ltb_false in H. unfold day_rank. lia.
Qed.

Lemma plus_one_day_rank (d d' : date) :
  valid_date d -> plus_one_day d = Some d' ->
  day_rank d + 1 <= day_rank d'.
Proof.
  intros Hv%valid_fields. unfold plus_one_day, day_rank.
  destruct (Z.ltb_spec (day d) (days_in_month (year d) (month d))).
  { intros [= <-]; simpl. lia. }
  destruct (Z.ltb_spec (month d) 12).
  { intros [= <-]; simpl. lia. }
  unfold py_date. destruct (valid_dateb _); [|done].
  intros [= <-]; simpl. lia.
Qed.

(** No date lies strictly between a day and the next. *)
Lemma plus_one_day_succ (current next due : date) :
  valid_date current -> valid_date due ->
  plus_one_day current = Some next ->
  date_ltb current due = date_leb next due.
Proof.
  intros Hc%valid_fields Hd%valid_fields. unfold plus_one_day, date_leb.
  assert (year due = year current -> month due = month current ->
          days_in_month (year due) (month due)
          = days_in_month (year current) (month current)) as Hdim
    by (by intros -> ->).
  assert (forall x y : date,
            (date_ltb current due = true <-> date_ltb x y = false) ->
            date_ltb current due = negb (date_ltb x y)) as Hbool.
  { intros x y H. destruct (date_ltb current due), (date_ltb x y);
      simpl; try done.
    - by destruct H as [H _]; specialize (H eq_refl).
    - by destruct H as [_ H]; specialize (H eq_refl). }
  destruct (Z.ltb_spec (day current)
                       (days_in_month (year current) (month current))).
  { intros [= <-]. apply Hbool.
    rewrite date_ltb_spec, date_ltb_false; simpl. lia. }
  destruct (Z.ltb_spec (month current) 12).
  { intros [= <-]. apply Hbool.
    rewrite date_ltb_spec, date_ltb_false; simpl. lia. }
  unfold py_date. destruct (valid_dateb _); [|done].
  intros [= <-]. apply Hbool.
  rewrite date_ltb_spec, date_ltb_false; simpl. lia.
Qed.

Lemma plus_one_day_last (c e : date) :
  valid_date c -> valid_date e -> date_leb c e = true ->
  plus_one_day c = None -> plus_one_day e = None.
Proof.
  intros Hc He Hle Hn.
  assert (c = Date 9999 12 31) as ->.
  { pose proof (valid_fields _ Hc) as Hf. unfold plus_one_day in Hn.
    destruct (Z.ltb_spec (day c) (days_in_month (year c) (month c)));
      [done|].
    destruct (Z.ltb_spec (month c) 12); [done|].
    unfold py_date, valid_dateb, MINYEAR, MAXYEAR in Hn. simpl in Hn.
    destruct (Z.leb_spec (year c + 1) 9999).
    - destruct (Z.leb_spec 1 (year c + 1)); [done|lia].
    - destruct c as [y m d]; simpl in *.
      assert (y = 9999) as -> by lia. assert (m = 12) as -> by lia.
      assert (d = 31) as -> by (change (days_in_month 9999 12) with 31
                                  in *; lia).
      done. }
  assert (e = Date 9999 12 31) as ->; [|done].
  pose proof (valid_fields _ He) as Hf.
  unfold date_leb in Hle. apply negb_true_iff, date_ltb_false in Hle.
  simpl in Hle. destruct e as [y m d]; simpl in *.
  assert (y = 9999) as -> by lia. assert (m = 12) as -> by lia.
  change (days_in_month 9999 12) with 31 in *.
  assert (d = 31) as -> by lia. done.
Qed.

Lemma last_cons {A} (x d : A) (l : list A) :
  List.last (x :: l) d = List.last l x.
Proof.
  revert x d. induction l as [|y l IH]; intros x d; [done|].
  change (List.last (x :: y :: l) d) with (List.last (y :: l) d).
  by rewrite (IH y d), (IH y x).
Qed.

Section SeriesFacts.
Variable F : Type.
Variable to_float : Z -> F.

Lemma cashflow_loop_spec rows end_date :
  valid_date end_date -> plus_one_day end_date <> None ->
  (forall t, t ∈ rows -> valid_date (data_vencimento t)) ->
  forall fuel current running,
    valid_date current ->
    day_rank end_date - day_rank current + 1 <= Z.of_nat fuel ->
    exists series,
      cashflow_loop to_float fuel (daily_map_of (daily_data rows)) current
                    end_date running = Some series
      /\ List.last series (to_float running)
         = to_float
             (running
              + Money.sum (map (fun t => if in_range current end_date t
                                         then signed_valor t else 0)
                               rows))
      /\ (date_leb current end_date = true -> series <> []).
Proof.
  intros He Hmax Hrows.
  assert (forall current,
            date_leb current end_date = false ->
            Money.sum (map (fun t => if in_range current end_date t
                                     then signed_valor t else 0) rows)
            = 0) as Hempty.
  { intros current Hle. rewrite (sum_map_ext _ (fun _ => 0)).
    - by rewrite BillingFacts.sum_zero.
    - intros t _. unfold in_range.
      destruct (date_leb current (data_vencimento t)) eqn:H1; [|done].
      destruct (date_leb (data_vencimento t) end_date) eqn:H2; [|done].
      exfalso. unfold date_leb in *.
      apply negb_true_iff in H1, H2. apply negb_false_iff in Hle.
      destruct (date_trichotomy current (data_vencimento t))
        as [H|[H|H]].
      + destruct (date_trichotomy (data_vencimento t) end_date)
          as [H'|[H'|H']]; [| |congruence].
        * pose proof (date_ltb_trans _ _ _ H H') as H3.
          pose proof (date_ltb_asym _ _ H3). congruence.
        * rewrite H' in H. pose proof (date_ltb_asym _ _ H).
          congruence.
      + rewrite <- H in H2. congruence.
      + congruence. }
  induction fuel as [|fuel IH]; intros current running Hc Hfuel.
  - simpl. destruct (date_leb current end_date) eqn:Hle.
    + pose proof (day_rank_leb _ _ Hc He Hle). lia.
    + exists []. split; [done|]. split; [|done]. simpl.
      rewrite (Hempty _ Hle). f_equal. lia.
  - cbn [cashflow_loop].
    destruct (date_leb current end_date) eqn:Hle.
    2:{ exists []. split; [done|]. split; [|done]. simpl.
        rewrite (Hempty _ Hle). f_equal. lia. }
    destruct (plus_one_day current) as [next|] eqn:Hnext.
    2:{ destruct Hmax. by apply (plus_one_day_last current). }
    destruct (plus_one_day_after _ _ Hc Hnext) as [Hvn Hlt].
    pose proof (plus_one_day_rank _ _ Hc Hnext) as Hrank.
    rewrite daily_net. simpl.
    destruct (IH next
                (running
                 + Money.sum
                     (map (fun t =>
                             if bool_decide (data_vencimento t = current)
                             then signed_valor t else 0) rows))
                Hvn ltac:(lia)) as (rest & -> & Hlast & _).
    simpl. eexists. split; [reflexivity|]. split; [|done].
    rewrite last_cons, Hlast, <- Z.add_assoc. do 2 f_equal.
    rewrite <- sum_map_add. apply sum_map_ext. intros t Ht.
    unfold in_range.
    rewrite <- (plus_one_day_succ current next (data_vencimento t) Hc
                  (Hrows t Ht) Hnext).
    destruct (decide (data_vencimento t = current)) as [->|Hne].
    + rewrite bool_decide_eq_true_2 by done.
      rewrite Hle. unfold date_leb. rewrite !date_ltb_irrefl. simpl. lia.
    + rewrite bool_decide_eq_false_2 by done.
      destruct (date_leb (data_vencimento t) end_date); [|
        by rewrite !andb_false_r].
      rewrite !andb_true_r. unfold date_leb.
      destruct (date_trichotomy current (data_vencimento t))
        as [H|[H|H]]; [|congruence|].
      * rewrite H, (date_ltb_asym _ _ H). simpl. lia.
      * rewrite H, (date_ltb_asym _ _ H). simpl. lia.
Qed.

(** X26.  The daily cash-flow series of the dashboard ends at the
    current-balance KPI: for a valid period with start <= end that does
    not end on 9999-12-31 and valid stored due dates, the view builds a
    non-empty series whose last value is the conversion to [float] of
    [saldo_atual] - the opening balances plus the realized income minus
    the realized expenses due up to the end date - whatever the
    conversion is. *)
Theorem dashboard_series_ends_at_saldo_atual qs accounts_qs
        start_date end_date :
  valid_date start_date -> valid_date end_date ->
  date_leb start_date end_date = true ->
  plus_one_day end_date <> None ->
  Forall (fun t => valid_date (data_vencimento t)) qs ->
  exists b,
    dashboard_balance to_float qs accounts_qs start_date end_date = Some b
    /\ cashflow_series b <> []
    /\ List.last (cashflow_series b) (to_float 0)
       = to_float (kpi_saldo_atual b)
    /\ kpi_saldo_atual b
       = kpi_saldo_inicial_total b
         + sum_if (fun t => has_status realizado t
                            && date_leb (data_vencimento t) end_date)
                  signed_valor qs.
Proof.
  intros Hs He Hle Hmax Hqs. rewrite Forall_forall in Hqs.
  unfold dashboard_balance.
  set (P := List.filter (has_status realizado)
              (List.filter (in_range start_date end_date) qs)).
  set (s0 := Money.sum (map saldo_inicial accounts_qs)).
  set (run0 :=
         s0
         + sum_where (is_tipo receita)
             (List.filter (fun t => has_status realizado t
                                    && date_ltb (data_vencimento t)
                                                start_date) qs)
         - sum_where (is_tipo despesa)
             (List.filter (fun t => has_status realizado t
                                    && date_ltb (data_vencimento t)
                                                start_date) qs)).
  destruct (cashflow_loop_spec P end_date He Hmax) with
    (fuel := Z.to_nat (day_rank end_date - day_rank start_date + 1))
    (current := start_date) (running := run0)
    as (series & Hloop & Hlast & Hne); [|done| |].
  { intros t Ht. apply Hqs. subst P.
    apply list_elem_of_In, filter_In in Ht as [Ht _].
    apply filter_In in Ht as [Ht _]. by apply list_elem_of_In. }
  { pose proof (day_rank_leb _ _ Hs He Hle). lia. }
  rewrite Hloop. simpl. eexists. split; [reflexivity|]. simpl.
  assert (forall k,
            sum_where (is_tipo k)
              (List.filter (fun t => has_status realizado t
                                     && date_leb (data_vencimento t)
                                                 end_date) qs)
            = Money.sum
                (map (fun t =>
                        if has_status realizado t
                           && date_leb (data_vencimento t) end_date
                        then if is_tipo k t then valor t else 0
                        else 0) qs)) as Huntil.
  { intros k. unfold sum_where.
    rewrite sum_map_filter, sum_map_filter. done. }
  assert (forall k,
            sum_where (is_tipo k)
              (List.filter (fun t => has_status realizado t
                                     && date_ltb (data_vencimento t)
                                                 start_date) qs)
            = Money.sum
                (map (fun t =>
                        if has_status realizado t
                           && date_ltb (data_vencimento t) start_date
                        then if is_tipo k t then valor t else 0
                        else 0) qs)) as Hbefore.
  { intros k. unfold sum_where.
    rewrite sum_map_filter, sum_map_filter. done. }
  assert (forall t, (if is_tipo receita t then valor t else 0)
                    - (if is_tipo despesa t then valor t else 0)
                    = signed_valor t) as Hsigned.
  { intros t. unfold is_tipo, signed_valor.
    destruct (tipo t); simpl; lia. }
  assert (s0
          + sum_where (is_tipo receita)
              (List.filter (fun t => has_status realizado t
                                     && date_leb (data_vencimento t)
                                                 end_date) qs)
          - sum_where (is_tipo despesa)
              (List.filter (fun t => has_status realizado t
                                     && date_leb (data_vencimento t)
                                                 end_date) qs)
          = s0 + sum_if (fun t => has_status realizado t
                                  && date_leb (data_vencimento t)
                                              end_date)
                        signed_valor qs) as Hatual.
  { rewrite !Huntil. unfold sum_if.
    rewrite <- Z.add_sub_assoc, <- sum_map_sub. f_equal.
    apply sum_map_ext. intros t _. rewrite <- Hsigned.
    destruct (has_status realizado t
              && date_leb (data_vencimento t) end_date); lia. }
  split; [by apply Hne|]. split; [|exact Hatual].
  rewrite Hatual.
  assert (List.last series (to_float 0)
          = List.last series (to_float run0)) as ->.
  { destruct series as [|x series]; [by destruct (Hne Hle)|].
    by rewrite !last_cons. }
  rewrite Hlast. f_equal. subst run0. rewrite !Hbefore.
  rewrite <- Z.add_sub_assoc, <- sum_map_sub, <- Z.add_assoc. f_equal.
  subst P. rewrite !sum_map_filter. unfold sum_if.
  rewrite <- sum_map_add. apply sum_map_ext. intros t _.
  rewrite <- Hsigned. unfold in_range, date_leb.
  destruct (has_status realizado t); simpl; [|by repeat case_match].
  destruct (date_trichotomy (data_vencimento t) start_date)
    as [H|[H|H]].
  - rewrite H. simpl.
    pose proof (Lifecycle.date_ltb_leb_trans _ _ _ H Hle) as H'.
    rewrite (date_ltb_asym _ _ H'). simpl. lia.
  - rewrite H, date_ltb_irrefl. simpl.
    unfold date_leb in Hle. rewrite Hle. lia.
  - rewrite (date_ltb_asym _ _ H). simpl.
    destruct (date_ltb end_date (data_vencimento t)); simpl; lia.
Qed.

End SeriesFacts.

Lemma dashboard_series_ends_at_saldo_atual_witness :
  exists b,
    dashboard_balance cents_value
      (Services.transactions Samples.db_cash)
      (Services.accounts Samples.db_cash) (Date 2026 1 1) (Date 2026 2 28)
    = Some b
    /\ cashflow_series b <> []
    /\ List.last (cashflow_series b) (cents_value 0)
       = cents_value (kpi_saldo_atual b).
Proof.
  assert (valid_date (Date 2026 1 1)) as H1 by reflexivity.
  assert (valid_date (Date 2026 2 28)) as H2 by reflexivity.
  assert (date_leb (Date 2026 1 1) (Date 2026 2 28) = true) as H3
    by reflexivity.
  assert (plus_one_day (Date 2026 2 28) <> None) as H4 by done.
  assert (Forall (fun t => valid_date (data_vencimento t))
                 (Services.transactions Samples.db_cash)) as H5
    by (repeat constructor).
  destruct (dashboard_series_ends_at_saldo_atual _ cents_value
              (Services.transactions Samples.db_cash)
              (Services.accounts Samples.db_cash)
              (Date 2026 1 1) (Date 2026 2 28) H1 H2 H3 H4 H5)
    as (b & Hb & Hne & Hlast & _).
  exists b. auto.
Defined.

End DashboardFacts.

(* ===================================================================== *)
(** ** The cash-flow sheet counts every reported row once *)
(* ===================================================================== *)

Module CashflowFacts.
Import Calendar CalendarHelpers Ledger Services ReportTotals CashTotals.
Import CalendarFacts DreFacts.

Lemma cash_aggregates_fold qs f :
  cash_aggregates qs f
  = foldl (fun acc t => add_cash_item (cash_item_of f t) acc) [] qs.
Proof. reflexivity. Qed.

Lemma same_cash_key_spec x y :
  same_cash_key x y = true <-> cash_key x = cash_key y.
Proof.
  unfold same_cash_key, cash_key. rewrite bool_decide_eq_true.
  split.
  - by intros (-> & -> & -> & ->).
  - by intros [= -> -> -> ->].
Qed.

Lemma add_cash_item_in x acc k :
  k ∈ map cash_key (add_cash_item x acc) ->
  k = cash_key x \/ k ∈ map cash_key acc.
Proof.
  induction acc as [|y acc IH]; simpl.
  - intros ->%list_elem_of_singleton. by left.
  - destruct (same_cash_key x y) eqn:E; simpl.
    + intros [->|H]%elem_of_cons.
      * right. apply list_elem_of_here.
      * right. by apply list_elem_of_further.
    + intros [->|H]%elem_of_cons.
      * right. apply list_elem_of_here.
      * destruct (IH H) as [->|H']; [by left|].
        right. by apply list_elem_of_further.
Qed.

Lemma add_cash_item_nodup x acc :
  NoDup (map cash_key acc) -> NoDup (map cash_key (add_cash_item x acc)).
Proof.
  induction acc as [|y acc IH]; simpl; intros Hnd.
  - apply NoDup_singleton.
  - apply NoDup_cons in Hnd as [Hy Hnd].
    destruct (same_cash_key x y) eqn:E; simpl.
    + apply NoDup_cons. by split.
    + apply NoDup_cons. split; [|by apply IH].
      intros [H|H]%add_cash_item_in; [|done].
      symmetry in H. apply same_cash_key_spec in H. congruence.
Qed.

Lemma add_cash_item_total k x acc :
  cash_items_total k (add_cash_item x acc)
  = cash_items_total k acc
    + (if bool_decide (ci_tipo x = k) then ci_total x else 0).
Proof.
  unfold cash_items_total.
  induction acc as [|y acc IH]; simpl; [lia|].
  destruct (same_cash_key x y) eqn:E; simpl.
  - apply same_cash_key_spec in E. injection E as E _ _ _. rewrite E.
    destruct (bool_decide (ci_tipo y = k)); lia.
  - rewrite IH. lia.
Qed.

Lemma add_cash_item_Forall (Q : CashItem -> Prop) x acc :
  (forall a b, cash_key a = cash_key b -> Q a -> Q b) ->
  Q x -> Forall Q acc -> Forall Q (add_cash_item x acc).
Proof.
  intros Hresp Hx. induction 1 as [|y acc Hy Hacc IH]; simpl.
  - by repeat constructor.
  - destruct (same_cash_key x y); constructor; auto.
    by apply (Hresp y).
Qed.

Lemma cash_aggregates_spec (Q : CashItem -> Prop) qs f :
  (forall a b, cash_key a = cash_key b -> Q a -> Q b) ->
  (forall t, t ∈ qs -> Q (cash_item_of f t)) ->
  Forall Q (cash_aggregates qs f)
  /\ NoDup (map cash_key (cash_aggregates qs f))
  /\ forall k, cash_items_total k (cash_aggregates qs f)
               = rows_total k qs.
Proof.
  intros Hresp. rewrite cash_aggregates_fold.
  assert (forall acc,
            (forall t, t ∈ qs -> Q (cash_item_of f t)) ->
            Forall Q acc -> NoDup (map cash_key acc) ->
            Forall Q (foldl (fun acc t =>
                               add_cash_item (cash_item_of f t) acc)
                            acc qs)
            /\ NoDup (map cash_key
                        (foldl (fun acc t =>
                                  add_cash_item (cash_item_of f t) acc)
                               acc qs))
            /\ forall k,
                 cash_items_total k
                   (foldl (fun acc t =>
                             add_cash_item (cash_item_of f t) acc)
                          acc qs)
                 = cash_items_total k acc + rows_total k qs) as Hgen.
  { induction qs as [|t qs IH]; intros acc HQ Hacc Hnd; simpl.
    - split; [done|]. split; [done|]. intros k.
      unfold rows_total; simpl. lia.
    - destruct (IH (add_cash_item (cash_item_of f t) acc))
        as (H1 & H2 & H3).
      + intros t' Ht'. apply HQ. by apply list_elem_of_further.
      + apply add_cash_item_Forall; [done| |done].
        apply HQ. apply list_elem_of_here.
      + by apply add_cash_item_nodup.
      + split; [done|]. split; [done|]. intros k.
        rewrite H3, add_cash_item_total. unfold rows_total; simpl.
        unfold cash_item_of; simpl. lia. }
  intros HQ.
  destruct (Hgen [] HQ (List.Forall_nil _) NoDup_nil_2) as (H1 & H2 & H3).
  split; [done|]. split; [done|]. intros k. rewrite H3.
  unfold cash_items_total; simpl. lia.
Qed.

Lemma month_index_lookup (months : list date) k idx :
  month_index_of months !! k = Some idx ->
  exists d, months !! idx = Some d /\ month_key d = k.
Proof.
  revert idx. induction months as [|d l IH] using rev_ind; intros idx.
  - unfold month_index_of; simpl. by rewrite lookup_empty.
  - rewrite month_index_snoc.
    intros [[<- <-]|[_ H]]%lookup_insert_Some.
    + exists d. split; [|done].
      rewrite lookup_app_r by done. by rewrite Nat.sub_diag.
    + destruct (IH _ H) as (d' & Hd' & Hk). exists d'. split; [|done].
      by apply lookup_app_l_Some.
Qed.

(** *** The rows dictionary *)

Lemma rows_get_set rk r rows rk' :
  rows_get rk' (rows_set rk r rows)
  = if bool_decide (rk' = rk) then Some r else rows_get rk' rows.
Proof.
  induction rows as [|[k0 r0] rows IH]; simpl.
  - destruct (decide (rk' = rk)) as [->|Hne].
    + by rewrite !bool_decide_eq_true_2.
    + rewrite !bool_decide_eq_false_2 by congruence. done.
  - destruct (decide (k0 = rk)) as [->|Hk].
    + rewrite (bool_decide_eq_true_2 (rk = rk)) by done. simpl.
      destruct (decide (rk' = rk)) as [->|Hne].
      * by rewrite !bool_decide_eq_true_2.
      * rewrite !bool_decide_eq_false_2 by congruence. done.
    + rewrite (bool_decide_eq_false_2 (k0 = rk)) by done. simpl.
      rewrite IH.
      destruct (decide (k0 = rk')) as [->|Hk'].
      * rewrite (bool_decide_eq_true_2 (rk' = rk')) by done.
        rewrite (bool_decide_eq_false_2 (rk' = rk)) by done. done.
      * rewrite (bool_decide_eq_false_2 (k0 = rk')) by done. done.
Qed.

Lemma rows_get_elem rk r rows :
  rows_get rk rows = Some r -> (rk, r) ∈ rows.
Proof.
  induction rows as [|[k0 r0] rows IH]; simpl; [done|].
  case_bool_decide as E.
  - intros [= <-]. subst. apply list_elem_of_here.
  - intros H. apply list_elem_of_further. by apply IH.
Qed.

Lemma rows_set_Forall (P : (Tipo * nat) * Row -> Prop) rk r rows :
  P (rk, r) -> Forall P rows -> Forall P (rows_set rk r rows).
Proof.
  intros Hr. induction 1 as [|[k0 r0] rows H0 Hrows IH]; simpl.
  - by repeat constructor.
  - case_bool_decide as E; constructor; auto. by subst.
Qed.

Lemma rows_set_total k rk r rows :
  rows_of_kind_total k (rows_set rk r rows)
  = rows_of_kind_total k rows
    - match rows_get rk rows with
      | Some r0 => row_contribution k r0
      | None => 0
      end
    + row_contribution k r.
Proof.
  unfold rows_of_kind_total.
  induction rows as [|[k0 r0] rows IH]; simpl; [lia|].
  case_bool_decide as E; simpl; [lia|]. rewrite IH. lia.
Qed.

Lemma insert_sum (idx : nat) (v v0 : Z) (l : list Z) :
  l !! idx = Some v0 ->
  Money.sum (<[idx := v]> l) = Money.sum l - v0 + v.
Proof.
  revert idx. induction l as [|x l IH]; intros [|idx]; simpl; try done.
  - intros [= ->]. lia.
  - intros H. change (list_insert idx v l) with (<[idx := v]> l).
    rewrite (IH _ H). lia.
Qed.

Section Sheet.
Variable months : list date.

Lemma sheet_step rows seen x :
  sheet_inv months rows seen -> on_sheet months x ->
  (forall y, y ∈ seen -> cell_key y <> cell_key x) ->
  exists rows',
    cash_step months (month_index_of months) (Some rows) x = Some rows'
    /\ sheet_inv months rows' (seen ++ [x]).
Proof.
  intros (I1 & I2 & I3) (m & idx & Hm & Hday & Hidx) Hfresh.
  unfold cash_step. simpl. rewrite Hm. simpl. rewrite Hidx.
  set (rk := (ci_tipo x, ci_category_id x)).
  set (fresh := {| row_tipo := ci_tipo x;
                   row_category_id := ci_category_id x;
                   row_category_name := ci_category_nome x;
                   values_list := map (fun _ => 0) months;
                   row_total := 0 |}).
  set (row0 := default fresh (rows_get rk rows)).
  pose proof (month_index_bound _ _ _ Hidx) as Hlt.
  assert (row_tipo row0 = ci_tipo x
          /\ length (values_list row0) = length months) as [Ht0 Hl0].
  { subst row0. destruct (rows_get rk rows) as [r|] eqn:Hg; simpl.
    - apply rows_get_elem in Hg. rewrite Forall_forall in I1.
      by destruct (I1 _ Hg).
    - by rewrite length_map. }
  assert (values_list row0 !! idx = Some 0) as Hcell.
  { assert (is_Some (values_list row0 !! idx)) as [v Hv]
      by (apply lookup_lt_is_Some; lia).
    rewrite Hv. f_equal.
    destruct (decide (v = 0)) as [->|Hv0]; [done|]. exfalso.
    subst row0. destruct (rows_get rk rows) as [r|] eqn:Hg; simpl in Hv.
    - destruct (I3 rk r idx v Hg Hv Hv0)
        as (y & my & Hy & Hrk & Hmy & Hdy & Hiy).
      apply (Hfresh y Hy).
      destruct (month_index_lookup _ _ _ Hidx) as (d1 & Hd1 & Hk1).
      destruct (month_index_lookup _ _ _ Hiy) as (d2 & Hd2 & Hk2).
      rewrite Hd1 in Hd2. injection Hd2 as <-.
      assert (my = m) as ->.
      { destruct my as [y1 m1 dd1], m as [y2 m2 dd2].
        unfold month_key in *; simpl in *. congruence. }
      unfold cell_key. injection Hrk as -> ->. by rewrite Hmy, Hm.
    - apply list_lookup_fmap_Some in Hv as (d & -> & _). done. }
  eexists. split; [reflexivity|].
  set (row' := set_values (<[idx := ci_total x]> (values_list row0))
                          row0).
  assert (forall k',
            row_contribution k' row'
            = row_contribution k' row0
              + (if bool_decide (ci_tipo x = k') then ci_total x else 0))
    as Hcontrib.
  { intros k'. unfold row_contribution, row'; simpl. rewrite Ht0.
    rewrite (insert_sum _ _ 0) by done.
    destruct (bool_decide (ci_tipo x = k')); lia. }
  split; [|split].
  - apply rows_set_Forall; [|done]. simpl. split; [done|].
    by rewrite length_insert.
  - intros k. rewrite rows_set_total, Hcontrib, I2.
    unfold cash_items_total at 2. rewrite map_app, BillingFacts.sum_app.
    fold (cash_items_total k seen). simpl.
    subst row0. destruct (rows_get rk rows) as [r|]; simpl; [lia|].
    unfold row_contribution, fresh; simpl.
    rewrite (BillingFacts.sum_zero (fun _ => 0)) by done.
    destruct (bool_decide (ci_tipo x = k)); lia.
  - intros rk' row idx' v Hg Hv Hv0. rewrite rows_get_set in Hg.
    case_bool_decide as E.
    + injection Hg as <-. subst rk'. simpl in Hv.
      destruct (decide (idx' = idx)) as [->|Hne].
      * exists x, m. split; [apply elem_of_app; right;
                              apply list_elem_of_here|]. done.
      * rewrite list_lookup_insert_ne in Hv by done.
        subst row0. destruct (rows_get rk rows) as [r|] eqn:Hg;
          simpl in Hv.
        -- destruct (I3 rk r idx' v Hg Hv Hv0) as (y & my & Hy & H).
           exists y, my. split; [apply elem_of_app; by left|done].
        -- apply list_lookup_fmap_Some in Hv as (d & -> & _). done.
    + destruct (I3 rk' row idx' v Hg Hv Hv0) as (y & my & Hy & H).
      exists y, my. split; [apply elem_of_app; by left|done].
Qed.

Lemma sheet_fold items :
  forall rows seen,
    sheet_inv months rows seen -> Forall (on_sheet months) items ->
    NoDup (map cell_key (seen ++ items)) ->
    exists rows',
      foldl (cash_step months (month_index_of months)) (Some rows) items
      = Some rows'
      /\ sheet_inv months rows' (seen ++ items).
Proof.
  induction items as [|x items IH]; intros rows seen Hinv Hon Hnd.
  - exists rows. split; [done|]. by rewrite app_nil_r.
  - apply Forall_cons in Hon as [Hx Hon].
    destruct (sheet_step rows seen x Hinv Hx) as (rows1 & Hstep & Hinv1).
    { intros y Hy Heq. rewrite map_app in Hnd.
      apply NoDup_app in Hnd as (_ & Hdis & _).
      apply (Hdis (cell_key y)).
      - apply list_elem_of_fmap. by exists y.
      - simpl. rewrite Heq. apply list_elem_of_here. }
    cbn [foldl]. rewrite Hstep.
    destruct (IH rows1 (seen ++ [x]) Hinv1 Hon) as (rows' & Hf & Hinv').
    { by rewrite <- app_assoc. }
    exists rows'. split; [done|]. by rewrite <- app_assoc in Hinv'.
Qed.

End Sheet.

(** *** Sorting and adding up the rows *)

Lemma insert_row_perm r sorted : insert_row r sorted ≡ₚ r :: sorted.
Proof.
  induction sorted as [|x rest IH]; simpl; [done|].
  destruct (String.ltb _ _); [done|].
  rewrite IH. apply Permutation_swap.
Qed.

Lemma sort_rows_perm l : sort_rows l ≡ₚ l.
Proof.
  unfold sort_rows.
  assert (forall acc, foldl (fun acc r => insert_row r acc) acc l
                      ≡ₚ l ++ acc) as Hgen.
  { induction l as [|r l IH]; intros acc; simpl; [done|].
    rewrite IH, insert_row_perm. by rewrite Permutation_middle. }
  by rewrite Hgen, app_nil_r.
Qed.

Lemma add_row_sum totals row :
  (length (values_list row) <= length totals)%nat ->
  Money.sum (add_row totals row)
  = Money.sum totals + Money.sum (values_list row)
  /\ length (add_row totals row) = length totals.
Proof.
  unfold add_row.
  induction (values_list row) as [|v vs IH] using rev_ind; intros Hlen.
  - simpl. split; [lia|done].
  - rewrite length_app in Hlen. simpl in Hlen.
    rewrite imap_app, foldl_app. simpl. rewrite Nat.add_0_r.
    destruct IH as [IH1 IH2]; [lia|].
    rewrite length_alter, alter_sum by lia.
    rewrite IH1, IH2, BillingFacts.sum_app. simpl. split; lia.
Qed.

Lemma add_rows_sum rs :
  forall totals,
    Forall (fun r => length (values_list r) = length totals) rs ->
    Money.sum (foldl add_row totals rs)
    = Money.sum totals
      + Money.sum (map (fun r => Money.sum (values_list r)) rs)
    /\ length (foldl add_row totals rs) = length totals.
Proof.
  induction rs as [|r rs IH]; intros totals Hrs; simpl.
  - split; [lia|done].
  - apply Forall_cons in Hrs as [Hr Hrs].
    destruct (add_row_sum totals r) as [H1 H2]; [lia|].
    destruct (IH (add_row totals r)) as [H3 H4].
    { eapply Forall_impl; [exact Hrs|]. intros r' Hr'. simpl in Hr'.
      by rewrite H2. }
    rewrite H3, H4, H1, H2. split; lia.
Qed.

Lemma sum_filter_tipo (P : Row -> Prop) `{forall r, Decision (P r)}
      (rows : list Row) :
  Money.sum (map (fun r => Money.sum (values_list r)) (filter P rows))
  = Money.sum (map (fun r => if bool_decide (P r)
                             then Money.sum (values_list r) else 0)
                   rows).
Proof.
  induction rows as [|r rows IH]; simpl; [done|].
  rewrite filter_cons. case_bool_decide as E.
  - rewrite decide_True by done. simpl. by rewrite IH.
  - rewrite decide_False by done. rewrite IH. lia.
Qed.

(** X27.  The cash-flow sheet counts every reported row exactly once:
    when a category id stands for one category name, for valid range
    bounds and stored due dates, whenever [build_cashflow_context]
    returns, the three total lines have one value per month, the income
    line adds up to the income of the rows selected by the phase filter,
    the expense line to their expenses, and the balance line to income
    minus expenses. *)
Theorem cashflow_counts_every_row_once db start_date end_date phase
        account_id category_id user_f ctx :
  valid_date start_date -> valid_date end_date ->
  Forall (fun t => valid_date (data_vencimento t)) (transactions db) ->
  names_by_id (transactions db) ->
  build_cashflow_context db start_date end_date phase
                         account_id category_id user_f = Some ctx ->
  length (totals_receita_list ctx) = length (cf_months ctx)
  /\ length (totals_despesa_list ctx) = length (cf_months ctx)
  /\ length (totals_saldo_list ctx) = length (cf_months ctx)
  /\ Money.sum (totals_receita_list ctx)
     = rows_total receita
         (apply_phase_filter
            (get_finance_queryset db user_f account_id category_id)
            phase start_date end_date).1
  /\ Money.sum (totals_despesa_list ctx)
     = rows_total despesa
         (apply_phase_filter
            (get_finance_queryset db user_f account_id category_id)
            phase start_date end_date).1
  /\ Money.sum (totals_saldo_list ctx)
     = Money.sum (totals_receita_list ctx)
       - Money.sum (totals_despesa_list ctx).
Proof.
  intros Hs He Hdb Hnames. unfold build_cashflow_context.
  set (qs0 := get_finance_queryset db user_f account_id category_id).
  assert (forall t, t ∈ qs0 -> t ∈ transactions db) as Hqs0.
  { intros t Ht. subst qs0. unfold get_finance_queryset in Ht.
    repeat case_match; repeat (apply list_elem_of_filter in Ht as [_ Ht]);
      done. }
  unfold apply_phase_filter. cbv zeta. cbn [fst].
  set (qs := match phase with
             | futuro => filter _ _
             | consolidado => filter _ _
             end).
  assert (forall t, t ∈ qs ->
            t ∈ transactions db
            /\ date_leb start_date (data_vencimento t) = true
            /\ date_leb (data_vencimento t) end_date = true) as Hqs.
  { intros t Ht. subst qs.
    assert (t ∈ filter (fun t =>
                          date_leb start_date (data_vencimento t) = true
                          /\ date_leb (data_vencimento t) end_date = true)
                  (filter (fun t => status t <> cancelado) qs0)) as Hin
      by (destruct phase; by apply list_elem_of_filter in Ht as [_ Ht]).
    apply list_elem_of_filter in Hin as [[H1 H2] Hin].
    apply list_elem_of_filter in Hin as [_ Hin]. auto. }
  destruct (_month_list start_date end_date) as [months|] eqn:Hm;
    [|done]. simpl.
  set (Q := fun x : CashItem =>
              on_sheet months x
              /\ exists t, t ∈ transactions db
                           /\ cat_id (category t) = ci_category_id x
                           /\ nome (category t) = ci_category_nome x).
  destruct (cash_aggregates_spec Q qs data_vencimento_field)
    as (HQ & Hnd & Htot).
  { intros a b Hab [(m & idx & H1 & H2) (t & Ht & H3 & H4)].
    injection Hab as _ Hc Hn Hmo. split.
    - exists m, idx. by rewrite <- Hmo.
    - exists t. by rewrite <- Hc, <- Hn. }
  { intros t Ht. destruct (Hqs t Ht) as (Hin & H1 & H2). split.
    - exists (replace_day1 (data_vencimento t)).
      rewrite Forall_forall in Hdb.
      destruct (month_index_dom months
                  (replace_day1 (data_vencimento t))) as [idx Hidx].
      { apply (month_in_list start_date end_date); try done.
        by apply Hdb. }
      exists idx. done.
    - by exists t. }
  assert (NoDup (map cell_key
                     (cash_aggregates qs data_vencimento_field)))
    as Hcells.
  { assert (map cell_key (cash_aggregates qs data_vencimento_field)
            = (fun k : Tipo * nat * string * option date =>
                 (k.1.1.1, k.1.1.2, k.2))
                <$> map cash_key
                      (cash_aggregates qs data_vencimento_field)) as ->.
    { rewrite <- list_fmap_compose. done. }
    apply NoDup_fmap_2_strong; [|done].
    intros k1 k2 Hk1 Hk2 Heq.
    apply list_elem_of_fmap in Hk1 as (x & -> & Hx).
    apply list_elem_of_fmap in Hk2 as (y & -> & Hy).
    rewrite Forall_forall in HQ.
    destruct (HQ x Hx) as [_ (t1 & Ht1 & Hc1 & Hn1)].
    destruct (HQ y Hy) as [_ (t2 & Ht2 & Hc2 & Hn2)].
    unfold cash_key in *. simpl in Heq. injection Heq as E1 E2 E3.
    rewrite E1, E2, E3. do 2 f_equal.
    rewrite <- Hn1, <- Hn2. apply Hnames; [done|done|]. congruence. }
  destruct (sheet_fold months
              (cash_aggregates qs data_vencimento_field) [] [])
    as (rows & Hfold & Hinv).
  { split; [constructor|]. split; [done|]. intros rk row idx v H. done. }
  { eapply Forall_impl; [exact HQ|]. by intros x [Hx _]. }
  { done. }
  match goal with
  | |- context [foldl (cash_step ?ms ?mi) ?a ?l] =>
      replace (foldl (cash_step ms mi) a l) with (Some rows)
        by (symmetry; exact Hfold)
  end.
  simpl. intros [= <-]. simpl.
  destruct Hinv as (I1 & I2 & _). simpl in I2.
  set (rows' := map (fun kr : (Tipo * nat) * Row =>
                       set_total (Money.sum (values_list kr.2)) kr.2)
                    rows).
  assert (Forall (fun r => length (values_list r) = length months) rows')
    as Hlens.
  { subst rows'. apply Forall_forall. intros r Hr.
    apply list_elem_of_fmap in Hr as (kr & -> & Hkr).
    rewrite Forall_forall in I1. by destruct (I1 _ Hkr). }
  assert (forall (P : Row -> Prop) `{forall r, Decision (P r)},
            Money.sum (foldl add_row (map (fun _ => 0) months)
                             (sort_rows (filter P rows')))
            = Money.sum
                (map (fun r => if bool_decide (P r)
                               then Money.sum (values_list r) else 0)
                     rows')
            /\ length (foldl add_row (map (fun _ => 0) months)
                             (sort_rows (filter P rows')))
               = length months) as Hline.
  { intros P HP.
    destruct (add_rows_sum (sort_rows (filter P rows'))
                (map (fun _ => 0) months)) as [H1 H2].
    { rewrite length_map. rewrite sort_rows_perm.
      apply Forall_forall. intros r Hr.
      apply list_elem_of_filter in Hr as [_ Hr].
      rewrite Forall_forall in Hlens. by apply Hlens. }
    rewrite H1, H2, length_map.
    rewrite (BillingFacts.sum_zero (fun _ => 0)) by done.
    rewrite (DeletionFacts.sum_perm _ _
               (Permutation_map _ (sort_rows_perm (filter P rows')))).
    rewrite sum_filter_tipo. split; [lia|done]. }
  destruct (Hline (fun r => row_tipo r = receita) _) as [Sr Lr].
  destruct (Hline (fun r => row_tipo r <> receita) _) as [Sd Ld].
  destruct (sum_zip_sub
              (foldl add_row (map (fun _ => 0) months)
                     (sort_rows (filter (fun r => row_tipo r = receita)
                                        rows')))
              (foldl add_row (map (fun _ => 0) months)
                     (sort_rows (filter (fun r => row_tipo r <> receita)
                                        rows'))))
    as [Ss Ls]; [by rewrite Lr, Ld|].
  split; [done|]. split; [done|]. split; [by rewrite Ls|].
  split; [|split; [|done]].
  - rewrite Sr, <- Htot, <- I2. unfold rows_of_kind_total, rows'.
    rewrite map_map. apply DashboardFacts.sum_map_ext.
    intros kr _. unfold row_contribution. done.
  - rewrite Sd, <- Htot, <- I2. unfold rows_of_kind_total, rows'.
    rewrite map_map. apply DashboardFacts.sum_map_ext.
    intros kr _. unfold row_contribution. simpl.
    destruct (row_tipo kr.2); done.
Qed.

Lemma cashflow_counts_every_row_once_witness :
  exists ctx,
    build_cashflow_context Samples.db_cash (Date 2026 1 1)
                           (Date 2026 2 28) consolidado None None None
    = Some ctx
    /\ Money.sum (totals_saldo_list ctx)
       = Money.sum (totals_receita_list ctx)
         - Money.sum (totals_despesa_list ctx).
Proof.
  assert (valid_date (Date 2026 1 1)) as H1 by reflexivity.
  assert (valid_date (Date 2026 2 28)) as H2 by reflexivity.
  assert (Forall (fun t => valid_date (data_vencimento t))
                 (transactions Samples.db_cash)) as H3
    by (repeat constructor).
  assert (names_by_id (transactions Samples.db_cash)) as H4.
  { intros t1 t2 Ht1 Ht2.
    repeat (apply elem_of_cons in Ht1 as [->|Ht1]);
      try (by apply elem_of_nil in Ht1);
      repeat (apply elem_of_cons in Ht2 as [->|Ht2]);
      try (by apply elem_of_nil in Ht2); done. }
  destruct (build_cashflow_context Samples.db_cash (Date 2026 1 1)
              (Date 2026 2 28) consolidado None None None)
    as [ctx|] eqn:Hctx; [|vm_compute in Hctx; discriminate Hctx].
  exists ctx. split; [reflexivity|].
  destruct (cashflow_counts_every_row_once Samples.db_cash
              (Date 2026 1 1) (Date 2026 2 28) consolidado None None None
              ctx H1 H2 H3 H4 Hctx) as (_ & _ & _ & _ & _ & H).
  exact H.
Defined.

End CashflowFacts.
